(** * E-Cash protocol: the elastic-supply token, the oracle aggregator and
      the stabilization controller, embedded from the Solidity sources.

    Storage words are [Z] with Solidity 0.8 checked arithmetic written out
    (an overflow, an underflow or a division by zero is a [Panic]); a
    [mapping] is a [gmap] read with the all-zero default; a dynamic array is
    a [list].  A call either returns a value together with the new storage
    or fails; a failed call leaves the storage it started from ([commit]).
    [emit] statements touch neither storage nor control flow and are not
    part of the model. *)

From stdpp Require Import gmap strings list fin_maps.
From Stdlib Require Import ZArith Lia.

Local Open Scope Z_scope.

(** ** The execution substrate *)

Module EVM.

Definition address := N.

Inductive error :=
  | Revert (reason : string)      (* require(cond, reason) of the sources *)
  | Panic (code : Z)              (* 0x11 arithmetic, 0x12 division by zero *)
  | MissingRole                   (* onlyRole of AccessControl *)
  | EnforcedPause                 (* whenNotPaused of Pausable *)
  | AlreadyInitialized.           (* initializer of Initializable *)

Inductive result (A : Type) :=
  | Ok (a : A)
  | Err (e : error).
Arguments Ok {A} a.
Arguments Err {A} e.

Definition bind {A B} (r : result A) (k : A -> result B) : result B :=
  match r with
  | Ok a => k a
  | Err e => Err e
  end.

Definition is_ok {A} (r : result A) : bool :=
  match r with Ok _ => true | Err _ => false end.

Definition is_panic {A} (r : result A) : bool :=
  match r with Err (Panic _) => true | _ => false end.

Definition require (cond : bool) (reason : string) : result unit :=
  if cond then Ok tt else Err (Revert reason).

(** A transaction: the storage after a call is the one the call returns, or
    the one it started from when the call fails. *)
Definition commit {S A} (s : S) (r : result (A * S)) : S :=
  match r with
  | Ok (_, s') => s'
  | Err _ => s
  end.

Definition ARITHMETIC : Z := 17.      (* Panic(0x11) *)
Definition DIV_BY_ZERO : Z := 18.     (* Panic(0x12) *)

Definition UINT256_MAX : Z := 2 ^ 256 - 1.
Definition UINT128_MAX : Z := 2 ^ 128 - 1.
Definition INT256_MIN : Z := - 2 ^ 255.
Definition INT256_MAX : Z := 2 ^ 255 - 1.

Definition is_uint256 (x : Z) : Prop := 0 <= x <= UINT256_MAX.
Definition is_int256 (x : Z) : Prop := INT256_MIN <= x <= INT256_MAX.

Definition checked_add (a b : Z) : result Z :=
  if a + b <=? UINT256_MAX then Ok (a + b) else Err (Panic ARITHMETIC).

Definition checked_sub (a b : Z) : result Z :=
  if b <=? a then Ok (a - b) else Err (Panic ARITHMETIC).

Definition checked_mul (a b : Z) : result Z :=
  if a * b <=? UINT256_MAX then Ok (a * b) else Err (Panic ARITHMETIC).

Definition checked_div (a b : Z) : result Z :=
  if b =? 0 then Err (Panic DIV_BY_ZERO) else Ok (a / b).

Definition checked_pow (a b : Z) : result Z :=
  if a ^ b <=? UINT256_MAX then Ok (a ^ b) else Err (Panic ARITHMETIC).

(** Unary minus on int256. *)
Definition checked_neg (a : Z) : result Z :=
  if a =? INT256_MIN then Err (Panic ARITHMETIC) else Ok (- a).

(** The explicit conversions [int256(x)] and [uint256(x)] reinterpret the
    word and never fail. *)
Definition to_int256 (x : Z) : Z :=
  if x <=? INT256_MAX then x else x - 2 ^ 256.

Definition to_uint256 (x : Z) : Z :=
  if 0 <=? x then x else x + 2 ^ 256.

End EVM.

Import EVM.

Notation "'let!' x ':=' m 'in' k" := (bind m (fun x => k))
  (at level 10, x pattern, m at level 100, k at level 200, only parsing).

(** ** The inherited OpenZeppelin mixins

    [Initializable], [AccessControlUpgradeable] and [PausableUpgradeable] are
    imported, not part of the repository; the three contracts use their
    modifiers and their external role functions.  No contract calls
    [_setRoleAdmin], so the admin of every role is [DEFAULT_ADMIN_ROLE]. *)

Module OZ.

Inductive role :=
  | DEFAULT_ADMIN_ROLE
  | REBASER_ROLE
  | PAUSER_ROLE
  | OPERATOR_ROLE
  | ORACLE_MANAGER_ROLE.

#[global] Instance role_eq_dec : EqDecision role.
Proof. solve_decision. Defined.

Definition role_code (r : role) : nat :=
  match r with
  | DEFAULT_ADMIN_ROLE => 0
  | REBASER_ROLE => 1
  | PAUSER_ROLE => 2
  | OPERATOR_ROLE => 3
  | ORACLE_MANAGER_ROLE => 4
  end%nat.

Definition role_of_code (n : nat) : role :=
  match n with
  | 0 => DEFAULT_ADMIN_ROLE
  | 1 => REBASER_ROLE
  | 2 => PAUSER_ROLE
  | 3 => OPERATOR_ROLE
  | _ => ORACLE_MANAGER_ROLE
  end%nat.

#[global] Instance role_countable : Countable role.
Proof.
  apply (inj_countable' role_code role_of_code).
  intros []; reflexivity.
Defined.

Record State := {
  _initialized : bool;
  _roles : gset (role * address);
  _paused : bool;
}.

Definition deployed : State :=
  {| _initialized := false; _roles := ∅; _paused := false |}.

Definition hasRole (r : role) (a : address) (s : State) : bool :=
  bool_decide ((r, a) ∈ _roles s).

Definition set_initialized (b : bool) (s : State) : State :=
  {| _initialized := b; _roles := _roles s; _paused := _paused s |}.

Definition set_paused (b : bool) (s : State) : State :=
  {| _initialized := _initialized s; _roles := _roles s; _paused := b |}.

Definition _grantRole (r : role) (a : address) (s : State) : State :=
  {| _initialized := _initialized s;
     _roles := {[ (r, a) ]} ∪ _roles s;
     _paused := _paused s |}.

Definition _revokeRole (r : role) (a : address) (s : State) : State :=
  {| _initialized := _initialized s;
     _roles := _roles s ∖ {[ (r, a) ]};
     _paused := _paused s |}.

(** The modifiers. *)
Definition initializer (s : State) : result State :=
  if _initialized s then Err AlreadyInitialized else Ok (set_initialized true s).

Definition onlyRole (r : role) (sender : address) (s : State) : result unit :=
  if hasRole r sender s then Ok tt else Err MissingRole.

Definition whenNotPaused (s : State) : result unit :=
  if _paused s then Err EnforcedPause else Ok tt.

Definition whenPaused (s : State) : result unit :=
  if _paused s then Ok tt else Err (Revert "Pausable: not paused").

Definition _pause (s : State) : result State :=
  let! _ := whenNotPaused s in Ok (set_paused true s).

Definition _unpause (s : State) : result State :=
  let! _ := whenPaused s in Ok (set_paused false s).

(** The external role functions. *)
Definition grantRole (sender : address) (r : role) (a : address) (s : State)
  : result State :=
  let! _ := onlyRole DEFAULT_ADMIN_ROLE sender s in Ok (_grantRole r a s).

Definition revokeRole (sender : address) (r : role) (a : address) (s : State)
  : result State :=
  let! _ := onlyRole DEFAULT_ADMIN_ROLE sender s in Ok (_revokeRole r a s).

Definition renounceRole (sender : address) (r : role) (a : address) (s : State)
  : result State :=
  let! _ := require (bool_decide (a = sender))
              "AccessControl: can only renounce roles for self" in
  Ok (_revokeRole r a s).

End OZ.

(** ** ECashToken: the elastic-supply ledger *)

Module ECashToken.

Import OZ.

Definition INITIAL_FRAGMENTS_SUPPLY : Z := 1000000 * 10 ^ 18.
Definition TOTAL_GONS : Z :=
  UINT256_MAX - (UINT256_MAX mod INITIAL_FRAGMENTS_SUPPLY).
Definition MAX_SUPPLY : Z := UINT128_MAX.

Record State := {
  oz : OZ.State;
  _totalSupply : Z;
  _gonsPerFragment : Z;
  _gonBalances : gmap address Z;
  _allowedFragments : gmap (address * address) Z;
  rebaseCount : Z;
}.

Definition deployed : State :=
  {| oz := OZ.deployed; _totalSupply := 0; _gonsPerFragment := 0;
     _gonBalances := ∅; _allowedFragments := ∅; rebaseCount := 0 |}.

Definition set_oz (o : OZ.State) (s : State) : State :=
  {| oz := o; _totalSupply := _totalSupply s;
     _gonsPerFragment := _gonsPerFragment s; _gonBalances := _gonBalances s;
     _allowedFragments := _allowedFragments s; rebaseCount := rebaseCount s |}.

Definition set_totalSupply (v : Z) (s : State) : State :=
  {| oz := oz s; _totalSupply := v;
     _gonsPerFragment := _gonsPerFragment s; _gonBalances := _gonBalances s;
     _allowedFragments := _allowedFragments s; rebaseCount := rebaseCount s |}.

Definition set_gonsPerFragment (v : Z) (s : State) : State :=
  {| oz := oz s; _totalSupply := _totalSupply s;
     _gonsPerFragment := v; _gonBalances := _gonBalances s;
     _allowedFragments := _allowedFragments s; rebaseCount := rebaseCount s |}.

Definition set_gonBalances (m : gmap address Z) (s : State) : State :=
  {| oz := oz s; _totalSupply := _totalSupply s;
     _gonsPerFragment := _gonsPerFragment s; _gonBalances := m;
     _allowedFragments := _allowedFragments s; rebaseCount := rebaseCount s |}.

Definition set_allowedFragments (m : gmap (address * address) Z) (s : State)
  : State :=
  {| oz := oz s; _totalSupply := _totalSupply s;
     _gonsPerFragment := _gonsPerFragment s; _gonBalances := _gonBalances s;
     _allowedFragments := m; rebaseCount := rebaseCount s |}.

Definition set_rebaseCount (v : Z) (s : State) : State :=
  {| oz := oz s; _totalSupply := _totalSupply s;
     _gonsPerFragment := _gonsPerFragment s; _gonBalances := _gonBalances s;
     _allowedFragments := _allowedFragments s; rebaseCount := v |}.

(** Reads of the two mappings: an absent slot is zero. *)
Definition gons (s : State) (a : address) : Z :=
  default 0 (_gonBalances s !! a).

Definition allowed (s : State) (owner spender : address) : Z :=
  default 0 (_allowedFragments s !! (owner, spender)).

(** [__ERC20_init(name, symbol)] only stores the two strings in the
    inherited ERC-20, which nothing below reads. *)
Definition initialize (name symbol : string) (admin : address) (s : State)
  : result (unit * State) :=
  let! o := initializer (oz s) in
  let o := _grantRole DEFAULT_ADMIN_ROLE admin o in
  let o := _grantRole REBASER_ROLE admin o in
  let o := _grantRole PAUSER_ROLE admin o in
  let s := set_oz o s in
  let s := set_totalSupply INITIAL_FRAGMENTS_SUPPLY s in
  let s := set_gonBalances (<[admin := TOTAL_GONS]> (_gonBalances s)) s in
  let! g := checked_div TOTAL_GONS (_totalSupply s) in
  let s := set_gonsPerFragment g s in
  Ok (tt, s).

Definition rebase (sender : address) (supplyDelta : Z) (s : State)
  : result (Z * State) :=
  let! _ := onlyRole REBASER_ROLE sender (oz s) in
  let! _ := whenNotPaused (oz s) in
  let! n := checked_add (rebaseCount s) 1 in
  let s := set_rebaseCount n s in
  if supplyDelta =? 0 then Ok (_totalSupply s, s)
  else
    let! newTotalSupply :=
      (if supplyDelta <? 0 then
         let! negated := checked_neg supplyDelta in
         let deltaAbs := to_uint256 negated in
         if _totalSupply s >? deltaAbs
         then checked_sub (_totalSupply s) deltaAbs
         else Ok 0
       else
         let deltaAbs := to_uint256 supplyDelta in
         checked_add (_totalSupply s) deltaAbs) in
    let! _ := require (newTotalSupply <=? MAX_SUPPLY) "Max supply exceeded" in
    let s := set_totalSupply newTotalSupply s in
    let! g := checked_div TOTAL_GONS (_totalSupply s) in
    let s := set_gonsPerFragment g s in
    Ok (_totalSupply s, s).

Definition totalSupply (s : State) : Z := _totalSupply s.

Definition balanceOf (account : address) (s : State) : result Z :=
  checked_div (gons s account) (_gonsPerFragment s).

Definition scaledBalanceOf (account : address) (s : State) : Z :=
  gons s account.

Definition transfer (sender to : address) (amount : Z) (s : State)
  : result (bool * State) :=
  let! _ := whenNotPaused (oz s) in
  let! gonAmount := checked_mul amount (_gonsPerFragment s) in
  let! debited := checked_sub (gons s sender) gonAmount in
  let s := set_gonBalances (<[sender := debited]> (_gonBalances s)) s in
  let! credited := checked_add (gons s to) gonAmount in
  let s := set_gonBalances (<[to := credited]> (_gonBalances s)) s in
  Ok (true, s).

Definition transferFrom (sender from to : address) (amount : Z) (s : State)
  : result (bool * State) :=
  let! _ := whenNotPaused (oz s) in
  let! gonAmount := checked_mul amount (_gonsPerFragment s) in
  let! s :=
    (if negb (allowed s from sender =? UINT256_MAX) then
       let! remaining := checked_sub (allowed s from sender) amount in
       Ok (set_allowedFragments
             (<[(from, sender) := remaining]> (_allowedFragments s)) s)
     else Ok s) in
  let! debited := checked_sub (gons s from) gonAmount in
  let s := set_gonBalances (<[from := debited]> (_gonBalances s)) s in
  let! credited := checked_add (gons s to) gonAmount in
  let s := set_gonBalances (<[to := credited]> (_gonBalances s)) s in
  Ok (true, s).

Definition approve (sender spender : address) (amount : Z) (s : State)
  : result (bool * State) :=
  Ok (true,
      set_allowedFragments
        (<[(sender, spender) := amount]> (_allowedFragments s)) s).

Definition allowance (owner spender : address) (s : State) : Z :=
  allowed s owner spender.

Definition pause (sender : address) (s : State) : result (unit * State) :=
  let! _ := onlyRole PAUSER_ROLE sender (oz s) in
  let! o := _pause (oz s) in
  Ok (tt, set_oz o s).

Definition unpause (sender : address) (s : State) : result (unit * State) :=
  let! _ := onlyRole PAUSER_ROLE sender (oz s) in
  let! o := _unpause (oz s) in
  Ok (tt, set_oz o s).

(** The external interface, one constructor per entry point. *)
Inductive call :=
  | Initialize (name symbol : string) (admin : address)
  | Rebase (supplyDelta : Z)
  | Transfer (to : address) (amount : Z)
  | TransferFrom (from to : address) (amount : Z)
  | Approve (spender : address) (amount : Z)
  | Pause
  | Unpause
  | GrantRole (r : role) (a : address)
  | RevokeRole (r : role) (a : address)
  | RenounceRole (r : role) (a : address).

Definition lift_oz (s : State) (r : result OZ.State) : result (unit * State) :=
  let! o := r in Ok (tt, set_oz o s).

Definition forget {A} (r : result (A * State)) : result (unit * State) :=
  let! p := r in Ok (tt, snd p).

Definition run (sender : address) (c : call) (s : State)
  : result (unit * State) :=
  match c with
  | Initialize name symbol admin => initialize name symbol admin s
  | Rebase d => forget (rebase sender d s)
  | Transfer to amount => forget (transfer sender to amount s)
  | TransferFrom from to amount => forget (transferFrom sender from to amount s)
  | Approve spender amount => forget (approve sender spender amount s)
  | Pause => pause sender s
  | Unpause => unpause sender s
  | GrantRole r a => lift_oz s (grantRole sender r a (oz s))
  | RevokeRole r a => lift_oz s (revokeRole sender r a (oz s))
  | RenounceRole r a => lift_oz s (renounceRole sender r a (oz s))
  end.

Definition step (sender : address) (c : call) (s : State) : State :=
  commit s (run sender c s).

(** Storage reachable from the freshly deployed contract by external calls;
    the arguments are well-typed words. *)
Definition well_typed (c : call) : Prop :=
  match c with
  | Rebase d => is_int256 d
  | Transfer _ amount | TransferFrom _ _ amount | Approve _ amount =>
      is_uint256 amount
  | _ => True
  end.

Inductive reachable : State -> Prop :=
  | reachable_deployed : reachable deployed
  | reachable_step sender c s :
      reachable s -> well_typed c -> reachable (step sender c s).

(** What a rebase does once its modifiers let the caller in. *)
Definition authorised (sender : address) (s : State) : Prop :=
  hasRole REBASER_ROLE sender (oz s) = true /\
  _paused (oz s) = false /\
  rebaseCount s + 1 <= UINT256_MAX.

Definition rebased (newSupply : Z) (s : State) : State :=
  set_gonsPerFragment (TOTAL_GONS / newSupply)
    (set_totalSupply newSupply (set_rebaseCount (rebaseCount s + 1) s)).

(** The supply invariant of the deployed contract: before [initialize]
    nobody holds a role and the supply is the zero word; afterwards the
    supply is positive, within the cap, and the ratio is the quotient. *)
Definition supply_inv (s : State) : Prop :=
  if _initialized (oz s) then
    0 < _totalSupply s <= MAX_SUPPLY /\
    _gonsPerFragment s = TOTAL_GONS / _totalSupply s
  else
    _totalSupply s = 0 /\ forall r a, hasRole r a (oz s) = false.

End ECashToken.

(** ** OracleAggregator: the weighted price aggregator *)

Module OracleAggregator.

Import OZ.

Record OracleConfig := {
  oracle : address;
  weight : Z;
  heartbeat : Z;
  isActive : bool;
  decimals : Z;
  description : string;
}.

(** What a mapping slot that was never written reads as. *)
Definition no_config : OracleConfig :=
  {| oracle := 0%N; weight := 0; heartbeat := 0; isActive := false;
     decimals := 0; description := "" |}.

Record State := {
  oz : OZ.State;
  oracles : gmap string OracleConfig;
  oracleKeys : list string;
}.

Definition deployed : State :=
  {| oz := OZ.deployed; oracles := ∅; oracleKeys := [] |}.

Definition PRICE_PRECISION : Z := 10 ^ 18.
Definition MAX_PRICE_DEVIATION : Z := 20 * 10 ^ 16.
Definition MIN_ORACLES_REQUIRED : Z := 1.

Definition set_oz (o : OZ.State) (s : State) : State :=
  {| oz := o; oracles := oracles s; oracleKeys := oracleKeys s |}.

Definition set_oracles (m : gmap string OracleConfig) (s : State) : State :=
  {| oz := oz s; oracles := m; oracleKeys := oracleKeys s |}.

Definition set_oracleKeys (l : list string) (s : State) : State :=
  {| oz := oz s; oracles := oracles s; oracleKeys := l |}.

Definition config_of (s : State) (key : string) : OracleConfig :=
  default no_config (oracles s !! key).

Definition initialize (admin : address) (s : State) : result (unit * State) :=
  let! o := initializer (oz s) in
  let o := _grantRole DEFAULT_ADMIN_ROLE admin o in
  let o := _grantRole ORACLE_MANAGER_ROLE admin o in
  Ok (tt, set_oz o s).

Definition addOracle (sender : address) (key : string) (oracle_ : address)
    (weight_ heartbeat_ decimals_ : Z) (description_ : string) (s : State)
  : result (unit * State) :=
  let! _ := onlyRole ORACLE_MANAGER_ROLE sender (oz s) in
  let! _ := require (negb (N.eqb oracle_ 0)) "Invalid oracle address" in
  let! _ := require (weight_ >? 0) "Weight must be positive" in
  let! _ := require (negb (isActive (config_of s key))) "Oracle already exists" in
  let s := set_oracles
             (<[key := {| oracle := oracle_; weight := weight_;
                          heartbeat := heartbeat_; isActive := true;
                          decimals := decimals_;
                          description := description_ |}]> (oracles s)) s in
  let s := set_oracleKeys (oracleKeys s ++ [key]) s in
  Ok (tt, s).

Definition updateOracle (sender : address) (key : string)
    (weight_ heartbeat_ : Z) (s : State) : result (unit * State) :=
  let! _ := onlyRole ORACLE_MANAGER_ROLE sender (oz s) in
  let! _ := require (isActive (config_of s key)) "Oracle does not exist" in
  let! _ := require (weight_ >? 0) "Weight must be positive" in
  let c := config_of s key in
  let c := {| oracle := oracle c; weight := weight_; heartbeat := heartbeat_;
              isActive := isActive c; decimals := decimals c;
              description := description c |} in
  Ok (tt, set_oracles (<[key := c]> (oracles s)) s).

(** The removal loop: the first slot holding [key] takes the last element
    and the array is popped; [keccak256] of the two strings is compared,
    which is equality of the strings. *)
Fixpoint remove_key (key : string) (keys : list string) (i : nat) (n : nat)
  : list string :=
  match n with
  | O => keys
  | S n' =>
      match keys !! i with
      | Some k =>
          if String.eqb k key
          then removelast (<[i := List.last keys k]> keys)
          else remove_key key keys (S i) n'
      | None => keys
      end
  end.

Definition removeOracle (sender : address) (key : string) (s : State)
  : result (unit * State) :=
  let! _ := onlyRole ORACLE_MANAGER_ROLE sender (oz s) in
  let! _ := require (isActive (config_of s key)) "Oracle does not exist" in
  let c := config_of s key in
  let c := {| oracle := oracle c; weight := weight c; heartbeat := heartbeat c;
              isActive := false; decimals := decimals c;
              description := description c |} in
  let s := set_oracles (<[key := c]> (oracles s)) s in
  let s := set_oracleKeys
             (remove_key key (oracleKeys s) 0 (length (oracleKeys s))) s in
  Ok (tt, s).

Definition _normalizePrice (price decimals_ : Z) : result Z :=
  if decimals_ =? 18 then Ok price
  else if decimals_ <? 18 then
    let! scale := checked_pow 10 (18 - decimals_) in
    checked_mul price scale
  else
    let! scale := checked_pow 10 (decimals_ - 18) in
    checked_div price scale.

(** What [latestRoundData()] of a feed returns; the aggregator reads the
    answer and its time.  A feed absent from the table is one whose call
    reverts, which the [try] catches. *)
Record RoundData := {
  answer : Z;
  updatedAt : Z;
}.

Record Totals := {
  totalWeight : Z;
  weightedSum : Z;
  oldestTimestamp : Z;
  validOracles : Z;
}.

(** One iteration of the aggregation loop. *)
Definition visit (now : Z) (feeds : gmap address RoundData) (s : State)
    (t : Totals) (key : string) : result Totals :=
  let config := config_of s key in
  if negb (isActive config) then Ok t
  else
    match feeds !! oracle config with
    | Some round =>
        if (answer round >? 0) && (updatedAt round >? 0) then
          let! age := checked_sub now (updatedAt round) in
          if age <=? heartbeat config then
            let! normalizedPrice :=
              _normalizePrice (to_uint256 (answer round)) (decimals config) in
            let! contribution := checked_mul normalizedPrice (weight config) in
            let! ws := checked_add (weightedSum t) contribution in
            let! tw := checked_add (totalWeight t) (weight config) in
            let! vo := checked_add (validOracles t) 1 in
            Ok {| totalWeight := tw; weightedSum := ws;
                  oldestTimestamp :=
                    if updatedAt round <? oldestTimestamp t
                    then updatedAt round else oldestTimestamp t;
                  validOracles := vo |}
          else Ok t
        else Ok t
    | None => Ok t
    end.

Fixpoint visit_all (now : Z) (feeds : gmap address RoundData) (s : State)
    (t : Totals) (keys : list string) : result Totals :=
  match keys with
  | [] => Ok t
  | key :: rest =>
      let! t' := visit now feeds s t key in
      visit_all now feeds s t' rest
  end.

Definition getAggregatedPrice (now : Z) (feeds : gmap address RoundData)
    (s : State) : result (Z * Z * Z) :=
  let! _ := require (Z.of_nat (length (oracleKeys s)) >=? MIN_ORACLES_REQUIRED)
              "Insufficient oracles" in
  let! t := visit_all now feeds s
              {| totalWeight := 0; weightedSum := 0;
                 oldestTimestamp := UINT256_MAX; validOracles := 0 |}
              (oracleKeys s) in
  let! _ := require (validOracles t >=? MIN_ORACLES_REQUIRED)
              "Insufficient valid oracles" in
  let! _ := require (totalWeight t >? 0) "No valid oracle data" in
  let! price := checked_div (weightedSum t) (totalWeight t) in
  let timestamp := oldestTimestamp t in
  let! scaled := checked_mul (validOracles t) 100 in
  let! confidence := checked_div scaled (Z.of_nat (length (oracleKeys s))) in
  Ok (price, timestamp, confidence).

Definition getOracleCount (s : State) : Z := Z.of_nat (length (oracleKeys s)).

Definition isHealthy (now : Z) (feeds : gmap address RoundData) (s : State)
  : result bool :=
  let! r := getAggregatedPrice now feeds s in
  let '(_, _, confidence) := r in
  Ok (confidence >=? 50).

Inductive call :=
  | Initialize (admin : address)
  | AddOracle (key : string) (oracle_ : address)
      (weight_ heartbeat_ decimals_ : Z) (description_ : string)
  | UpdateOracle (key : string) (weight_ heartbeat_ : Z)
  | RemoveOracle (key : string)
  | GrantRole (r : role) (a : address)
  | RevokeRole (r : role) (a : address)
  | RenounceRole (r : role) (a : address).

Definition lift_oz (s : State) (r : result OZ.State) : result (unit * State) :=
  let! o := r in Ok (tt, set_oz o s).

Definition run (sender : address) (c : call) (s : State)
  : result (unit * State) :=
  match c with
  | Initialize admin => initialize admin s
  | AddOracle key o w h d descr => addOracle sender key o w h d descr s
  | UpdateOracle key w h => updateOracle sender key w h s
  | RemoveOracle key => removeOracle sender key s
  | GrantRole r a => lift_oz s (grantRole sender r a (oz s))
  | RevokeRole r a => lift_oz s (revokeRole sender r a (oz s))
  | RenounceRole r a => lift_oz s (renounceRole sender r a (oz s))
  end.

Definition step (sender : address) (c : call) (s : State) : State :=
  commit s (run sender c s).

Inductive reachable : State -> Prop :=
  | reachable_deployed : reachable deployed
  | reachable_step sender c s : reachable s -> reachable (step sender c s).

(** *** The aggregate in closed form, to compare the loop with *)

Definition normalize (price decimals_ : Z) : Z :=
  if decimals_ =? 18 then price
  else if decimals_ <? 18 then price * 10 ^ (18 - decimals_)
  else price / 10 ^ (decimals_ - 18).

(** The test a quote passes to be counted. *)
Definition accepts (now : Z) (c : OracleConfig) (q : RoundData) : bool :=
  (answer q >? 0) && (updatedAt q >? 0) && (now - updatedAt q <=? heartbeat c).

(** The quote a registered key contributes, if any. *)
Definition contribution (now : Z) (feeds : gmap address RoundData) (s : State)
    (key : string) : option (OracleConfig * RoundData) :=
  let c := config_of s key in
  if isActive c then
    match feeds !! oracle c with
    | Some q => if accepts now c q then Some (c, q) else None
    | None => None
    end
  else None.

Definition contributions (now : Z) (feeds : gmap address RoundData) (s : State)
  : list (OracleConfig * RoundData) :=
  omap (contribution now feeds s) (oracleKeys s).

Definition weightedSum_of (l : list (OracleConfig * RoundData)) : Z :=
  foldr (fun cq acc => normalize (answer cq.2) (decimals cq.1) * weight cq.1 + acc)
        0 l.

Definition totalWeight_of (l : list (OracleConfig * RoundData)) : Z :=
  foldr (fun cq acc => weight cq.1 + acc) 0 l.

Definition oldest_of (l : list (OracleConfig * RoundData)) : Z :=
  foldr (fun cq acc => Z.min (updatedAt cq.2) acc) UINT256_MAX l.

(** The number of sources the registry holds as active. *)
Definition activeSources (s : State) : nat :=
  size (filter (fun kc : string * OracleConfig => isActive kc.2 = true)
          (oracles s)).

(** The registry invariant: the key array lists the active sources, each
    once, and an active source has a positive weight. *)
Definition registry_inv (s : State) : Prop :=
  NoDup (oracleKeys s) /\
  (forall key, key ∈ oracleKeys s <-> isActive (config_of s key) = true) /\
  (forall key, isActive (config_of s key) = true ->
               weight (config_of s key) > 0).

End OracleAggregator.

(** ** StabilizationController: bands, cooldown and the circuit breaker *)

Module StabilizationController.

Import OZ.

Definition TARGET_PRICE : Z := 10 ^ 18.
Definition REBASE_COOLDOWN : Z := 12 * 3600.
Definition MAX_REBASE_PERCENTAGE : Z := 10 * 10 ^ 16.

Definition BAND_1_THRESHOLD : Z := 1 * 10 ^ 16.
Definition BAND_2_THRESHOLD : Z := 5 * 10 ^ 16.
Definition BAND_3_THRESHOLD : Z := 10 * 10 ^ 16.
Definition BAND_4_THRESHOLD : Z := 20 * 10 ^ 16.

Definition BAND_1_DAMPING : Z := 10 * 10 ^ 16.
Definition BAND_2_DAMPING : Z := 25 * 10 ^ 16.
Definition BAND_3_DAMPING : Z := 50 * 10 ^ 16.
Definition BAND_4_DAMPING : Z := 75 * 10 ^ 16.

Record RebaseData := {
  timestamp : Z;
  price : Z;
  supplyDelta : Z;
  newSupply : Z;
  stabilityBand : Z;
}.

Record State := {
  oz : OZ.State;
  ecashToken : address;
  oracleAggregator : address;
  treasury : address;
  lastRebaseTime : Z;
  rebaseCount : Z;
  circuitBreakerActive : bool;
  rebaseHistory : gmap Z RebaseData;
}.

Definition deployed : State :=
  {| oz := OZ.deployed; ecashToken := 0%N; oracleAggregator := 0%N;
     treasury := 0%N; lastRebaseTime := 0; rebaseCount := 0;
     circuitBreakerActive := false; rebaseHistory := ∅ |}.

Definition set_oz (o : OZ.State) (s : State) : State :=
  {| oz := o; ecashToken := ecashToken s;
     oracleAggregator := oracleAggregator s; treasury := treasury s;
     lastRebaseTime := lastRebaseTime s; rebaseCount := rebaseCount s;
     circuitBreakerActive := circuitBreakerActive s;
     rebaseHistory := rebaseHistory s |}.

Definition set_collaborators (t a r : address) (s : State) : State :=
  {| oz := oz s; ecashToken := t; oracleAggregator := a; treasury := r;
     lastRebaseTime := lastRebaseTime s; rebaseCount := rebaseCount s;
     circuitBreakerActive := circuitBreakerActive s;
     rebaseHistory := rebaseHistory s |}.

Definition set_lastRebaseTime (v : Z) (s : State) : State :=
  {| oz := oz s; ecashToken := ecashToken s;
     oracleAggregator := oracleAggregator s; treasury := treasury s;
     lastRebaseTime := v; rebaseCount := rebaseCount s;
     circuitBreakerActive := circuitBreakerActive s;
     rebaseHistory := rebaseHistory s |}.

Definition set_rebaseCount (v : Z) (s : State) : State :=
  {| oz := oz s; ecashToken := ecashToken s;
     oracleAggregator := oracleAggregator s; treasury := treasury s;
     lastRebaseTime := lastRebaseTime s; rebaseCount := v;
     circuitBreakerActive := circuitBreakerActive s;
     rebaseHistory := rebaseHistory s |}.

Definition set_circuitBreakerActive (b : bool) (s : State) : State :=
  {| oz := oz s; ecashToken := ecashToken s;
     oracleAggregator := oracleAggregator s; treasury := treasury s;
     lastRebaseTime := lastRebaseTime s; rebaseCount := rebaseCount s;
     circuitBreakerActive := b;
     rebaseHistory := rebaseHistory s |}.

Definition set_rebaseHistory (m : gmap Z RebaseData) (s : State) : State :=
  {| oz := oz s; ecashToken := ecashToken s;
     oracleAggregator := oracleAggregator s; treasury := treasury s;
     lastRebaseTime := lastRebaseTime s; rebaseCount := rebaseCount s;
     circuitBreakerActive := circuitBreakerActive s;
     rebaseHistory := m |}.

(** The controller together with what it calls: the chain's clock, the
    price feeds, the token at [ecashToken] and the aggregator at
    [oracleAggregator].  [self] is the controller's own address, the
    [msg.sender] of its calls to the token. *)
Record World := {
  now : Z;
  feeds : gmap address OracleAggregator.RoundData;
  token : ECashToken.State;
  aggregator : OracleAggregator.State;
  controller : State;
  self : address;
}.

Definition set_feeds (f : gmap address OracleAggregator.RoundData) (w : World)
  : World :=
  {| now := now w; feeds := f; token := token w; aggregator := aggregator w;
     controller := controller w; self := self w |}.

Definition set_now (t : Z) (w : World) : World :=
  {| now := t; feeds := feeds w; token := token w; aggregator := aggregator w;
     controller := controller w; self := self w |}.

Definition set_token (t : ECashToken.State) (w : World) : World :=
  {| now := now w; feeds := feeds w; token := t; aggregator := aggregator w;
     controller := controller w; self := self w |}.

Definition set_aggregator (a : OracleAggregator.State) (w : World) : World :=
  {| now := now w; feeds := feeds w; token := token w; aggregator := a;
     controller := controller w; self := self w |}.

Definition set_controller (c : State) (w : World) : World :=
  {| now := now w; feeds := feeds w; token := token w;
     aggregator := aggregator w; controller := c; self := self w |}.

Definition initialize (admin t a r : address) (s : State)
  : result (unit * State) :=
  let! o := initializer (oz s) in
  let o := _grantRole DEFAULT_ADMIN_ROLE admin o in
  let o := _grantRole OPERATOR_ROLE admin o in
  Ok (tt, set_collaborators t a r (set_oz o s)).

Definition _calculateDeviation (price_ : Z) : result Z :=
  if price_ >=? TARGET_PRICE then
    let! above := checked_sub price_ TARGET_PRICE in
    let! scaled := checked_mul above (10 ^ 18) in
    checked_div scaled TARGET_PRICE
  else
    let! below := checked_sub TARGET_PRICE price_ in
    let! scaled := checked_mul below (10 ^ 18) in
    checked_div scaled TARGET_PRICE.

Definition _getStabilityBand (deviation : Z) : Z :=
  if deviation >=? BAND_4_THRESHOLD then 4
  else if deviation >=? BAND_3_THRESHOLD then 3
  else if deviation >=? BAND_2_THRESHOLD then 2
  else if deviation >=? BAND_1_THRESHOLD then 1
  else 0.

Definition _getDampingFactor (band : Z) : Z :=
  if band =? 4 then BAND_4_DAMPING
  else if band =? 3 then BAND_3_DAMPING
  else if band =? 2 then BAND_2_DAMPING
  else if band =? 1 then BAND_1_DAMPING
  else 0.

(** The three intermediate quantities of [_calculateSupplyDelta]. *)
Definition rawAdjustment (currentSupply deviation : Z) : result Z :=
  let! product := checked_mul currentSupply deviation in
  checked_div product (10 ^ 18).

Definition dampedAdjustment (raw dampingFactor : Z) : result Z :=
  let! product := checked_mul raw dampingFactor in
  checked_div product (10 ^ 18).

Definition maxAdjustment (currentSupply : Z) : result Z :=
  let! product := checked_mul currentSupply MAX_REBASE_PERCENTAGE in
  checked_div product (10 ^ 18).

Definition _calculateSupplyDelta (w : World) (price_ band : Z) : result Z :=
  if price_ =? TARGET_PRICE then Ok 0
  else
    let currentSupply := ECashToken.totalSupply (token w) in
    let! deviation := _calculateDeviation price_ in
    let dampingFactor := _getDampingFactor band in
    let! raw := rawAdjustment currentSupply deviation in
    let! damped := dampedAdjustment raw dampingFactor in
    let! cap := maxAdjustment currentSupply in
    let damped := if damped >? cap then cap else damped in
    if price_ >? TARGET_PRICE then Ok (to_int256 damped)
    else checked_neg (to_int256 damped).

Definition canRebase (w : World) : result bool :=
  let! ready := checked_add (lastRebaseTime (controller w)) REBASE_COOLDOWN in
  Ok (now w >=? ready).

Definition rebase (sender : address) (w : World) : result (unit * World) :=
  let! _ := onlyRole OPERATOR_ROLE sender (oz (controller w)) in
  let! _ := whenNotPaused (oz (controller w)) in
  let! _ := require (negb (circuitBreakerActive (controller w)))
              "Circuit breaker active" in
  let! ready := canRebase w in
  let! _ := require ready "Rebase conditions not met" in
  let! reading :=
    OracleAggregator.getAggregatedPrice (now w) (feeds w) (aggregator w) in
  let '(price_, timestamp_, confidence) := reading in
  let! _ := require (confidence >=? 50) "Insufficient oracle confidence" in
  let! deviation := _calculateDeviation price_ in
  let band := _getStabilityBand deviation in
  if deviation >=? BAND_4_THRESHOLD then
    Ok (tt, set_controller (set_circuitBreakerActive true (controller w)) w)
  else
    let! delta := _calculateSupplyDelta w price_ band in
    if negb (delta =? 0) then
      let! applied := ECashToken.rebase (self w) delta (token w) in
      let '(newSupply_, token') := applied in
      let w := set_token token' w in
      let! n := checked_add (rebaseCount (controller w)) 1 in
      let c := set_rebaseCount n (controller w) in
      let c := set_lastRebaseTime (now w) c in
      let c := set_rebaseHistory
                 (<[rebaseCount c :=
                      {| timestamp := timestamp_; price := price_;
                         supplyDelta := delta; newSupply := newSupply_;
                         stabilityBand := band |}]> (rebaseHistory c)) c in
      Ok (tt, set_controller c w)
    else Ok (tt, w).

(** The five values [previewRebase()] returns. *)
Record Preview := {
  canExecute : bool;
  currentPrice : Z;
  deviation : Z;
  projectedSupplyDelta : Z;
  previewBand : Z;
}.

Definition previewRebase (w : World) : result Preview :=
  let! ready := canRebase w in
  let canExecute_ := ready && negb (circuitBreakerActive (controller w)) in
  match OracleAggregator.getAggregatedPrice (now w) (feeds w) (aggregator w)
  with
  | Ok (price_, _, confidence) =>
      if confidence >=? 50 then
        let! deviation_ := _calculateDeviation price_ in
        let band := _getStabilityBand deviation_ in
        let! delta := _calculateSupplyDelta w price_ band in
        Ok {| canExecute := canExecute_; currentPrice := price_;
              deviation := deviation_; projectedSupplyDelta := delta;
              previewBand := band |}
      else
        Ok {| canExecute := canExecute_; currentPrice := 0; deviation := 0;
              projectedSupplyDelta := 0; previewBand := 0 |}
  | Err _ =>
      Ok {| canExecute := false; currentPrice := 0; deviation := 0;
            projectedSupplyDelta := 0; previewBand := 0 |}
  end.

Definition resetCircuitBreaker (sender : address) (s : State)
  : result (unit * State) :=
  let! _ := onlyRole DEFAULT_ADMIN_ROLE sender (oz s) in
  Ok (tt, set_circuitBreakerActive false s).

Definition emergencyPause (sender : address) (s : State)
  : result (unit * State) :=
  let! _ := onlyRole DEFAULT_ADMIN_ROLE sender (oz s) in
  let! o := _pause (oz s) in
  Ok (tt, set_oz o s).

Definition emergencyUnpause (sender : address) (s : State)
  : result (unit * State) :=
  let! _ := onlyRole DEFAULT_ADMIN_ROLE sender (oz s) in
  let! o := _unpause (oz s) in
  Ok (tt, set_oz o s).

Inductive call :=
  | Initialize (admin t a r : address)
  | Rebase
  | ResetCircuitBreaker
  | EmergencyPause
  | EmergencyUnpause
  | GrantRole (r : role) (a : address)
  | RevokeRole (r : role) (a : address)
  | RenounceRole (r : role) (a : address).

Definition lift_oz (s : State) (r : result OZ.State) : result (unit * State) :=
  let! o := r in Ok (tt, set_oz o s).

Definition in_controller (w : World) (r : result (unit * State))
  : result (unit * World) :=
  let! p := r in Ok (tt, set_controller (snd p) w).

Definition run (sender : address) (c : call) (w : World)
  : result (unit * World) :=
  match c with
  | Initialize admin t a r =>
      in_controller w (initialize admin t a r (controller w))
  | Rebase => rebase sender w
  | ResetCircuitBreaker =>
      in_controller w (resetCircuitBreaker sender (controller w))
  | EmergencyPause => in_controller w (emergencyPause sender (controller w))
  | EmergencyUnpause =>
      in_controller w (emergencyUnpause sender (controller w))
  | GrantRole r a =>
      in_controller w
        (lift_oz (controller w) (grantRole sender r a (oz (controller w))))
  | RevokeRole r a =>
      in_controller w
        (lift_oz (controller w) (revokeRole sender r a (oz (controller w))))
  | RenounceRole r a =>
      in_controller w
        (lift_oz (controller w) (renounceRole sender r a (oz (controller w))))
  end.

(** Everything that can happen to the world: a transaction sent to one of
    the three contracts, a feed publishing a new round (or starting to
    revert), and time passing. *)
Inductive action :=
  | ToController (sender : address) (c : call)
  | ToToken (sender : address) (c : ECashToken.call)
  | ToAggregator (sender : address) (c : OracleAggregator.call)
  | FeedReports (feed : address) (round : option OracleAggregator.RoundData)
  | Elapse (seconds : Z).

Definition step (a : action) (w : World) : World :=
  match a with
  | ToController sender c => commit w (run sender c w)
  | ToToken sender c => set_token (ECashToken.step sender c (token w)) w
  | ToAggregator sender c =>
      set_aggregator (OracleAggregator.step sender c (aggregator w)) w
  | FeedReports feed round =>
      set_feeds (match round with
                 | Some r => <[feed := r]> (feeds w)
                 | None => delete feed (feeds w)
                 end) w
  | Elapse seconds => set_now (now w + seconds) w
  end.

(** What the successful paths through rebase() are. *)
Inductive rebase_outcome (w : World) : World -> Prop :=
  | outcome_halt price_ ts conf dev :
      OracleAggregator.getAggregatedPrice (now w) (feeds w) (aggregator w)
        = Ok (price_, ts, conf) ->
      conf >= 50 ->
      _calculateDeviation price_ = Ok dev ->
      dev >= BAND_4_THRESHOLD ->
      rebase_outcome w
        (set_controller (set_circuitBreakerActive true (controller w)) w)
  | outcome_idle price_ ts conf dev :
      OracleAggregator.getAggregatedPrice (now w) (feeds w) (aggregator w)
        = Ok (price_, ts, conf) ->
      conf >= 50 ->
      _calculateDeviation price_ = Ok dev ->
      dev < BAND_4_THRESHOLD ->
      _calculateSupplyDelta w price_ (_getStabilityBand dev) = Ok 0 ->
      rebase_outcome w w
  | outcome_applied price_ ts conf dev delta newSupply_ token' :
      OracleAggregator.getAggregatedPrice (now w) (feeds w) (aggregator w)
        = Ok (price_, ts, conf) ->
      conf >= 50 ->
      _calculateDeviation price_ = Ok dev ->
      dev < BAND_4_THRESHOLD ->
      _calculateSupplyDelta w price_ (_getStabilityBand dev) = Ok delta ->
      delta <> 0 ->
      ECashToken.rebase (self w) delta (token w) = Ok (newSupply_, token') ->
      rebaseCount (controller w) + 1 <= UINT256_MAX ->
      rebase_outcome w
        (set_controller
           (set_rebaseHistory
              (<[rebaseCount (controller w) + 1 :=
                   {| timestamp := ts; price := price_; supplyDelta := delta;
                      newSupply := newSupply_;
                      stabilityBand := _getStabilityBand dev |}]>
                 (rebaseHistory (controller w)))
              (set_lastRebaseTime (now w)
                 (set_rebaseCount (rebaseCount (controller w) + 1)
                    (controller w))))
           (set_token token' w)).

End StabilizationController.

(** ** A deployment, as the deploy script performs it *)

Module Scenario.

Import OZ StabilizationController.

Definition deployer : address := 1%N.
Definition chainlinkOracle : address := 10%N.
Definition ecashAddress : address := 11%N.
Definition aggregatorAddress : address := 12%N.
Definition treasuryAddress : address := 13%N.
Definition controllerAddress : address := 14%N.

Definition genesis (t : Z) : World :=
  {| now := t; feeds := ∅; token := ECashToken.deployed;
     aggregator := OracleAggregator.deployed; controller := deployed;
     self := controllerAddress |}.

Definition quote (v t : Z) : OracleAggregator.RoundData :=
  {| OracleAggregator.answer := v; OracleAggregator.updatedAt := t |}.

(** The mock feed has 8 decimals: 100000000 is $1.00. *)
Definition deployment (t : Z) : list action :=
  [ FeedReports chainlinkOracle (Some (quote 100000000 t));
    ToToken deployer (ECashToken.Initialize "E-Cash" "ECASH" deployer);
    ToAggregator deployer (OracleAggregator.Initialize deployer);
    ToAggregator deployer
      (OracleAggregator.AddOracle "chainlink-eth-usd" chainlinkOracle
         100 3600 8 "Chainlink ETH/USD");
    ToController deployer
      (Initialize deployer ecashAddress aggregatorAddress treasuryAddress);
    ToToken deployer (ECashToken.GrantRole REBASER_ROLE controllerAddress) ].

Definition play (l : list action) (w : World) : World :=
  foldl (fun w a => step a w) w l.

Definition launch : Z := 1700000000.

Definition live : World := play (deployment launch) (genesis launch).

(** The feed moves to [v] (8 decimals) at the launch time. *)
Definition priced (v : Z) : World :=
  play [FeedReports chainlinkOracle (Some (quote v launch))] live.

(** The circuit-breaker test of the helper contract: $0.75, then a rebase. *)
Definition halted : World :=
  play [ToController deployer Rebase] (priced 75000000).

(** A second source is registered whose last round is two hours old,
    against a heartbeat of one hour. *)
Definition two_sources : World :=
  play [ ToAggregator deployer
           (OracleAggregator.AddOracle "backup-a" 20%N 100 3600 8 "Backup A");
         FeedReports 20%N (Some (quote 105000000 (launch - 7200))) ]
       live.

(** The feed, re-registered with 0 decimals, reports 10^45: a price of
    10^63 in 18 decimals. *)
Definition absurd : World :=
  play [ ToAggregator deployer
           (OracleAggregator.RemoveOracle "chainlink-eth-usd");
         ToAggregator deployer
           (OracleAggregator.AddOracle "chainlink-eth-usd" chainlinkOracle
              100 3600 0 "Chainlink ETH/USD");
         FeedReports chainlinkOracle (Some (quote (10 ^ 45) launch)) ]
       live.

(** Two more sources are registered whose feeds do not answer. *)
Definition degraded : World :=
  play [ ToAggregator deployer
           (OracleAggregator.AddOracle "backup-a" 20%N 100 3600 8 "Backup A");
         ToAggregator deployer
           (OracleAggregator.AddOracle "backup-b" 21%N 100 3600 8 "Backup B") ]
       live.

End Scenario.

(** ** The specification's wording of three operations, for comparison *)

Module Specified.

Import OZ.

(** Ledger rebase: the new supply is the sum; outside [0, MAX_SUPPLY] the
    call fails (whatever the error is called) and changes nothing; otherwise
    both words are set. *)
Definition ledger_rebase (sender : address) (delta : Z) (s : ECashToken.State)
  : Prop :=
  let newSupply := ECashToken._totalSupply s + delta in
  if (newSupply <? 0) || (newSupply >? ECashToken.MAX_SUPPLY) then
    is_ok (ECashToken.rebase sender delta s) = false
  else
    exists v s',
      ECashToken.rebase sender delta s = Ok (v, s') /\
      ECashToken._totalSupply s' = newSupply /\
      ECashToken._gonsPerFragment s' = ECashToken.TOTAL_GONS / newSupply.

(** canRebase: true iff the cooldown has elapsed and the breaker is off. *)
Definition canRebase (w : StabilizationController.World) : Prop :=
  StabilizationController.canRebase w = Ok true <->
  (StabilizationController.now w >=
     StabilizationController.lastRebaseTime
       (StabilizationController.controller w)
     + StabilizationController.REBASE_COOLDOWN /\
   StabilizationController.circuitBreakerActive
     (StabilizationController.controller w) = false).

(** Bookkeeping of a successful controller rebase that did not halt:
    the time and the count advance whatever the delta. *)
Definition rebase_bookkeeping (sender : address)
    (w : StabilizationController.World) : Prop :=
  forall w',
    StabilizationController.rebase sender w = Ok (tt, w') ->
    StabilizationController.circuitBreakerActive
      (StabilizationController.controller w') = false ->
    StabilizationController.lastRebaseTime
      (StabilizationController.controller w') = StabilizationController.now w /\
    StabilizationController.rebaseCount
      (StabilizationController.controller w')
    = StabilizationController.rebaseCount
        (StabilizationController.controller w) + 1.

End Specified.

(** ** Totals over the share mapping *)

Module Accounting.

Import OZ ECashToken.

(** The sum of [f] over the stored entries of a mapping. *)
Definition sum_of (f : Z -> Z) (m : gmap address Z) : Z :=
  map_fold (fun _ g acc => f g + acc) 0 m.

(** All shares (gons) held, and all balances as [balanceOf] reports them. *)
Definition total_gons (s : State) : Z :=
  sum_of (fun g => g) (_gonBalances s).

Definition total_balances (s : State) : Z :=
  sum_of (fun g => g / _gonsPerFragment s) (_gonBalances s).

(** The number of accounts the mapping has an entry for. *)
Definition holders (s : State) : Z := Z.of_nat (size (_gonBalances s)).

Definition shares_inv (s : State) : Prop :=
  0 <= _gonsPerFragment s /\
  (forall a, 0 <= gons s a) /\
  total_gons s = if _initialized (oz s) then TOTAL_GONS else 0.

End Accounting.

(** ** A further registry invariant *)

Module Registry.

Import OracleAggregator.

(** Every active source has a feed address other than the zero address. *)
Definition feeds_set (s : State) : Prop :=
  forall key, isActive (config_of s key) = true ->
              oracle (config_of s key) <> 0%N.

End Registry.

(** ** Further situations of the deployment *)

Module Situations.

Import StabilizationController Scenario.

(** Two hours after launch with no new round: the only feed is stale. *)
Definition stale : World := play [Elapse 7200] live.

(** A rebase at $1.02 has just been applied. *)
Definition rebased_once : World :=
  play [ToController deployer Rebase] (priced 102000000).

End Situations.

(** ** MockChainlinkOracle: the feed the deployment registers *)

Module MockChainlinkOracle.

Record RoundData := {
  answer : Z;
  startedAt : Z;
  updatedAt : Z;
  answeredInRound : Z;
}.

(** What a slot of [rounds] that was never written reads as. *)
Definition no_round : RoundData :=
  {| answer := 0; startedAt := 0; updatedAt := 0; answeredInRound := 0 |}.

Record State := {
  decimals : Z;
  description : string;
  version : Z;
  rounds : gmap Z RoundData;
  latestRound : Z;
}.

Definition UINT80_MAX : Z := 2 ^ 80 - 1.

Definition constructor (_decimals : Z) (_description : string) : State :=
  {| decimals := _decimals; description := _description; version := 1;
     rounds := ∅; latestRound := 0 |}.

Definition round_at (s : State) (id : Z) : RoundData :=
  default no_round (rounds s !! id).

(** [latestRound++] is checked uint80 arithmetic. *)
Definition updateAnswer (now : Z) (_answer : Z) (s : State)
  : result (unit * State) :=
  let! next := (if latestRound s + 1 <=? UINT80_MAX
                then Ok (latestRound s + 1) else Err (Panic ARITHMETIC)) in
  Ok (tt,
      {| decimals := decimals s; description := description s;
         version := version s;
         rounds := <[next := {| answer := _answer; startedAt := now;
                                updatedAt := now; answeredInRound := next |}]>
                     (rounds s);
         latestRound := next |}).

Definition getRoundData (_roundId : Z) (s : State) : Z * Z * Z * Z * Z :=
  let round := round_at s _roundId in
  (_roundId, answer round, startedAt round, updatedAt round,
   answeredInRound round).

Definition latestRoundData (s : State) : Z * Z * Z * Z * Z :=
  getRoundData (latestRound s) s.

(** The two values of [latestRoundData()] the aggregator reads. *)
Definition reading (s : State) : OracleAggregator.RoundData :=
  let '(_, answer_, _, updatedAt_, _) := latestRoundData s in
  {| OracleAggregator.answer := answer_;
     OracleAggregator.updatedAt := updatedAt_ |}.

End MockChainlinkOracle.

(** ** TestHelper: the status report of the dashboard *)

Module TestHelper.

Import StabilizationController.

Record ProtocolStatus := {
  currentPrice : Z;
  targetPrice : Z;
  totalSupply : Z;
  deviation : Z;
  canRebase : bool;
  circuitBreakerActive : bool;
  lastRebaseTime : Z;
  rebaseCount : Z;
  stabilityBand : Z;
  oracleConfidence : Z;
}.

Definition getProtocolStatus (w : World) : result ProtocolStatus :=
  let '(currentPrice_, oracleConfidence_) :=
    match OracleAggregator.getAggregatedPrice (now w) (feeds w) (aggregator w)
    with
    | Ok (price_, _, confidence) => (price_, confidence)
    | Err _ => (0, 0)
    end in
  let targetPrice_ := 10 ^ 18 in
  let totalSupply_ := ECashToken.totalSupply (token w) in
  let! canRebase_ := StabilizationController.canRebase w in
  let circuitBreakerActive_ :=
    StabilizationController.circuitBreakerActive (controller w) in
  let lastRebaseTime_ := StabilizationController.lastRebaseTime (controller w) in
  let rebaseCount_ := StabilizationController.rebaseCount (controller w) in
  let! classified :=
    (if currentPrice_ >? 0 then
       let! deviation_ :=
         (if currentPrice_ >=? targetPrice_ then
            let! above := checked_sub currentPrice_ targetPrice_ in
            let! scaled := checked_mul above (10 ^ 18) in
            checked_div scaled targetPrice_
          else
            let! below := checked_sub targetPrice_ currentPrice_ in
            let! scaled := checked_mul below (10 ^ 18) in
            checked_div scaled targetPrice_) in
       let band :=
         if deviation_ >=? 20 * 10 ^ 16 then 4
         else if deviation_ >=? 10 * 10 ^ 16 then 3
         else if deviation_ >=? 5 * 10 ^ 16 then 2
         else if deviation_ >=? 1 * 10 ^ 16 then 1
         else 0 in
       Ok (deviation_, band)
     else Ok (0, 0)) in
  Ok {| currentPrice := currentPrice_; targetPrice := targetPrice_;
        totalSupply := totalSupply_; deviation := fst classified;
        canRebase := canRebase_;
        circuitBreakerActive := circuitBreakerActive_;
        lastRebaseTime := lastRebaseTime_; rebaseCount := rebaseCount_;
        stabilityBand := snd classified;
        oracleConfidence := oracleConfidence_ |}.

End TestHelper.

(** ** Treasury: bucketed accounting of the protocol's assets

    The calls to the asset's ERC-20 contract are calls out of the
    repository: each is a parameter, what the call did (returned, or
    reverted with an error), and the asset contract is taken not to call
    back into the treasury.  The [nonReentrant] guard then never fires. *)

Module Treasury.

Inductive role :=
  | DEFAULT_ADMIN_ROLE
  | ALLOCATOR_ROLE
  | SPENDER_ROLE.

#[global] Instance treasury_role_eq_dec : EqDecision role.
Proof. solve_decision. Defined.

Definition role_code (r : role) : nat :=
  match r with
  | DEFAULT_ADMIN_ROLE => 0
  | ALLOCATOR_ROLE => 1
  | SPENDER_ROLE => 2
  end%nat.

Definition role_of_code (n : nat) : role :=
  match n with
  | 0 => DEFAULT_ADMIN_ROLE
  | 1 => ALLOCATOR_ROLE
  | _ => SPENDER_ROLE
  end%nat.

#[global] Instance treasury_role_countable : Countable role.
Proof.
  apply (inj_countable' role_code role_of_code).
  intros []; reflexivity.
Defined.

Record AssetInfo := {
  totalBalance : Z;
  strategicReserve : Z;
  ecosystemFunding : Z;
  liquidityIncentives : Z;
  operations : Z;
  isActive : bool;
}.

Definition no_asset : AssetInfo :=
  {| totalBalance := 0; strategicReserve := 0; ecosystemFunding := 0;
     liquidityIncentives := 0; operations := 0; isActive := false |}.

Record State := {
  _initialized : bool;
  _roles : gset (role * address);
  assets : gmap address AssetInfo;
  assetList : list address;
}.

Definition deployed : State :=
  {| _initialized := false; _roles := ∅; assets := ∅; assetList := [] |}.

Definition ALLOCATION_PRECISION : Z := 10000.

Definition hasRole (r : role) (a : address) (s : State) : bool :=
  bool_decide ((r, a) ∈ _roles s).

Definition onlyRole (r : role) (sender : address) (s : State) : result unit :=
  if hasRole r sender s then Ok tt else Err MissingRole.

Definition set_roles (g : gset (role * address)) (s : State) : State :=
  {| _initialized := _initialized s; _roles := g; assets := assets s;
     assetList := assetList s |}.

Definition set_assets (m : gmap address AssetInfo) (s : State) : State :=
  {| _initialized := _initialized s; _roles := _roles s; assets := m;
     assetList := assetList s |}.

Definition set_assetList (l : list address) (s : State) : State :=
  {| _initialized := _initialized s; _roles := _roles s; assets := assets s;
     assetList := l |}.

Definition asset_at (s : State) (asset : address) : AssetInfo :=
  default no_asset (assets s !! asset).

Definition initialize (admin : address) (s : State) : result (unit * State) :=
  if _initialized s then Err AlreadyInitialized
  else
    Ok (tt,
        {| _initialized := true;
           _roles := {[ (SPENDER_ROLE, admin) ]}
                     ∪ ({[ (ALLOCATOR_ROLE, admin) ]}
                        ∪ ({[ (DEFAULT_ADMIN_ROLE, admin) ]} ∪ _roles s));
           assets := assets s; assetList := assetList s |}).

Definition receiveAsset (sender asset : address) (amount : Z)
    (source : string) (token_call : result unit) (s : State)
  : result (unit * State) :=
  let! _ := onlyRole ALLOCATOR_ROLE sender s in
  let! _ := require (negb (N.eqb asset 0)) "Invalid asset" in
  let! _ := require (amount >? 0) "Amount must be positive" in
  let s :=
    if negb (isActive (asset_at s asset)) then
      let info := asset_at s asset in
      let s := set_assets
                 (<[asset := {| totalBalance := totalBalance info;
                                strategicReserve := strategicReserve info;
                                ecosystemFunding := ecosystemFunding info;
                                liquidityIncentives := liquidityIncentives info;
                                operations := operations info;
                                isActive := true |}]> (assets s)) s in
      set_assetList (assetList s ++ [asset]) s
    else s in
  let info := asset_at s asset in
  let! total := checked_add (totalBalance info) amount in
  let s := set_assets
             (<[asset := {| totalBalance := total;
                            strategicReserve := strategicReserve info;
                            ecosystemFunding := ecosystemFunding info;
                            liquidityIncentives := liquidityIncentives info;
                            operations := operations info;
                            isActive := isActive info |}]> (assets s)) s in
  let! _ := token_call in
  Ok (tt, s).

Definition allocateAsset (sender asset : address) (a0 a1 a2 a3 : Z) (s : State)
  : result (unit * State) :=
  let! _ := onlyRole ALLOCATOR_ROLE sender s in
  let! _ := require (isActive (asset_at s asset)) "Asset not active" in
  let! s01 := checked_add a0 a1 in
  let! s012 := checked_add s01 a2 in
  let! totalAllocation := checked_add s012 a3 in
  let! _ := require (totalAllocation =? ALLOCATION_PRECISION)
              "Invalid allocation" in
  let totalBalance_ := totalBalance (asset_at s asset) in
  let! p0 := checked_mul totalBalance_ a0 in
  let! strategic := checked_div p0 ALLOCATION_PRECISION in
  let! p1 := checked_mul totalBalance_ a1 in
  let! ecosystem := checked_div p1 ALLOCATION_PRECISION in
  let! p2 := checked_mul totalBalance_ a2 in
  let! liquidity := checked_div p2 ALLOCATION_PRECISION in
  let! p3 := checked_mul totalBalance_ a3 in
  let! ops := checked_div p3 ALLOCATION_PRECISION in
  let info := asset_at s asset in
  Ok (tt,
      set_assets
        (<[asset := {| totalBalance := totalBalance info;
                       strategicReserve := strategic;
                       ecosystemFunding := ecosystem;
                       liquidityIncentives := liquidity;
                       operations := ops;
                       isActive := isActive info |}]> (assets s)) s).

Definition transferAsset (sender asset to : address) (amount : Z)
    (purpose : string) (source : Z) (token_call : result unit) (s : State)
  : result (unit * State) :=
  let! _ := onlyRole SPENDER_ROLE sender s in
  let! _ := require (isActive (asset_at s asset)) "Asset not active" in
  let! _ := require (negb (N.eqb to 0)) "Invalid recipient" in
  let! _ := require (amount >? 0) "Amount must be positive" in
  let info := asset_at s asset in
  let! info :=
    (if source =? 0 then
       let! _ := require (strategicReserve info >=? amount)
                   "Insufficient strategic reserve" in
       let! v := checked_sub (strategicReserve info) amount in
       Ok {| totalBalance := totalBalance info; strategicReserve := v;
             ecosystemFunding := ecosystemFunding info;
             liquidityIncentives := liquidityIncentives info;
             operations := operations info; isActive := isActive info |}
     else if source =? 1 then
       let! _ := require (ecosystemFunding info >=? amount)
                   "Insufficient ecosystem funding" in
       let! v := checked_sub (ecosystemFunding info) amount in
       Ok {| totalBalance := totalBalance info;
             strategicReserve := strategicReserve info;
             ecosystemFunding := v;
             liquidityIncentives := liquidityIncentives info;
             operations := operations info; isActive := isActive info |}
     else if source =? 2 then
       let! _ := require (liquidityIncentives info >=? amount)
                   "Insufficient liquidity incentives" in
       let! v := checked_sub (liquidityIncentives info) amount in
       Ok {| totalBalance := totalBalance info;
             strategicReserve := strategicReserve info;
             ecosystemFunding := ecosystemFunding info;
             liquidityIncentives := v;
             operations := operations info; isActive := isActive info |}
     else if source =? 3 then
       let! _ := require (operations info >=? amount)
                   "Insufficient operations fund" in
       let! v := checked_sub (operations info) amount in
       Ok {| totalBalance := totalBalance info;
             strategicReserve := strategicReserve info;
             ecosystemFunding := ecosystemFunding info;
             liquidityIncentives := liquidityIncentives info;
             operations := v; isActive := isActive info |}
     else Err (Revert "Invalid source")) in
  let! total := checked_sub (totalBalance info) amount in
  let s := set_assets
             (<[asset := {| totalBalance := total;
                            strategicReserve := strategicReserve info;
                            ecosystemFunding := ecosystemFunding info;
                            liquidityIncentives := liquidityIncentives info;
                            operations := operations info;
                            isActive := isActive info |}]> (assets s)) s in
  let! _ := token_call in
  Ok (tt, s).

Definition getAssetInfo (asset : address) (s : State) : AssetInfo :=
  asset_at s asset.

Definition getAssetCount (s : State) : Z := Z.of_nat (length (assetList s)).

Definition emergencyWithdraw (sender asset to : address) (amount : Z)
    (token_call : result unit) (s : State) : result (unit * State) :=
  let! _ := onlyRole DEFAULT_ADMIN_ROLE sender s in
  let! _ := require (negb (N.eqb to 0)) "Invalid recipient" in
  let! _ := token_call in
  Ok (tt, s).

(** The inherited role functions, as in [OZ]. *)
Definition grantRole (sender : address) (r : role) (a : address) (s : State)
  : result (unit * State) :=
  let! _ := onlyRole DEFAULT_ADMIN_ROLE sender s in
  Ok (tt, set_roles ({[ (r, a) ]} ∪ _roles s) s).

Definition revokeRole (sender : address) (r : role) (a : address) (s : State)
  : result (unit * State) :=
  let! _ := onlyRole DEFAULT_ADMIN_ROLE sender s in
  Ok (tt, set_roles (_roles s ∖ {[ (r, a) ]}) s).

Definition renounceRole (sender : address) (r : role) (a : address) (s : State)
  : result (unit * State) :=
  let! _ := require (bool_decide (a = sender))
              "AccessControl: can only renounce roles for self" in
  Ok (tt, set_roles (_roles s ∖ {[ (r, a) ]}) s).

Inductive call :=
  | Initialize (admin : address)
  | ReceiveAsset (asset : address) (amount : Z) (source : string)
      (token_call : result unit)
  | AllocateAsset (asset : address) (a0 a1 a2 a3 : Z)
  | TransferAsset (asset to : address) (amount : Z) (purpose : string)
      (source : Z) (token_call : result unit)
  | EmergencyWithdraw (asset to : address) (amount : Z)
      (token_call : result unit)
  | GrantRole (r : role) (a : address)
  | RevokeRole (r : role) (a : address)
  | RenounceRole (r : role) (a : address).

Definition run (sender : address) (c : call) (s : State)
  : result (unit * State) :=
  match c with
  | Initialize admin => initialize admin s
  | ReceiveAsset asset amount source token_call =>
      receiveAsset sender asset amount source token_call s
  | AllocateAsset asset a0 a1 a2 a3 => allocateAsset sender asset a0 a1 a2 a3 s
  | TransferAsset asset to amount purpose source token_call =>
      transferAsset sender asset to amount purpose source token_call s
  | EmergencyWithdraw asset to amount token_call =>
      emergencyWithdraw sender asset to amount token_call s
  | GrantRole r a => grantRole sender r a s
  | RevokeRole r a => revokeRole sender r a s
  | RenounceRole r a => renounceRole sender r a s
  end.

Definition step (sender : address) (c : call) (s : State) : State :=
  commit s (run sender c s).

(** The arguments are uint256 words. *)
Definition well_typed (c : call) : Prop :=
  match c with
  | ReceiveAsset _ amount _ _ => is_uint256 amount
  | AllocateAsset _ a0 a1 a2 a3 =>
      is_uint256 a0 /\ is_uint256 a1 /\ is_uint256 a2 /\ is_uint256 a3
  | TransferAsset _ _ amount _ source _ =>
      is_uint256 amount /\ 0 <= source <= 255
  | EmergencyWithdraw _ _ amount _ => is_uint256 amount
  | _ => True
  end.

Inductive reachable : State -> Prop :=
  | reachable_deployed : reachable deployed
  | reachable_step sender c s :
      reachable s -> well_typed c -> reachable (step sender c s).

(** The books of one asset balance: no bucket is negative and the four
    buckets together are at most the total. *)
Definition balanced (info : AssetInfo) : Prop :=
  0 <= strategicReserve info /\ 0 <= ecosystemFunding info /\
  0 <= liquidityIncentives info /\ 0 <= operations info /\
  strategicReserve info + ecosystemFunding info
  + liquidityIncentives info + operations info <= totalBalance info.

(** The bucket a [source] code of [transferAsset] spends from. *)
Definition bucket (source : Z) (info : AssetInfo) : Z :=
  if source =? 0 then strategicReserve info
  else if source =? 1 then ecosystemFunding info
  else if source =? 2 then liquidityIncentives info
  else operations info.

Definition books_inv (s : State) : Prop :=
  (forall asset, balanced (asset_at s asset)) /\
  NoDup (assetList s) /\
  (forall asset, asset ∈ assetList s <-> isActive (asset_at s asset) = true).

End Treasury.

(** ** A treasury in use *)

Module Holdings.

Import Treasury.

Definition admin : address := 1%N.
Definition reserveAsset : address := 7%N.

(** Initialised, one deposit of 1000 units booked. *)
Definition funded : State :=
  step admin (ReceiveAsset reserveAsset 1000 "grant" (Ok tt))
    (step admin (Initialize admin) deployed).

(** The deposit split 40% / 30% / 20% / 10%. *)
Definition allocated : State :=
  step admin (AllocateAsset reserveAsset 4000 3000 2000 1000) funded.

End Holdings.

(** * Verification *)

(** ** Results and checked arithmetic *)

Section Results.

Context {A B : Type}.

Lemma bind_Ok (r : result A) (k : A -> result B) (b : B) :
  bind r k = Ok b -> exists a, r = Ok a /\ k a = Ok b.
Proof. destruct r as [a|e]; simpl; intros H; [eauto | discriminate]. Qed.

End Results.

Lemma require_Ok cond reason : require cond reason = Ok tt -> cond = true.
Proof. destruct cond; simpl; [reflexivity | discriminate]. Qed.

Lemma require_Ok' cond reason u : require cond reason = Ok u -> cond = true.
Proof. destruct u; apply require_Ok. Qed.

Lemma checked_add_Ok a b c :
  checked_add a b = Ok c -> c = a + b /\ a + b <= UINT256_MAX.
Proof.
  unfold checked_add; destruct (Z.leb_spec (a + b) UINT256_MAX); intros Hok;
    inversion Hok; auto.
Qed.

Lemma checked_sub_Ok a b c :
  checked_sub a b = Ok c -> c = a - b /\ b <= a.
Proof.
  unfold checked_sub; destruct (Z.leb_spec b a); intros Hok; inversion Hok; auto.
Qed.

Lemma checked_mul_Ok a b c :
  checked_mul a b = Ok c -> c = a * b /\ a * b <= UINT256_MAX.
Proof.
  unfold checked_mul; destruct (Z.leb_spec (a * b) UINT256_MAX); intros Hok;
    inversion Hok; auto.
Qed.

Lemma checked_div_Ok a b c :
  checked_div a b = Ok c -> c = a / b /\ b <> 0.
Proof.
  unfold checked_div; destruct (Z.eqb_spec b 0); intros Hok; inversion Hok; auto.
Qed.

Lemma checked_neg_Ok a c :
  checked_neg a = Ok c -> c = - a /\ a <> INT256_MIN.
Proof.
  unfold checked_neg; destruct (Z.eqb_spec a INT256_MIN); intros Hok;
    inversion Hok; auto.
Qed.

Lemma checked_add_fits a b :
  a + b <= UINT256_MAX -> checked_add a b = Ok (a + b).
Proof.
  intros Hfit; unfold checked_add.
  destruct (Z.leb_spec (a + b) UINT256_MAX) as [_|Hgt]; [reflexivity | lia].
Qed.

Lemma checked_sub_fits a b : b <= a -> checked_sub a b = Ok (a - b).
Proof.
  intros Hfit; unfold checked_sub.
  destruct (Z.leb_spec b a) as [_|Hgt]; [reflexivity | lia].
Qed.

Lemma checked_mul_fits a b :
  a * b <= UINT256_MAX -> checked_mul a b = Ok (a * b).
Proof.
  intros Hfit; unfold checked_mul.
  destruct (Z.leb_spec (a * b) UINT256_MAX) as [_|Hgt]; [reflexivity | lia].
Qed.

Lemma checked_div_fits a b : b <> 0 -> checked_div a b = Ok (a / b).
Proof.
  intros Hnz; unfold checked_div.
  destruct (Z.eqb_spec b 0) as [Hz|_]; [contradiction | reflexivity].
Qed.

(** Peel the successful first step off a monadic body held in [H]. *)
Tactic Notation "ok_step" hyp(H) "as" ident(a) ident(Ha) :=
  apply bind_Ok in H; destruct H as (a & Ha & H).

Tactic Notation "ok_step" hyp(H) :=
  let a := fresh "v" in
  let Ha := fresh "E" in
  ok_step H as a Ha.

Ltac ok_arith :=
  repeat match goal with
  | H : checked_add _ _ = Ok _ |- _ => apply checked_add_Ok in H; destruct H as [-> ?]
  | H : checked_sub _ _ = Ok _ |- _ => apply checked_sub_Ok in H; destruct H as [-> ?]
  | H : checked_mul _ _ = Ok _ |- _ => apply checked_mul_Ok in H; destruct H as [-> ?]
  | H : checked_div _ _ = Ok _ |- _ => apply checked_div_Ok in H; destruct H as [-> ?]
  | H : checked_neg _ = Ok _ |- _ => apply checked_neg_Ok in H; destruct H as [-> ?]
  | H : require _ _ = Ok _ |- _ => apply require_Ok' in H
  end.

(** ** The ledger *)

Module TokenFacts.

Import OZ ECashToken.

Lemma TOTAL_GONS_bounds : 2 ^ 255 < TOTAL_GONS <= UINT256_MAX.
Proof. split; vm_compute; [reflexivity | discriminate]. Qed.

Lemma MAX_SUPPLY_value : MAX_SUPPLY = 2 ^ 128 - 1.
Proof. reflexivity. Qed.

Lemma rebase_enter sender d s :
  authorised sender s ->
  rebase sender d s =
    (let s := set_rebaseCount (rebaseCount s + 1) s in
     if d =? 0 then Ok (_totalSupply s, s)
     else
       let! newTotalSupply :=
         (if d <? 0 then
            let! negated := checked_neg d in
            let deltaAbs := to_uint256 negated in
            if _totalSupply s >? deltaAbs
            then checked_sub (_totalSupply s) deltaAbs
            else Ok 0
          else checked_add (_totalSupply s) (to_uint256 d)) in
       let! _ := require (newTotalSupply <=? MAX_SUPPLY) "Max supply exceeded" in
       let s := set_totalSupply newTotalSupply s in
       let! g := checked_div TOTAL_GONS (_totalSupply s) in
       Ok (_totalSupply (set_gonsPerFragment g s), set_gonsPerFragment g s)).
Proof.
  intros (Hrole & Hpaused & Hcount).
  unfold rebase, onlyRole, whenNotPaused.
  rewrite Hrole, Hpaused; simpl.
  rewrite (checked_add_fits _ _ Hcount); reflexivity.
Qed.

Lemma rebase_zero sender s :
  authorised sender s ->
  rebase sender 0 s
  = Ok (_totalSupply s, set_rebaseCount (rebaseCount s + 1) s).
Proof. intros H; rewrite (rebase_enter _ _ _ H); reflexivity. Qed.

Lemma rebase_accepts sender d s :
  authorised sender s -> is_int256 d -> d <> 0 ->
  0 <= _totalSupply s <= MAX_SUPPLY ->
  0 < _totalSupply s + d <= MAX_SUPPLY ->
  rebase sender d s = Ok (_totalSupply s + d, rebased (_totalSupply s + d) s).
Proof.
  intros Hauth [Hlo Hhi] Hd Hs Hn.
  rewrite (rebase_enter _ _ _ Hauth); cbv zeta.
  destruct (Z.eqb_spec d 0) as [|_]; [contradiction|].
  unfold INT256_MIN, INT256_MAX in *; pose proof MAX_SUPPLY_value as HM.
  cbn [_totalSupply set_rebaseCount].
  destruct (Z.ltb_spec d 0) as [Hneg|Hpos].
  - unfold checked_neg, INT256_MIN.
    destruct (Z.eqb_spec d (- 2 ^ 255)) as [->|_]; [lia|]; simpl bind.
    unfold to_uint256.
    destruct (Z.leb_spec 0 (- d)); [|lia].
    rewrite Z.gtb_ltb.
    destruct (Z.ltb_spec (- d) (_totalSupply s)); [|lia].
    rewrite checked_sub_fits by lia. simpl bind.
    replace (_totalSupply s - - d) with (_totalSupply s + d) by lia.
    unfold require.
    destruct (Z.leb_spec (_totalSupply s + d) MAX_SUPPLY);
      [|lia].
    simpl bind. cbn [_totalSupply set_totalSupply].
    rewrite checked_div_fits by lia. reflexivity.
  - unfold to_uint256.
    destruct (Z.leb_spec 0 d); [|lia].
    rewrite checked_add_fits by (unfold UINT256_MAX; lia). simpl bind.
    unfold require.
    destruct (Z.leb_spec (_totalSupply s + d) MAX_SUPPLY);
      [|lia].
    simpl bind. cbn [_totalSupply set_totalSupply].
    rewrite checked_div_fits by lia. reflexivity.
Qed.

Lemma rebase_above_max sender d s :
  authorised sender s -> is_int256 d ->
  0 <= _totalSupply s <= MAX_SUPPLY ->
  MAX_SUPPLY < _totalSupply s + d ->
  rebase sender d s = Err (Revert "Max supply exceeded").
Proof.
  intros Hauth [Hlo Hhi] Hs Hn.
  rewrite (rebase_enter _ _ _ Hauth); cbv zeta.
  unfold INT256_MIN, INT256_MAX in *; pose proof MAX_SUPPLY_value as HM.
  destruct (Z.eqb_spec d 0) as [|_]; [lia|].
  cbn [_totalSupply set_rebaseCount].
  destruct (Z.ltb_spec d 0) as [Hneg|Hpos]; [lia|].
  unfold to_uint256.
  destruct (Z.leb_spec 0 d); [|lia].
  rewrite checked_add_fits by (unfold UINT256_MAX; lia). simpl bind.
  unfold require.
  destruct (Z.leb_spec (_totalSupply s + d) MAX_SUPPLY);
    [lia|].
  reflexivity.
Qed.

Lemma rebase_not_positive sender d s :
  authorised sender s -> is_int256 d -> d <> 0 ->
  0 <= _totalSupply s <= MAX_SUPPLY ->
  _totalSupply s + d <= 0 ->
  rebase sender d s =
    Err (Panic (if d =? INT256_MIN then ARITHMETIC else DIV_BY_ZERO)).
Proof.
  intros Hauth [Hlo Hhi] Hd Hs Hn.
  rewrite (rebase_enter _ _ _ Hauth); cbv zeta.
  destruct (Z.eqb_spec d 0) as [|_]; [contradiction|].
  cbn [_totalSupply set_rebaseCount].
  destruct (Z.ltb_spec d 0) as [Hneg|Hpos]; [|lia].
  unfold checked_neg.
  destruct (Z.eqb_spec d INT256_MIN) as [->|Hmin]; [reflexivity|].
  simpl bind. unfold to_uint256.
  destruct (Z.leb_spec 0 (- d)); [|lia].
  rewrite Z.gtb_ltb.
  destruct (Z.ltb_spec (- d) (_totalSupply s)); [lia|].
  reflexivity.
Qed.

(** A rebase that returns has only written the two supply words and its own
    epoch counter. *)
Lemma rebase_writes sender d s v s' :
  rebase sender d s = Ok (v, s') ->
  exists supply ratio,
    s' = set_gonsPerFragment ratio
           (set_totalSupply supply (set_rebaseCount (rebaseCount s + 1) s)) /\
    v = supply /\
    (d = 0 -> supply = _totalSupply s /\ ratio = _gonsPerFragment s) /\
    (d <> 0 -> supply <> 0 /\ supply <= MAX_SUPPLY /\
               ratio = TOTAL_GONS / supply /\
               (0 <= _totalSupply s -> is_int256 d -> 0 <= supply)).
Proof.
  unfold rebase; intros H.
  ok_step H as u1 Hrole. ok_step H as u2 Hpause. ok_step H as n Hn. ok_arith.
  destruct (Z.eqb_spec d 0) as [->|Hd].
  - injection H as <- <-.
    exists (_totalSupply s), (_gonsPerFragment s).
    destruct s; repeat split; congruence.
  - ok_step H as supply Hsupply. ok_step H as u3 Hcap. ok_step H as g Hg.
    cbn [_totalSupply set_totalSupply set_rebaseCount] in *.
    ok_arith. inversion H; subst; clear H.
    exists v, (TOTAL_GONS / v).
    split; [reflexivity|]. split; [reflexivity|].
    split; [contradiction|]. intros _.
    split; [assumption|]. split; [lia|]. split; [reflexivity|].
    intros Hs [Hlo Hhi].
    destruct (Z.ltb_spec d 0).
    + ok_step Hsupply as negated Hneg. ok_arith.
      destruct (_totalSupply s >? to_uint256 (- d)) eqn:Hgt.
      * ok_arith. lia.
      * inversion Hsupply; lia.
    + ok_arith. unfold to_uint256. destruct (Z.leb_spec 0 d); lia.
Qed.

Lemma supply_inv_frame s s' :
  _initialized (oz s') = _initialized (oz s) ->
  _totalSupply s' = _totalSupply s ->
  _gonsPerFragment s' = _gonsPerFragment s ->
  (forall r a, hasRole r a (oz s) = false -> hasRole r a (oz s') = false) ->
  supply_inv s -> supply_inv s'.
Proof.
  unfold supply_inv; intros -> -> -> Hroles.
  destruct (_initialized (oz s)); [tauto|].
  intros [? ?]; split; auto.
Qed.

Lemma no_role_no_grant sender r a o :
  (forall r a, hasRole r a o = false) -> grantRole sender r a o = Err MissingRole.
Proof. intros H; unfold grantRole, onlyRole; rewrite H; reflexivity. Qed.

Lemma hasRole_revoke r a r' a' o :
  hasRole r' a' o = false -> hasRole r' a' (_revokeRole r a o) = false.
Proof.
  unfold hasRole, _revokeRole; simpl.
  rewrite !bool_decide_eq_false, elem_of_difference. tauto.
Qed.

Lemma supply_inv_step sender c s :
  well_typed c -> supply_inv s -> supply_inv (step sender c s).
Proof.
  intros Hc Hinv. unfold step.
  destruct (run sender c s) as [[[] s']|e] eqn:Hrun; simpl; [|assumption].
  destruct c; simpl in Hrun.
  - (* initialize *)
    unfold initialize, initializer in Hrun.
    destruct (_initialized (oz s)) eqn:Hi; [discriminate|].
    simpl in Hrun. injection Hrun as <-.
    unfold supply_inv; simpl. split; [|reflexivity].
    vm_compute; split; [reflexivity | discriminate].
  - (* rebase *)
    unfold forget in Hrun. ok_step Hrun. destruct v as [v s0].
    inversion Hrun; subst; clear Hrun. simpl.
    pose proof E as Hw. apply rebase_writes in Hw.
    destruct Hw as (supply & ratio & -> & _ & Hz & Hnz).
    unfold supply_inv in *; simpl.
    destruct (_initialized (oz s)) eqn:Hi.
    + destruct Hinv as [Hs Hg].
      destruct (Z.eq_dec supplyDelta 0) as [Hd|Hd].
      * destruct (Hz Hd) as [-> ->]. auto.
      * destruct (Hnz Hd) as (H0 & Hmax & -> & Hpos).
        split; [|reflexivity]. split; [|assumption].
        assert (0 <= supply) by (apply Hpos; [lia | exact Hc]). lia.
    + destruct Hinv as [_ Hnone].
      unfold rebase, onlyRole in E. rewrite Hnone in E. discriminate.
  - (* transfer *)
    unfold forget, transfer in Hrun. ok_step Hrun. destruct v as [b s0].
    inversion Hrun; subst; clear Hrun. simpl.
    ok_step E. ok_step E. ok_step E. ok_step E.
    inversion E; subst; clear E.
    eapply supply_inv_frame; [..|exact Hinv]; auto.
  - (* transferFrom *)
    unfold forget, transferFrom in Hrun. ok_step Hrun. destruct v as [b s0].
    inversion Hrun; subst; clear Hrun. simpl.
    ok_step E as u1 Hpause. ok_step E as gonAmount Hmul.
    ok_step E as s1 Hspend. ok_step E as debited Hsub.
    ok_step E as credited Hadd.
    inversion E; subst; clear E.
    assert (Hs1 : oz s1 = oz s /\ _totalSupply s1 = _totalSupply s /\
                  _gonsPerFragment s1 = _gonsPerFragment s).
    { destruct (negb _) in Hspend.
      - ok_step Hspend as remaining Hrem. inversion Hspend; subst; auto.
      - inversion Hspend; subst; auto. }
    destruct Hs1 as (Ho & Ht & Hg).
    eapply supply_inv_frame; [..|exact Hinv]; simpl; congruence.
  - (* approve *)
    unfold forget, approve in Hrun. simpl in Hrun.
    inversion Hrun; subst; clear Hrun.
    eapply supply_inv_frame; [..|exact Hinv]; auto.
  - (* pause *)
    unfold pause, _pause in Hrun. ok_step Hrun. ok_step Hrun. ok_step E0.
    inversion E0; subst; clear E0. inversion Hrun; subst; clear Hrun.
    eapply supply_inv_frame; [..|exact Hinv]; auto.
  - (* unpause *)
    unfold unpause, _unpause in Hrun. ok_step Hrun. ok_step Hrun. ok_step E0.
    inversion E0; subst; clear E0. inversion Hrun; subst; clear Hrun.
    eapply supply_inv_frame; [..|exact Hinv]; auto.
  - (* grantRole *)
    unfold lift_oz in Hrun. ok_step Hrun. inversion Hrun; subst; clear Hrun.
    unfold supply_inv in *; simpl.
    unfold grantRole in E. ok_step E. inversion E; subst; clear E. simpl.
    destruct (_initialized (oz s)); [assumption|].
    destruct Hinv as [_ Hnone]. unfold onlyRole in E0.
    rewrite Hnone in E0. discriminate.
  - (* revokeRole *)
    unfold lift_oz in Hrun. ok_step Hrun. inversion Hrun; subst; clear Hrun.
    unfold revokeRole in E. ok_step E. inversion E; subst; clear E.
    eapply supply_inv_frame; [..|exact Hinv]; auto.
    intros; simpl; apply hasRole_revoke; assumption.
  - (* renounceRole *)
    unfold lift_oz in Hrun. ok_step Hrun. inversion Hrun; subst; clear Hrun.
    unfold renounceRole in E. ok_step E. inversion E; subst; clear E.
    eapply supply_inv_frame; [..|exact Hinv]; auto.
    intros; simpl; apply hasRole_revoke; assumption.
Qed.

Lemma reachable_supply_inv s : reachable s -> supply_inv s.
Proof.
  induction 1 as [|sender c s _ IH Hc].
  - unfold supply_inv; simpl. split; [reflexivity|].
    intros r a. unfold hasRole; simpl.
    apply bool_decide_eq_false. set_solver.
  - apply supply_inv_step; assumption.
Qed.

Lemma ratio_positive supply :
  0 < supply <= MAX_SUPPLY -> 0 < TOTAL_GONS / supply.
Proof.
  intros Hs. pose proof TOTAL_GONS_bounds. pose proof MAX_SUPPLY_value.
  apply Z.div_str_pos. lia.
Qed.

Lemma live_token_unfolded :
  StabilizationController.token Scenario.live
  = step Scenario.deployer (GrantRole REBASER_ROLE Scenario.controllerAddress)
      (step Scenario.deployer (Initialize "E-Cash" "ECASH" Scenario.deployer)
         deployed).
Proof. vm_compute. reflexivity. Qed.

Lemma live_token_reachable :
  reachable (StabilizationController.token Scenario.live).
Proof.
  rewrite live_token_unfolded.
  apply reachable_step; [apply reachable_step|]; [constructor | exact I..].
Qed.

Lemma live_token_authorised :
  authorised Scenario.controllerAddress
    (StabilizationController.token Scenario.live).
Proof.
  split; [|split]; vm_compute; [reflexivity | reflexivity | discriminate].
Qed.

(** C1, as specified, fails: a delta of exactly minus the supply lands on
    0, inside [0, MAX_SUPPLY], and the call does not set the supply to 0 but
    fails on the division. *)
Lemma rebase_to_zero_rejected :
  ~ Specified.ledger_rebase Scenario.controllerAddress (- (1000000 * 10 ^ 18))
      (StabilizationController.token Scenario.live).
Proof.
  intros Hspec. vm_compute in Hspec.
  destruct Hspec as (v & s' & Hcall & _). discriminate.
Qed.

(** C1, as amended.  For a caller the modifiers admit, a supply within the
    cap and any int256 delta: a zero delta returns with both supply words
    as they were; a non-zero delta whose sum with the supply exceeds
    MAX_SUPPLY fails with "Max supply exceeded"; one whose sum is zero or
    negative fails with a Panic (the new supply is floored at 0 and the
    ratio TOTAL_GONS / 0 is refused); a failed call leaves the ledger as it
    was; otherwise totalSupply becomes the sum and sharesPerUnit becomes
    TOTAL_GONS / sum. *)
Theorem rebase_supply_bounds sender d s :
  authorised sender s -> is_int256 d -> 0 <= _totalSupply s <= MAX_SUPPLY ->
  (d = 0 ->
     exists s', rebase sender d s = Ok (_totalSupply s, s') /\
                _totalSupply s' = _totalSupply s /\
                _gonsPerFragment s' = _gonsPerFragment s) /\
  (d <> 0 -> MAX_SUPPLY < _totalSupply s + d ->
     rebase sender d s = Err (Revert "Max supply exceeded") /\
     step sender (Rebase d) s = s) /\
  (d <> 0 -> _totalSupply s + d <= 0 ->
     is_panic (rebase sender d s) = true /\
     step sender (Rebase d) s = s) /\
  (d <> 0 -> 0 < _totalSupply s + d <= MAX_SUPPLY ->
     exists s', rebase sender d s = Ok (_totalSupply s + d, s') /\
                _totalSupply s' = _totalSupply s + d /\
                _gonsPerFragment s' = TOTAL_GONS / (_totalSupply s + d)).
Proof.
  intros Hauth Hd Hs. split; [|split; [|split]].
  - intros ->. rewrite rebase_zero by assumption. eauto.
  - intros Hnz Hover. unfold step; simpl.
    rewrite rebase_above_max by assumption. split; reflexivity.
  - intros Hnz Hunder. unfold step; simpl.
    rewrite rebase_not_positive by assumption. split; reflexivity.
  - intros Hnz Hin. rewrite rebase_accepts by assumption. eauto.
Qed.

Lemma rebase_supply_bounds_witness :
  rebase Scenario.controllerAddress (- (1000000 * 10 ^ 18))
    (StabilizationController.token Scenario.live)
  = Err (Panic DIV_BY_ZERO) /\
  is_panic (rebase Scenario.controllerAddress (- (1000000 * 10 ^ 18))
              (StabilizationController.token Scenario.live)) = true /\
  step Scenario.controllerAddress (Rebase (- (1000000 * 10 ^ 18)))
    (StabilizationController.token Scenario.live)
  = StabilizationController.token Scenario.live.
Proof.
  split; [vm_compute; reflexivity|].
  assert (Hd : is_int256 (- (1000000 * 10 ^ 18)))
    by (split; vm_compute; discriminate).
  assert (Hs : 0 <= _totalSupply (StabilizationController.token Scenario.live)
               <= MAX_SUPPLY)
    by (split; vm_compute; discriminate).
  destruct (rebase_supply_bounds Scenario.controllerAddress
              (- (1000000 * 10 ^ 18))
              (StabilizationController.token Scenario.live)
              live_token_authorised Hd Hs) as (_ & _ & Hfloor & _).
  apply Hfloor; vm_compute; discriminate.
Defined.

(** C5.  A rebase the ledger accepts leaves every holder's share (gon)
    balance as it was: it writes totalSupply and sharesPerUnit (and bumps
    its own epoch counter), and no share balance, allowance, role or pause
    flag. *)
Theorem rebase_leaves_shares sender d s v s' :
  rebase sender d s = Ok (v, s') ->
  (forall holder, scaledBalanceOf holder s' = scaledBalanceOf holder s) /\
  _gonBalances s' = _gonBalances s /\
  _allowedFragments s' = _allowedFragments s /\
  oz s' = oz s.
Proof.
  intros H. apply rebase_writes in H.
  destruct H as (supply & ratio & -> & _). repeat split.
Qed.

Lemma rebase_leaves_shares_witness :
  scaledBalanceOf Scenario.deployer
    (rebased (1002000 * 10 ^ 18) (StabilizationController.token Scenario.live))
  = scaledBalanceOf Scenario.deployer
      (StabilizationController.token Scenario.live).
Proof.
  assert (Hcall :
    rebase Scenario.controllerAddress (2000 * 10 ^ 18)
      (StabilizationController.token Scenario.live)
    = Ok (1002000 * 10 ^ 18,
          rebased (1002000 * 10 ^ 18)
            (StabilizationController.token Scenario.live)))
    by (vm_compute; reflexivity).
  exact (proj1 (rebase_leaves_shares _ _ _ _ _ Hcall) Scenario.deployer).
Defined.



End TokenFacts.

(** ** The controller *)

Module ControllerFacts.

Import OZ StabilizationController.

(** The full band table. *)
Lemma band_table d :
  _getStabilityBand d =
    if d >=? 20 * 10 ^ 16 then 4
    else if d >=? 10 * 10 ^ 16 then 3
    else if d >=? 5 * 10 ^ 16 then 2
    else if d >=? 1 * 10 ^ 16 then 1
    else 0.
Proof. reflexivity. Qed.

(** C6.  Deviations of exactly 1%, 5%, 10% and 20% (of 1e18) are in bands
    1, 2, 3 and 4, a boundary going to the higher band; 0.99% and every
    deviation strictly below 1% are in band 0. *)
Theorem band_boundaries :
  _getStabilityBand (1 * 10 ^ 16) = 1 /\
  _getStabilityBand (5 * 10 ^ 16) = 2 /\
  _getStabilityBand (10 * 10 ^ 16) = 3 /\
  _getStabilityBand (20 * 10 ^ 16) = 4 /\
  _getStabilityBand (99 * 10 ^ 14) = 0 /\
  forall d, d < 1 * 10 ^ 16 -> _getStabilityBand d = 0.
Proof.
  repeat (split; [reflexivity|]).
  intros d Hd. rewrite band_table.
  repeat match goal with
  | |- context [?a >=? ?b] => destruct (Z.geb_spec a b); [lia|]
  end.
  reflexivity.
Qed.

Lemma band_boundaries_witness :
  8 * 10 ^ 15 < 1 * 10 ^ 16 /\ _getStabilityBand (8 * 10 ^ 15) = 0.
Proof.
  split; [reflexivity|].
  apply (proj2 (proj2 (proj2 (proj2 (proj2 band_boundaries))))).
  reflexivity.
Defined.

Lemma canRebase_value w :
  lastRebaseTime (controller w) + REBASE_COOLDOWN <= UINT256_MAX ->
  canRebase w
  = Ok (now w >=? lastRebaseTime (controller w) + REBASE_COOLDOWN).
Proof.
  intros H. unfold canRebase. rewrite checked_add_fits by assumption.
  reflexivity.
Qed.

(** C4, as specified, fails: with the breaker latched and the cooldown
    elapsed, canRebase() still answers true. *)
Lemma canRebase_true_while_halted : ~ Specified.canRebase Scenario.halted.
Proof.
  intros [Hdir _].
  assert (Hcan : canRebase Scenario.halted = Ok true)
    by (vm_compute; reflexivity).
  destruct (Hdir Hcan) as [_ Hoff]. vm_compute in Hoff. discriminate.
Qed.

(** C4, as amended.  canRebase() returns true iff
    now >= lastRebaseTime + REBASE_COOLDOWN, whatever the circuit breaker
    says: the breaker is not read (rebase() and previewRebase() test it
    themselves). *)
Theorem canRebase_cooldown_only w :
  is_uint256 (now w) ->
  (canRebase w = Ok true <->
   now w >= lastRebaseTime (controller w) + REBASE_COOLDOWN) /\
  (forall b,
     canRebase (set_controller (set_circuitBreakerActive b (controller w)) w)
     = canRebase w).
Proof.
  intros [_ Hnow]. split; [|reflexivity].
  unfold canRebase, checked_add.
  destruct (Z.leb_spec (lastRebaseTime (controller w) + REBASE_COOLDOWN)
              UINT256_MAX) as [Hfit|Hover]; simpl.
  - destruct (Z.geb_spec (now w)
                (lastRebaseTime (controller w) + REBASE_COOLDOWN));
      split; intros Hx; try reflexivity; try lia; discriminate.
  - split; [discriminate | lia].
Qed.

Lemma canRebase_cooldown_only_witness :
  canRebase Scenario.halted = Ok true /\
  circuitBreakerActive (controller Scenario.halted) = true.
Proof.
  assert (Hnow : is_uint256 (now Scenario.halted))
    by (split; vm_compute; discriminate).
  assert (Hcool : now Scenario.halted
                  >= lastRebaseTime (controller Scenario.halted)
                     + REBASE_COOLDOWN)
    by (vm_compute; discriminate).
  split; [|vm_compute; reflexivity].
  exact (proj2 (proj1 (canRebase_cooldown_only Scenario.halted Hnow)) Hcool).
Defined.

Lemma rebase_Ok sender w w' :
  rebase sender w = Ok (tt, w') ->
  hasRole OPERATOR_ROLE sender (oz (controller w)) = true /\
  _paused (oz (controller w)) = false /\
  circuitBreakerActive (controller w) = false /\
  canRebase w = Ok true /\
  rebase_outcome w w'.
Proof.
  unfold rebase; intros H.
  ok_step H as u1 Hrole. ok_step H as u2 Hpause. ok_step H as u3 Hbreaker.
  ok_step H as ready Hready. ok_step H as u4 Hcool.
  ok_step H as reading Hread. destruct reading as [[price_ ts] conf].
  ok_step H as u5 Hconf. ok_step H as dev Hdev.
  ok_arith.
  assert (Hc : conf >= 50) by (destruct (Z.geb_spec conf 50); [lia | discriminate]).
  unfold onlyRole in Hrole. unfold whenNotPaused in Hpause.
  destruct (hasRole _ _ _); [|discriminate].
  destruct (_paused _); [discriminate|].
  destruct (circuitBreakerActive (controller w)); [discriminate|].
  subst ready.
  repeat (split; [first [reflexivity | assumption]|]).
  destruct (Z.geb_spec dev BAND_4_THRESHOLD) as [Hhigh|Hlow].
  - injection H as <-. eapply outcome_halt; eauto. lia.
  - ok_step H as delta Hdelta.
    destruct (Z.eqb_spec delta 0) as [->|Hnz]; simpl in H.
    + injection H as <-. eapply outcome_idle; eauto.
    + ok_step H as applied Happly. destruct applied as [newSupply_ token'].
      ok_step H as n Hn. ok_arith. cbn [controller set_token] in *.
      injection H as <-.
      eapply outcome_applied; eauto.
Qed.

Lemma rebase_outcome_breaker w w' :
  rebase_outcome w w' ->
  circuitBreakerActive (controller w') = circuitBreakerActive (controller w) \/
  (circuitBreakerActive (controller w') = true /\
   exists price_ ts conf dev,
     OracleAggregator.getAggregatedPrice (now w) (feeds w) (aggregator w)
       = Ok (price_, ts, conf) /\
     _calculateDeviation price_ = Ok dev /\
     dev >= BAND_4_THRESHOLD /\
     _getStabilityBand dev = 4).
Proof.
  destruct 1 as [price_ ts conf dev Hread Hconf Hdev Hhigh| |];
    [right | left; reflexivity | left; reflexivity].
  split; [reflexivity|]. exists price_, ts, conf, dev.
  repeat (split; [assumption|]).
  unfold _getStabilityBand.
  destruct (Z.geb_spec dev BAND_4_THRESHOLD); [reflexivity | lia].
Qed.

(** A controller call other than rebase() and resetCircuitBreaker() leaves
    the breaker alone. *)
Lemma administrative_breaker sender c w r :
  c <> Rebase -> c <> ResetCircuitBreaker ->
  run sender c w = Ok r ->
  circuitBreakerActive (controller (snd r))
  = circuitBreakerActive (controller w).
Proof.
  intros Hr Hreset Hrun. destruct c; try contradiction; simpl in Hrun;
    unfold in_controller in Hrun; ok_step Hrun as p Hp;
    injection Hrun as <-; simpl.
  - unfold initialize in Hp. ok_step Hp as o Ho.
    injection Hp as <-. reflexivity.
  - unfold emergencyPause in Hp. ok_step Hp as u Hu. ok_step Hp as o Ho.
    injection Hp as <-. reflexivity.
  - unfold emergencyUnpause in Hp. ok_step Hp as u Hu. ok_step Hp as o Ho.
    injection Hp as <-. reflexivity.
  - unfold lift_oz in Hp. ok_step Hp as o Ho. injection Hp as <-. reflexivity.
  - unfold lift_oz in Hp. ok_step Hp as o Ho. injection Hp as <-. reflexivity.
  - unfold lift_oz in Hp. ok_step Hp as o Ho. injection Hp as <-. reflexivity.
Qed.

(** C2.  Whatever happens to the world (a call to any of the three
    contracts, a feed publishing a price, time passing): the breaker goes
    from off to on only in a controller rebase() whose computed deviation is
    at or above the 20% threshold (band 4); it goes from on to off only in
    resetCircuitBreaker(); and no step other than a controller call, in
    particular no price reading, changes it. *)
Theorem breaker_transitions a w :
  (circuitBreakerActive (controller w) = false ->
   circuitBreakerActive (controller (step a w)) = true ->
   exists sender price_ ts conf dev,
     a = ToController sender Rebase /\
     OracleAggregator.getAggregatedPrice (now w) (feeds w) (aggregator w)
       = Ok (price_, ts, conf) /\
     _calculateDeviation price_ = Ok dev /\
     dev >= BAND_4_THRESHOLD /\
     _getStabilityBand dev = 4) /\
  (circuitBreakerActive (controller w) = true ->
   circuitBreakerActive (controller (step a w)) = false ->
   exists sender, a = ToController sender ResetCircuitBreaker) /\
  match a with
  | ToController _ _ => True
  | _ => circuitBreakerActive (controller (step a w))
         = circuitBreakerActive (controller w)
  end.
Proof.
  destruct a as [sender c| | | |]; simpl;
    try (repeat split; congruence).
  unfold commit.
  destruct (run sender c w) as [[[] w']|e] eqn:Hrun;
    [|repeat split; congruence].
  destruct c;
    try (match type of Hrun with
         | run _ ?c _ = _ =>
             pose proof (administrative_breaker _ c _ _ ltac:(discriminate)
                           ltac:(discriminate) Hrun) as Hsame
         end;
         simpl in Hsame; repeat split; congruence).
  - (* rebase *)
    simpl in Hrun. apply rebase_Ok in Hrun.
    destruct Hrun as (_ & _ & Hoff & _ & Hout).
    apply rebase_outcome_breaker in Hout.
    split; [|split; [congruence | exact I]].
    intros _ Hon.
    destruct Hout as [Hsame | [_ (price_ & ts & conf & dev & H1 & H2 & H3 & H4)]];
      [congruence|].
    exists sender, price_, ts, conf, dev. auto.
  - (* resetCircuitBreaker *)
    simpl in Hrun. unfold in_controller in Hrun. ok_step Hrun as p Hp.
    injection Hrun as <-. unfold resetCircuitBreaker in Hp.
    ok_step Hp as u Hu. injection Hp as <-. simpl.
    split; [discriminate|]. split; [eauto | exact I].
Qed.

Lemma breaker_transitions_witness :
  (exists sender price_ ts conf dev,
     ToController Scenario.deployer Rebase = ToController sender Rebase /\
     OracleAggregator.getAggregatedPrice
       (now (Scenario.priced 75000000)) (feeds (Scenario.priced 75000000))
       (aggregator (Scenario.priced 75000000)) = Ok (price_, ts, conf) /\
     _calculateDeviation price_ = Ok dev /\
     dev >= BAND_4_THRESHOLD /\
     _getStabilityBand dev = 4) /\
  (exists sender,
     ToController Scenario.deployer ResetCircuitBreaker
     = ToController sender ResetCircuitBreaker).
Proof.
  split.
  - assert (Hoff : circuitBreakerActive
                     (controller (Scenario.priced 75000000)) = false)
      by (vm_compute; reflexivity).
    assert (Hon : circuitBreakerActive
                    (controller
                       (step (ToController Scenario.deployer Rebase)
                          (Scenario.priced 75000000))) = true)
      by (vm_compute; reflexivity).
    exact (proj1 (breaker_transitions (ToController Scenario.deployer Rebase)
                    (Scenario.priced 75000000)) Hoff Hon).
  - assert (Hon : circuitBreakerActive (controller Scenario.halted) = true)
      by (vm_compute; reflexivity).
    assert (Hoff : circuitBreakerActive
                     (controller
                        (step (ToController Scenario.deployer
                                 ResetCircuitBreaker)
                           Scenario.halted)) = false)
      by (vm_compute; reflexivity).
    exact (proj1 (proj2 (breaker_transitions
                           (ToController Scenario.deployer ResetCircuitBreaker)
                           Scenario.halted)) Hon Hoff).
Defined.

(** C3, as specified, fails: at the target price the delta is 0, rebase()
    returns, and neither lastRebaseTime nor rebaseCount has moved. *)
Lemma idle_rebase_keeps_bookkeeping :
  ~ Specified.rebase_bookkeeping Scenario.deployer Scenario.live.
Proof.
  intros Hspec.
  assert (Hcall : rebase Scenario.deployer Scenario.live
                  = Ok (tt, Scenario.live))
    by (vm_compute; reflexivity).
  assert (Hoff : circuitBreakerActive (controller Scenario.live) = false)
    by (vm_compute; reflexivity).
  destruct (Hspec Scenario.live Hcall Hoff) as [Htime _].
  vm_compute in Htime. discriminate.
Qed.

(** C3, as amended.  A controller rebase() that returns without latching
    the breaker (confidence at least 50, cooldown elapsed, deviation below
    the band-4 threshold) updates lastRebaseTime and rebaseCount exactly
    when the computed delta is non-zero, together with the ledger rebase; a
    delta of 0 leaves the whole world as it was: every balance,
    sharesPerUnit, lastRebaseTime and rebaseCount. *)
Theorem rebase_bookkeeping_on_change sender w w' :
  rebase sender w = Ok (tt, w') ->
  circuitBreakerActive (controller w') = false ->
  exists price_ ts conf dev delta,
    OracleAggregator.getAggregatedPrice (now w) (feeds w) (aggregator w)
      = Ok (price_, ts, conf) /\
    conf >= 50 /\
    canRebase w = Ok true /\
    _calculateDeviation price_ = Ok dev /\
    dev < BAND_4_THRESHOLD /\
    _calculateSupplyDelta w price_ (_getStabilityBand dev) = Ok delta /\
    (delta = 0 -> w' = w) /\
    (delta <> 0 ->
       lastRebaseTime (controller w') = now w /\
       rebaseCount (controller w') = rebaseCount (controller w) + 1 /\
       exists newSupply_,
         ECashToken.rebase (self w) delta (token w)
         = Ok (newSupply_, token w')).
Proof.
  intros Hcall Hoff. apply rebase_Ok in Hcall.
  destruct Hcall as (_ & _ & _ & Hcool & Hout).
  destruct Hout as [price_ ts conf dev Hread Hconf Hdev Hhigh
                   |price_ ts conf dev Hread Hconf Hdev Hlow Hdelta
                   |price_ ts conf dev delta newSupply_ token'
                      Hread Hconf Hdev Hlow Hdelta Hnz Happly Hcount].
  - simpl in Hoff. discriminate.
  - exists price_, ts, conf, dev, 0.
    repeat (split; [assumption|]). split; [reflexivity | contradiction].
  - exists price_, ts, conf, dev, delta.
    repeat (split; [assumption|]). split; [contradiction|].
    intros _. simpl. eauto.
Qed.

Lemma rebase_bookkeeping_on_change_witness :
  exists price_ ts conf dev delta,
    OracleAggregator.getAggregatedPrice
      (now (Scenario.priced 102000000)) (feeds (Scenario.priced 102000000))
      (aggregator (Scenario.priced 102000000)) = Ok (price_, ts, conf) /\
    conf >= 50 /\
    canRebase (Scenario.priced 102000000) = Ok true /\
    _calculateDeviation price_ = Ok dev /\
    dev < BAND_4_THRESHOLD /\
    _calculateSupplyDelta (Scenario.priced 102000000) price_
      (_getStabilityBand dev) = Ok delta /\
    (delta = 0 ->
       step (ToController Scenario.deployer Rebase) (Scenario.priced 102000000)
       = Scenario.priced 102000000) /\
    (delta <> 0 ->
       lastRebaseTime
         (controller
            (step (ToController Scenario.deployer Rebase)
               (Scenario.priced 102000000)))
       = now (Scenario.priced 102000000) /\
       rebaseCount
         (controller
            (step (ToController Scenario.deployer Rebase)
               (Scenario.priced 102000000)))
       = rebaseCount (controller (Scenario.priced 102000000)) + 1 /\
       exists newSupply_,
         ECashToken.rebase (self (Scenario.priced 102000000)) delta
           (token (Scenario.priced 102000000))
         = Ok (newSupply_,
               token
                 (step (ToController Scenario.deployer Rebase)
                    (Scenario.priced 102000000)))).
Proof.
  assert (Hcall :
    rebase Scenario.deployer (Scenario.priced 102000000)
    = Ok (tt, step (ToController Scenario.deployer Rebase)
                (Scenario.priced 102000000)))
    by (vm_compute; reflexivity).
  assert (Hoff :
    circuitBreakerActive
      (controller
         (step (ToController Scenario.deployer Rebase)
            (Scenario.priced 102000000))) = false)
    by (vm_compute; reflexivity).
  exact (rebase_bookkeeping_on_change _ _ _ Hcall Hoff).
Defined.

(** C8.  The worked scenario, in 18-decimal units: supply 1,000,000 and an
    aggregated price of 1.02 give a deviation of 2%, band 1, damping 10%; the
    raw adjustment is 20,000, the damped one 2,000, the 10% cap is 100,000
    and does not bind; the delta is +2,000 and the rebase leaves a supply of
    1,002,000. *)
Theorem worked_scenario :
  ECashToken.totalSupply (token (Scenario.priced 102000000))
    = 1000000 * 10 ^ 18 /\
  OracleAggregator.getAggregatedPrice
    (now (Scenario.priced 102000000)) (feeds (Scenario.priced 102000000))
    (aggregator (Scenario.priced 102000000))
    = Ok (102 * 10 ^ 16, Scenario.launch, 100) /\
  _calculateDeviation (102 * 10 ^ 16) = Ok (2 * 10 ^ 16) /\
  _getStabilityBand (2 * 10 ^ 16) = 1 /\
  _getDampingFactor 1 = 10 * 10 ^ 16 /\
  rawAdjustment (1000000 * 10 ^ 18) (2 * 10 ^ 16) = Ok (20000 * 10 ^ 18) /\
  dampedAdjustment (20000 * 10 ^ 18) (10 * 10 ^ 16) = Ok (2000 * 10 ^ 18) /\
  maxAdjustment (1000000 * 10 ^ 18) = Ok (100000 * 10 ^ 18) /\
  _calculateSupplyDelta (Scenario.priced 102000000) (102 * 10 ^ 16) 1
    = Ok (2000 * 10 ^ 18) /\
  ECashToken.totalSupply
    (token (step (ToController Scenario.deployer Rebase)
              (Scenario.priced 102000000)))
    = 1002000 * 10 ^ 18.
Proof. vm_compute. repeat split. Qed.

(** The path previewRebase() does handle: when the aggregator call fails,
    the projection is not executable and all-zero. *)
Lemma preview_on_oracle_failure w ready e :
  canRebase w = Ok ready ->
  OracleAggregator.getAggregatedPrice (now w) (feeds w) (aggregator w)
    = Err e ->
  previewRebase w
  = Ok {| canExecute := false; currentPrice := 0; deviation := 0;
          projectedSupplyDelta := 0; previewBand := 0 |}.
Proof.
  intros Hready Hfail. unfold previewRebase.
  rewrite Hready; simpl. rewrite Hfail. reflexivity.
Qed.

(** The path it misses: a reading whose confidence is below 50 leaves
    canExecute as the cooldown and the breaker alone decide. *)
Lemma preview_on_low_confidence w ready price_ ts conf :
  canRebase w = Ok ready ->
  OracleAggregator.getAggregatedPrice (now w) (feeds w) (aggregator w)
    = Ok (price_, ts, conf) ->
  conf < 50 ->
  previewRebase w
  = Ok {| canExecute := ready && negb (circuitBreakerActive (controller w));
          currentPrice := 0; deviation := 0;
          projectedSupplyDelta := 0; previewBand := 0 |}.
Proof.
  intros Hready Hread Hlow. unfold previewRebase.
  rewrite Hready; simpl. rewrite Hread.
  destruct (Z.geb_spec conf 50); [lia | reflexivity].
Qed.

(** The computations after a confident reading run outside the [catch]:
    a price large enough to overflow the deviation makes previewRebase()
    itself fail. *)
Lemma preview_reverts_on_overflow :
  OracleAggregator.getAggregatedPrice
    (now Scenario.absurd) (feeds Scenario.absurd) (aggregator Scenario.absurd)
    = Ok (10 ^ 63, Scenario.launch, 100) /\
  previewRebase Scenario.absurd = Err (Panic ARITHMETIC).
Proof. vm_compute. repeat split. Qed.

(** C9 at its failing input: one of three registered sources answers, the
    confidence is 33, rebase() fails for lack of confidence, and
    previewRebase() reports the rebase as executable. *)
Theorem preview_executable_without_confidence :
  OracleAggregator.getAggregatedPrice
    (now Scenario.degraded) (feeds Scenario.degraded)
    (aggregator Scenario.degraded) = Ok (1 * 10 ^ 18, Scenario.launch, 33) /\
  rebase Scenario.deployer Scenario.degraded
    = Err (Revert "Insufficient oracle confidence") /\
  previewRebase Scenario.degraded
    = Ok {| canExecute := true; currentPrice := 0; deviation := 0;
            projectedSupplyDelta := 0; previewBand := 0 |}.
Proof. vm_compute. repeat split. Qed.

End ControllerFacts.

(** ** The aggregator *)

Module AggregatorFacts.

Import OZ OracleAggregator.

(** *** The key array under removal *)

Lemma swap_pop_delete {A} (l : list A) (j : nat) (x d : A) :
  l !! j = Some x ->
  removelast (<[j := List.last l d]> l) ≡ₚ delete j l.
Proof.
  intros Hj.
  apply list_elem_of_split_length in Hj as (l1 & l2 & -> & ->).
  rewrite delete_middle.
  replace (length l1) with (length l1 + 0)%nat by lia.
  rewrite insert_app_r. simpl.
  destruct l2 as [|y l2 _] using rev_ind.
  - rewrite removelast_last, app_nil_r. reflexivity.
  - assert (Hlast : List.last (l1 ++ x :: l2 ++ [y]) d = y)
      by (rewrite app_comm_cons, app_assoc; apply last_last).
    rewrite Hlast.
    rewrite (app_comm_cons l2 [y] y), app_assoc, removelast_last.
    apply Permutation_app_head, Permutation_cons_append.
Qed.

(** The loop stops at the first slot holding [key]. *)
Lemma remove_key_found key keys n i :
  n = (length keys - i)%nat ->
  key ∈ drop i keys ->
  exists j, keys !! j = Some key /\
            remove_key key keys i n
            = removelast (<[j := List.last keys key]> keys).
Proof.
  revert i. induction n as [|n IH]; intros i Hn Hin.
  - rewrite drop_ge in Hin by lia. inversion Hin.
  - simpl. destruct (keys !! i) as [k|] eqn:Hk.
    + destruct (String.eqb_spec k key) as [->|Hne]; [eauto|].
      apply IH; [lia|].
      rewrite (drop_S _ _ _ Hk) in Hin.
      apply elem_of_cons in Hin as [->|Hin]; [contradiction | assumption].
    + apply lookup_ge_None in Hk. lia.
Qed.

Lemma removeOracle_keys key keys :
  NoDup keys -> key ∈ keys ->
  NoDup (remove_key key keys 0 (length keys)) /\
  forall k, k ∈ remove_key key keys 0 (length keys) <-> k ∈ keys /\ k <> key.
Proof.
  intros Hnd Hin.
  destruct (remove_key_found key keys (length keys) 0) as (j & Hj & ->);
    [lia | exact Hin |].
  pose proof (swap_pop_delete keys j key key Hj) as Hperm.
  pose proof (delete_Permutation keys j key Hj) as Hkeys.
  rewrite Hkeys in Hnd. apply NoDup_cons in Hnd as [Hfresh Hrest].
  split.
  - rewrite Hperm. exact Hrest.
  - intros k. rewrite Hperm. rewrite Hkeys at 2. rewrite elem_of_cons.
    split.
    + intros Hk. split; [auto|]. intros ->. contradiction.
    + intros [[->|Hk] Hne]; [contradiction | assumption].
Qed.

(** *** The registry invariant *)

Lemma config_of_insert s key c key' :
  config_of (set_oracles (<[key := c]> (oracles s)) s) key'
  = if decide (key = key') then c else config_of s key'.
Proof.
  unfold config_of; simpl. rewrite lookup_insert.
  destruct (decide (key = key')); reflexivity.
Qed.

Lemma registry_inv_frame s s' :
  oracles s' = oracles s -> oracleKeys s' = oracleKeys s ->
  registry_inv s -> registry_inv s'.
Proof.
  unfold registry_inv, config_of. intros -> ->. tauto.
Qed.

Lemma registry_inv_add sender key o w h d descr s r :
  registry_inv s ->
  addOracle sender key o w h d descr s = Ok r ->
  registry_inv (snd r).
Proof.
  intros (Hnd & Hkeys & Hweights) Hcall. unfold addOracle in Hcall.
  ok_step Hcall as u1 Hrole. ok_step Hcall as u2 Haddr.
  ok_step Hcall as u3 Hw. ok_step Hcall as u4 Hnew. ok_arith.
  injection Hcall as <-. simpl.
  apply negb_true_iff in Hnew.
  assert (Hfresh : key ∉ oracleKeys s)
    by (rewrite Hkeys, Hnew; discriminate).
  unfold registry_inv; simpl. split; [|split].
  - apply NoDup_app. split; [assumption|]. split; [|apply NoDup_singleton].
    intros k Hk ->%list_elem_of_singleton. contradiction.
  - intros k.
    change (config_of _ k)
      with (config_of (set_oracles (<[key := {| oracle := o; weight := w;
              heartbeat := h; isActive := true; decimals := d;
              description := descr |}]> (oracles s)) s) k).
    rewrite config_of_insert, elem_of_app, list_elem_of_singleton.
    destruct (decide (key = k)) as [->|Hne]; simpl.
    + split; auto.
    + rewrite Hkeys. split; [intros [?|?]; congruence | auto].
  - intros k.
    change (config_of _ k)
      with (config_of (set_oracles (<[key := {| oracle := o; weight := w;
              heartbeat := h; isActive := true; decimals := d;
              description := descr |}]> (oracles s)) s) k).
    rewrite config_of_insert.
    destruct (decide (key = k)) as [->|Hne]; simpl; [|apply Hweights].
    intros _. destruct (Z.gtb_spec w 0); [lia | discriminate].
Qed.

Lemma registry_inv_update sender key w h s r :
  registry_inv s ->
  updateOracle sender key w h s = Ok r ->
  registry_inv (snd r).
Proof.
  intros (Hnd & Hkeys & Hweights) Hcall. unfold updateOracle in Hcall.
  ok_step Hcall as u1 Hrole. ok_step Hcall as u2 Hactive.
  ok_step Hcall as u3 Hw. ok_arith.
  injection Hcall as <-. simpl.
  unfold registry_inv. cbn [oracleKeys set_oracles].
  split; [assumption|]. split.
  - intros k. rewrite config_of_insert.
    destruct (decide (key = k)) as [->|Hne]; simpl; [|apply Hkeys].
    rewrite Hkeys. tauto.
  - intros k. rewrite config_of_insert.
    destruct (decide (key = k)) as [->|Hne]; simpl; [|apply Hweights].
    intros _. destruct (Z.gtb_spec w 0); [lia | discriminate].
Qed.

Lemma registry_inv_remove sender key s r :
  registry_inv s ->
  removeOracle sender key s = Ok r ->
  registry_inv (snd r).
Proof.
  intros (Hnd & Hkeys & Hweights) Hcall. unfold removeOracle in Hcall.
  ok_step Hcall as u1 Hrole. ok_step Hcall as u2 Hactive. ok_arith.
  injection Hcall as <-. cbn [snd].
  assert (Hin : key ∈ oracleKeys s) by (apply Hkeys; assumption).
  destruct (removeOracle_keys key (oracleKeys s) Hnd Hin) as [Hnd' Hmem].
  unfold registry_inv. cbn [oracleKeys set_oracleKeys set_oracles].
  set (c := {| oracle := oracle (config_of s key);
               weight := weight (config_of s key);
               heartbeat := heartbeat (config_of s key); isActive := false;
               decimals := decimals (config_of s key);
               description := description (config_of s key) |}).
  assert (Hcfg : forall k,
            config_of (set_oracleKeys
                         (remove_key key (oracleKeys s) 0 (length (oracleKeys s)))
                         (set_oracles (<[key := c]> (oracles s)) s)) k
            = if decide (key = k) then c else config_of s k).
  { intros k. rewrite <- config_of_insert. reflexivity. }
  split; [assumption|]. split.
  - intros k. rewrite Hcfg, Hmem.
    destruct (decide (key = k)) as [->|Hne]; simpl.
    + split; [intros [_ ?]; contradiction | discriminate].
    + rewrite Hkeys. split; [tauto | auto].
  - intros k. rewrite Hcfg.
    destruct (decide (key = k)) as [->|Hne]; simpl;
      [discriminate | apply Hweights].
Qed.

Lemma registry_inv_step sender c s :
  registry_inv s -> registry_inv (step sender c s).
Proof.
  intros Hinv. unfold step.
  destruct (run sender c s) as [[[] s']|e] eqn:Hrun; simpl; [|assumption].
  destruct c; simpl in Hrun.
  - unfold initialize in Hrun. ok_step Hrun as o Ho. injection Hrun as <-.
    eapply registry_inv_frame; [..|exact Hinv]; reflexivity.
  - exact (registry_inv_add _ _ _ _ _ _ _ _ _ Hinv Hrun).
  - exact (registry_inv_update _ _ _ _ _ _ Hinv Hrun).
  - exact (registry_inv_remove _ _ _ _ Hinv Hrun).
  - unfold lift_oz in Hrun. ok_step Hrun as o Ho. injection Hrun as <-.
    eapply registry_inv_frame; [..|exact Hinv]; reflexivity.
  - unfold lift_oz in Hrun. ok_step Hrun as o Ho. injection Hrun as <-.
    eapply registry_inv_frame; [..|exact Hinv]; reflexivity.
  - unfold lift_oz in Hrun. ok_step Hrun as o Ho. injection Hrun as <-.
    eapply registry_inv_frame; [..|exact Hinv]; reflexivity.
Qed.

Lemma reachable_registry_inv s : reachable s -> registry_inv s.
Proof.
  induction 1 as [|sender c s _ IH].
  - unfold registry_inv, config_of; simpl. split; [constructor|].
    split; intros key; rewrite lookup_empty; simpl.
    + split; [intros Hin; inversion Hin | discriminate].
    + discriminate.
  - apply registry_inv_step; assumption.
Qed.

(** Under the invariant the length of the key array, which the confidence
    divides by, is the number of active sources. *)
Lemma active_sources_counted s :
  registry_inv s -> activeSources s = length (oracleKeys s).
Proof.
  intros (Hnd & Hkeys & _). unfold activeSources.
  rewrite <- (size_dom (D := gset string)).
  rewrite <- (size_list_to_set (C := gset string) (oracleKeys s)) by assumption.
  f_equal. apply set_eq. intros key.
  rewrite elem_of_dom, elem_of_list_to_set, Hkeys.
  unfold is_Some, config_of.
  split.
  - intros [c [Hc Hactive]%map_lookup_filter_Some]. rewrite Hc. exact Hactive.
  - destruct (oracles s !! key) as [c|] eqn:Hc; simpl; [|discriminate].
    intros Hactive. exists c. apply map_lookup_filter_Some. auto.
Qed.

(** *** The aggregation loop against the closed form *)

Lemma _normalizePrice_Ok p d v :
  _normalizePrice p d = Ok v -> v = normalize p d.
Proof.
  unfold _normalizePrice, normalize, checked_pow.
  destruct (d =? 18); [intros Hv; injection Hv as <-; reflexivity|].
  destruct (d <? 18); intros Hv; ok_step Hv as scale Hscale;
    destruct (_ <=? UINT256_MAX) in Hscale; try discriminate;
    injection Hscale as <-; ok_arith; reflexivity.
Qed.

Lemma visit_Ok now feeds s t key t' :
  visit now feeds s t key = Ok t' ->
  match contribution now feeds s key with
  | None => t' = t
  | Some (c, q) =>
      totalWeight t' = totalWeight t + weight c /\
      weightedSum t'
        = weightedSum t + normalize (answer q) (decimals c) * weight c /\
      validOracles t' = validOracles t + 1 /\
      oldestTimestamp t' = Z.min (updatedAt q) (oldestTimestamp t) /\
      updatedAt q <= now
  end.
Proof.
  unfold visit, contribution, accepts.
  destruct (isActive (config_of s key)); simpl;
    [|intros Hv; injection Hv as <-; reflexivity].
  destruct (feeds !! oracle (config_of s key)) as [q|];
    [|intros Hv; injection Hv as <-; reflexivity].
  destruct (Z.gtb_spec (answer q) 0) as [Hpos|_]; simpl;
    [|intros Hv; injection Hv as <-; reflexivity].
  destruct (updatedAt q >? 0); simpl;
    [|intros Hv; injection Hv as <-; reflexivity].
  intros Hv. ok_step Hv as age Hage. ok_arith.
  destruct (now - updatedAt q <=? heartbeat (config_of s key));
    [|injection Hv as <-; reflexivity].
  ok_step Hv as np Hnp. ok_step Hv as contrib Hcontrib.
  ok_step Hv as ws Hws. ok_step Hv as tw Htw. ok_step Hv as vo Hvo.
  ok_arith. injection Hv as <-. simpl.
  apply _normalizePrice_Ok in Hnp. subst np.
  unfold to_uint256. destruct (Z.leb_spec 0 (answer q)); [|lia].
  repeat (split; [reflexivity|]). split; [|assumption].
  destruct (Z.ltb_spec (updatedAt q) (oldestTimestamp t)); lia.
Qed.

Lemma oldest_shift (l : list (OracleConfig * RoundData)) (u a : Z) :
  foldr (fun cq acc => Z.min (updatedAt cq.2) acc) (Z.min u a) l
  = Z.min u (foldr (fun cq acc => Z.min (updatedAt cq.2) acc) a l).
Proof. induction l as [|cq l IH]; simpl; [reflexivity|]. rewrite IH. lia. Qed.

Lemma visit_all_Ok now feeds s keys :
  forall t t',
    visit_all now feeds s t keys = Ok t' ->
    totalWeight t'
      = totalWeight t + totalWeight_of (omap (contribution now feeds s) keys) /\
    weightedSum t'
      = weightedSum t + weightedSum_of (omap (contribution now feeds s) keys) /\
    validOracles t'
      = validOracles t
        + Z.of_nat (length (omap (contribution now feeds s) keys)) /\
    oldestTimestamp t'
      = foldr (fun cq acc => Z.min (updatedAt cq.2) acc) (oldestTimestamp t)
          (omap (contribution now feeds s) keys) /\
    (forall c q, (c, q) ∈ omap (contribution now feeds s) keys ->
                 updatedAt q <= now).
Proof.
  induction keys as [|key keys IH]; intros t t' Hall; simpl in Hall.
  - injection Hall as <-. simpl.
    repeat (split; [lia|]). intros c q Hin. inversion Hin.
  - ok_step Hall as t1 Hvisit. apply visit_Ok in Hvisit.
    apply IH in Hall as (Htw & Hws & Hvo & Hold & Hnow).
    change (omap (contribution now feeds s) (key :: keys))
      with (match contribution now feeds s key with
            | Some cq => cq :: omap (contribution now feeds s) keys
            | None => omap (contribution now feeds s) keys
            end).
    set (l := omap (contribution now feeds s) keys) in *.
    destruct (contribution now feeds s key) as [[c q]|].
    + destruct Hvisit as (Htw1 & Hws1 & Hvo1 & Hold1 & Hq).
      unfold totalWeight_of, weightedSum_of in *.
      rewrite Htw, Hws, Hvo, Hold, Htw1, Hws1, Hvo1, Hold1.
      rewrite oldest_shift. simpl.
      repeat (split; [lia|]).
      intros c' q' [Heq|Hin]%elem_of_cons; [congruence | eauto].
    + subst t1. auto.
Qed.

Lemma oldest_of_le l c q : (c, q) ∈ l -> oldest_of l <= updatedAt q.
Proof.
  unfold oldest_of. induction l as [|cq l IH]; intros Hin; [inversion Hin|].
  apply elem_of_cons in Hin as [<-|Hin]; simpl; [lia|].
  specialize (IH Hin). lia.
Qed.

Lemma oldest_of_attained l :
  l <> [] ->
  (forall c q, (c, q) ∈ l -> updatedAt q <= UINT256_MAX) ->
  exists c q, (c, q) ∈ l /\ oldest_of l = updatedAt q.
Proof.
  unfold oldest_of. induction l as [|[c q] l IH]; intros Hne Hbound;
    [contradiction|].
  destruct l as [|cq' l'].
  - exists c, q. split; [apply list_elem_of_here|]. simpl.
    pose proof (Hbound c q (list_elem_of_here _ _)). lia.
  - destruct IH as (c0 & q0 & Hin & Hmin); [discriminate | |].
    { intros c1 q1 Hin. apply (Hbound c1 q1), list_elem_of_further, Hin. }
    change (foldr _ _ ((c, q) :: cq' :: l'))
      with (Z.min (updatedAt q)
              (foldr (fun cq acc => Z.min (updatedAt cq.2) acc) UINT256_MAX
                 (cq' :: l'))).
    rewrite Hmin.
    destruct (Z.le_ge_cases (updatedAt q) (updatedAt q0)).
    + exists c, q. split; [apply list_elem_of_here | lia].
    + exists c0, q0. split; [apply list_elem_of_further, Hin | lia].
Qed.

(** A quote too old for its heartbeat, or not positive, contributes
    nothing. *)
Lemma discarded_contributes_nothing now feeds s key q :
  feeds !! oracle (config_of s key) = Some q ->
  now - updatedAt q > heartbeat (config_of s key) \/ answer q <= 0 ->
  contribution now feeds s key = None.
Proof.
  intros Hq Hbad. unfold contribution, accepts. rewrite Hq.
  destruct (isActive (config_of s key)); [|reflexivity].
  destruct (Z.gtb_spec (answer q) 0); simpl; [|reflexivity].
  destruct (updatedAt q >? 0); simpl; [|reflexivity].
  destruct (Z.leb_spec (now - updatedAt q) (heartbeat (config_of s key)));
    [lia | reflexivity].
Qed.

Lemma getAggregatedPrice_Ok now feeds s price_ ts conf :
  getAggregatedPrice now feeds s = Ok (price_, ts, conf) ->
  price_ = weightedSum_of (contributions now feeds s)
           / totalWeight_of (contributions now feeds s) /\
  ts = oldest_of (contributions now feeds s) /\
  conf = Z.of_nat (length (contributions now feeds s)) * 100
         / Z.of_nat (length (oracleKeys s)) /\
  contributions now feeds s <> [] /\
  (forall c q, (c, q) ∈ contributions now feeds s -> updatedAt q <= now).
Proof.
  unfold getAggregatedPrice. intros Hcall.
  ok_step Hcall as u1 Hcount. ok_step Hcall as t Hloop.
  ok_step Hcall as u2 Hvalid. ok_step Hcall as u3 Hweight.
  ok_step Hcall as p Hp. ok_step Hcall as scaled Hscaled.
  ok_step Hcall as c Hc. ok_arith.
  injection Hcall as <- <- <-.
  apply visit_all_Ok in Hloop as (Htw & Hws & Hvo & Hold & Hnow).
  simpl in Htw, Hws, Hvo, Hold. fold (contributions now feeds s) in *.
  rewrite Htw, Hws, Hvo, Hold.
  repeat (split; [reflexivity|]). split; [|exact Hnow].
  intros Hnil. rewrite Hnil in Hvo. simpl in Hvo. rewrite Hvo in Hvalid.
  discriminate.
Qed.

(** *** One fresh and one stale source *)

Lemma visit_fresh now feeds s t key q np :
  isActive (config_of s key) = true ->
  feeds !! oracle (config_of s key) = Some q ->
  answer q > 0 -> updatedAt q > 0 -> updatedAt q <= now ->
  now - updatedAt q <= heartbeat (config_of s key) ->
  _normalizePrice (answer q) (decimals (config_of s key)) = Ok np ->
  np * weight (config_of s key) <= UINT256_MAX ->
  weightedSum t + np * weight (config_of s key) <= UINT256_MAX ->
  totalWeight t + weight (config_of s key) <= UINT256_MAX ->
  validOracles t + 1 <= UINT256_MAX ->
  visit now feeds s t key
  = Ok {| totalWeight := totalWeight t + weight (config_of s key);
          weightedSum := weightedSum t + np * weight (config_of s key);
          oldestTimestamp := Z.min (updatedAt q) (oldestTimestamp t);
          validOracles := validOracles t + 1 |}.
Proof.
  intros Hactive Hq Hpos Hset Hpast Hage Hnp Hfit Hws Htw Hvo.
  unfold visit. rewrite Hactive, Hq. simpl.
  destruct (Z.gtb_spec (answer q) 0); [|lia].
  destruct (Z.gtb_spec (updatedAt q) 0); [|lia]. simpl.
  rewrite checked_sub_fits by assumption. simpl.
  destruct (Z.leb_spec (now - updatedAt q) (heartbeat (config_of s key)));
    [|lia].
  unfold to_uint256. destruct (Z.leb_spec 0 (answer q)); [|lia].
  rewrite Hnp. simpl.
  rewrite checked_mul_fits by assumption. simpl.
  rewrite !checked_add_fits by assumption. simpl.
  do 2 f_equal.
  destruct (Z.ltb_spec (updatedAt q) (oldestTimestamp t)); lia.
Qed.

Lemma visit_stale now feeds s t key q :
  feeds !! oracle (config_of s key) = Some q ->
  updatedAt q <= now ->
  now - updatedAt q > heartbeat (config_of s key) ->
  visit now feeds s t key = Ok t.
Proof.
  intros Hq Hpast Hage. unfold visit. rewrite Hq.
  destruct (isActive (config_of s key)); [|reflexivity]. simpl.
  destruct ((answer q >? 0) && (updatedAt q >? 0)); [|reflexivity].
  rewrite checked_sub_fits by assumption. simpl.
  destruct (Z.leb_spec (now - updatedAt q) (heartbeat (config_of s key)));
    [lia | reflexivity].
Qed.

Lemma two_sources_reachable :
  reachable (StabilizationController.aggregator Scenario.two_sources).
Proof.
  assert (Heq :
    StabilizationController.aggregator Scenario.two_sources
    = step Scenario.deployer
        (AddOracle "backup-a" 20%N 100 3600 8 "Backup A")
        (step Scenario.deployer
           (AddOracle "chainlink-eth-usd" Scenario.chainlinkOracle
              100 3600 8 "Chainlink ETH/USD")
           (step Scenario.deployer (Initialize Scenario.deployer) deployed)))
    by (vm_compute; reflexivity).
  rewrite Heq. repeat apply reachable_step. apply reachable_deployed.
Qed.

(** C7.  In a registry reachable from deployment, whenever the aggregation
    returns: a quote whose age exceeds its source's heartbeat, or whose
    value is not positive, contributes nothing; the price is the floor of
    the weighted sum of the contributing (normalised) values over their
    total weight; the timestamp is the oldest contributing one; the
    confidence is the floor of 100 times the number of contributing sources
    over the number of active sources.  With two registered sources, one
    fresh and one stale, the aggregation returns, with confidence 50 and
    the fresh source's normalised value as the price. *)
Theorem aggregation_result :
  (forall now feeds s price_ ts conf,
     reachable s -> is_uint256 now ->
     getAggregatedPrice now feeds s = Ok (price_, ts, conf) ->
     (forall key q,
        feeds !! oracle (config_of s key) = Some q ->
        now - updatedAt q > heartbeat (config_of s key) \/ answer q <= 0 ->
        contribution now feeds s key = None) /\
     price_ = weightedSum_of (contributions now feeds s)
              / totalWeight_of (contributions now feeds s) /\
     (forall c q, (c, q) ∈ contributions now feeds s -> ts <= updatedAt q) /\
     (exists c q, (c, q) ∈ contributions now feeds s /\ ts = updatedAt q) /\
     conf = Z.of_nat (length (contributions now feeds s)) * 100
            / Z.of_nat (activeSources s)) /\
  (forall now feeds s fresh stale qf qs np,
     reachable s -> is_uint256 now ->
     oracleKeys s = [fresh; stale] \/ oracleKeys s = [stale; fresh] ->
     feeds !! oracle (config_of s fresh) = Some qf ->
     feeds !! oracle (config_of s stale) = Some qs ->
     answer qf > 0 -> updatedAt qf > 0 -> updatedAt qf <= now ->
     now - updatedAt qf <= heartbeat (config_of s fresh) ->
     updatedAt qs <= now ->
     now - updatedAt qs > heartbeat (config_of s stale) ->
     _normalizePrice (answer qf) (decimals (config_of s fresh)) = Ok np ->
     np * weight (config_of s fresh) <= UINT256_MAX ->
     weight (config_of s fresh) <= UINT256_MAX ->
     getAggregatedPrice now feeds s = Ok (np, updatedAt qf, 50) /\
     np = normalize (answer qf) (decimals (config_of s fresh)) /\
     (decimals (config_of s fresh) = 18 -> np = answer qf)).
Proof.
  split.
  - intros now feeds s price_ ts conf Hreach [_ Hnow] Hcall.
    apply reachable_registry_inv in Hreach.
    apply getAggregatedPrice_Ok in Hcall as (-> & -> & -> & Hne & Hpast).
    split; [intros key q; apply discarded_contributes_nothing|].
    split; [reflexivity|].
    split; [intros c q; apply oldest_of_le|].
    split; [|rewrite active_sources_counted by assumption; reflexivity].
    apply oldest_of_attained; [assumption|].
    intros c q Hin. specialize (Hpast c q Hin). lia.
  - intros now feeds s fresh stale qf qs np Hreach [_ Hnow] Hkeys Hqf Hqs
      Hpos Hset Hpast Hage Hpast' Hold Hnp Hfit Hw.
    apply reachable_registry_inv in Hreach.
    destruct Hreach as (_ & Hactive & Hweight).
    assert (Hin : fresh ∈ oracleKeys s)
      by (destruct Hkeys as [-> | ->];
          [apply list_elem_of_here
          |apply list_elem_of_further, list_elem_of_here]).
    apply Hactive in Hin. pose proof (Hweight fresh Hin) as Hwpos.
    split; [|split].
    + unfold getAggregatedPrice.
      assert (Hloop :
        visit_all now feeds s
          {| totalWeight := 0; weightedSum := 0;
             oldestTimestamp := UINT256_MAX; validOracles := 0 |}
          (oracleKeys s)
        = Ok {| totalWeight := 0 + weight (config_of s fresh);
                weightedSum := 0 + np * weight (config_of s fresh);
                oldestTimestamp := Z.min (updatedAt qf) UINT256_MAX;
                validOracles := 0 + 1 |}).
      { destruct Hkeys as [-> | ->]; simpl.
        - rewrite (visit_fresh now feeds s _ fresh qf np)
            by (simpl; first [assumption | lia | (vm_compute; discriminate)]).
          simpl. rewrite (visit_stale now feeds s _ stale qs) by assumption.
          reflexivity.
        - rewrite (visit_stale now feeds s _ stale qs) by assumption. simpl.
          rewrite (visit_fresh now feeds s _ fresh qf np)
            by (simpl; first [assumption | lia | (vm_compute; discriminate)]).
          reflexivity. }
      assert (Hlen : length (oracleKeys s) = 2%nat)
        by (destruct Hkeys as [-> | ->]; reflexivity).
      rewrite Hloop, Hlen. simpl.
      destruct (Z.gtb_spec (0 + weight (config_of s fresh)) 0); [|lia]. simpl.
      rewrite checked_div_fits by lia. simpl.
      rewrite !Z.add_0_l, Z.div_mul by lia. rewrite Z.min_l by lia.
      reflexivity.
    + apply _normalizePrice_Ok. assumption.
    + intros Hd. unfold _normalizePrice in Hnp. rewrite Hd in Hnp.
      injection Hnp as <-. reflexivity.
Qed.

Lemma aggregation_result_witness :
  OracleAggregator.getAggregatedPrice
    (StabilizationController.now Scenario.two_sources)
    (StabilizationController.feeds Scenario.two_sources)
    (StabilizationController.aggregator Scenario.two_sources)
  = Ok (1 * 10 ^ 18, Scenario.launch, 50).
Proof.
  destruct aggregation_result as [_ Htwo].
  refine (proj1 (Htwo (StabilizationController.now Scenario.two_sources)
                   (StabilizationController.feeds Scenario.two_sources)
                   (StabilizationController.aggregator Scenario.two_sources)
                   "chainlink-eth-usd" "backup-a"
                   (Scenario.quote 100000000 Scenario.launch)
                   (Scenario.quote 105000000 (Scenario.launch - 7200))
                   (1 * 10 ^ 18)
                   two_sources_reachable _ _ _ _ _ _ _ _ _ _ _ _ _));
    try (split; vm_compute; discriminate);
    try (vm_compute; first [reflexivity | discriminate]).
  left. vm_compute. reflexivity.
Defined.

End AggregatorFacts.

(** ** The ledger: shares, transfers and allowances *)

Module LedgerFacts.

Import OZ ECashToken Accounting.

Lemma sum_of_empty f : sum_of f ∅ = 0.
Proof. unfold sum_of. apply map_fold_empty. Qed.

Lemma sum_of_insert_fresh f (m : gmap address Z) k v :
  m !! k = None -> sum_of f (<[k := v]> m) = f v + sum_of f m.
Proof.
  intros Hk. unfold sum_of.
  rewrite (map_fold_insert_L (fun _ g acc => f g + acc)) by (intros; lia || exact Hk).
  reflexivity.
Qed.

Lemma sum_of_delete f (m : gmap address Z) k v :
  m !! k = Some v -> sum_of f m = f v + sum_of f (delete k m).
Proof.
  intros Hk. unfold sum_of.
  rewrite (map_fold_delete_L (fun _ g acc => f g + acc) 0 k v m)
    by (intros; lia || exact Hk).
  reflexivity.
Qed.

Lemma sum_of_insert f (m : gmap address Z) k v :
  sum_of f (<[k := v]> m)
  = sum_of f m - match m !! k with Some x => f x | None => 0 end + f v.
Proof.
  destruct (m !! k) as [x|] eqn:Hk.
  - rewrite <- (insert_delete_eq m k v).
    rewrite sum_of_insert_fresh by apply lookup_delete_eq.
    rewrite (sum_of_delete f m k x Hk). lia.
  - rewrite sum_of_insert_fresh by exact Hk. lia.
Qed.

Lemma sum_of_nonneg f (m : gmap address Z) :
  (forall k v, m !! k = Some v -> 0 <= f v) -> 0 <= sum_of f m.
Proof.
  induction m as [|k v m Hk IH] using map_ind; intros Hpos.
  - rewrite sum_of_empty. lia.
  - rewrite sum_of_insert_fresh by exact Hk.
    pose proof (Hpos k v (lookup_insert_eq _ _ _)).
    assert (0 <= sum_of f m); [|lia].
    apply IH. intros k' v' Hk'. apply (Hpos k' v').
    rewrite lookup_insert_ne; [exact Hk'|]. intros ->. congruence.
Qed.

Lemma gons_insert s m k v a :
  gons (set_gonBalances (<[k := v]> m) s) a
  = if decide (k = a) then v else default 0 (m !! a).
Proof.
  unfold gons; simpl. rewrite lookup_insert.
  destruct (decide (k = a)); reflexivity.
Qed.

Lemma total_gons_insert s k v :
  total_gons (set_gonBalances (<[k := v]> (_gonBalances s)) s)
  = total_gons s - gons s k + v.
Proof.
  unfold total_gons, gons; simpl. rewrite sum_of_insert.
  destruct (_gonBalances s !! k); simpl; lia.
Qed.

(** With no negative entry, a holder's shares are at most the total. *)
Lemma gons_le_total s a :
  (forall b, 0 <= gons s b) -> gons s a <= total_gons s.
Proof.
  intros Hpos. unfold total_gons, gons in *.
  destruct (_gonBalances s !! a) as [g|] eqn:Ha; simpl.
  - rewrite (sum_of_delete _ _ a g Ha).
    assert (0 <= sum_of (fun g => g) (delete a (_gonBalances s))); [|lia].
    apply sum_of_nonneg. intros k v Hk.
    apply lookup_delete_Some in Hk as [_ Hk].
    specialize (Hpos k). rewrite Hk in Hpos. exact Hpos.
  - apply sum_of_nonneg. intros k v Hk.
    specialize (Hpos k). rewrite Hk in Hpos. exact Hpos.
Qed.

(** What moving [ga] shares from [src] to [dst] does to the mapping. *)
Lemma move_gons s src dst ga credited :
  credited
  = gons (set_gonBalances (<[src := gons s src - ga]> (_gonBalances s)) s) dst
    + ga ->
  let s1 := set_gonBalances (<[src := gons s src - ga]> (_gonBalances s)) s in
  let s2 := set_gonBalances (<[dst := credited]> (_gonBalances s1)) s1 in
  (forall a,
     gons s2 a
     = gons s a - (if decide (a = src) then ga else 0)
       + (if decide (a = dst) then ga else 0)) /\
  total_gons s2 = total_gons s.
Proof.
  intros Hc s1 s2. split.
  - intros a. subst s2 s1. cbn [_gonBalances set_gonBalances].
    rewrite gons_insert.
    destruct (decide (dst = a)) as [->|Hd].
    + rewrite Hc, gons_insert.
      destruct (decide (src = a)) as [->|Hs].
      * rewrite !decide_True by reflexivity. lia.
      * rewrite decide_False by congruence.
        rewrite decide_True by reflexivity. unfold gons. lia.
    + rewrite lookup_insert.
      destruct (decide (src = a)) as [->|Hs]; simpl.
      * rewrite decide_True by reflexivity.
        rewrite decide_False by congruence. lia.
      * rewrite !decide_False by congruence. unfold gons. lia.
  - subst s2. rewrite total_gons_insert.
    subst s1. rewrite total_gons_insert. rewrite Hc. lia.
Qed.

Lemma transfer_Ok sender to amount s b s' :
  transfer sender to amount s = Ok (b, s') ->
  b = true /\
  _paused (oz s) = false /\
  amount * _gonsPerFragment s <= UINT256_MAX /\
  amount * _gonsPerFragment s <= gons s sender /\
  oz s' = oz s /\ _totalSupply s' = _totalSupply s /\
  _gonsPerFragment s' = _gonsPerFragment s /\
  _allowedFragments s' = _allowedFragments s /\
  rebaseCount s' = rebaseCount s /\
  (forall a,
     gons s' a
     = gons s a
       - (if decide (a = sender) then amount * _gonsPerFragment s else 0)
       + (if decide (a = to) then amount * _gonsPerFragment s else 0)) /\
  total_gons s' = total_gons s.
Proof.
  unfold transfer. intros H.
  ok_step H as u Hpause. ok_step H as ga Hmul. ok_step H as debited Hsub.
  ok_step H as credited Hadd. injection H as <- <-.
  ok_arith.
  unfold whenNotPaused in Hpause.
  destruct (_paused (oz s)); [discriminate|].
  repeat (split; [first [reflexivity | lia]|]).
  apply (move_gons s sender to (amount * _gonsPerFragment s)). reflexivity.
Qed.

Lemma transferFrom_Ok sender from to amount s b s' :
  transferFrom sender from to amount s = Ok (b, s') ->
  b = true /\
  _paused (oz s) = false /\
  amount * _gonsPerFragment s <= gons s from /\
  oz s' = oz s /\ _totalSupply s' = _totalSupply s /\
  _gonsPerFragment s' = _gonsPerFragment s /\
  rebaseCount s' = rebaseCount s /\
  (allowed s from sender = UINT256_MAX /\
   _allowedFragments s' = _allowedFragments s \/
   allowed s from sender <> UINT256_MAX /\
   amount <= allowed s from sender /\
   _allowedFragments s'
   = <[(from, sender) := allowed s from sender - amount]>
       (_allowedFragments s)) /\
  (forall a,
     gons s' a
     = gons s a
       - (if decide (a = from) then amount * _gonsPerFragment s else 0)
       + (if decide (a = to) then amount * _gonsPerFragment s else 0)) /\
  total_gons s' = total_gons s.
Proof.
  unfold transferFrom. intros H.
  ok_step H as u Hpause. ok_step H as ga Hmul. ok_step H as s1 Hspend.
  ok_step H as debited Hsub. ok_step H as credited Hadd.
  injection H as <- <-.
  unfold whenNotPaused in Hpause.
  destruct (_paused (oz s)); [discriminate|].
  assert (Hs1 : exists m, s1 = set_allowedFragments m s /\
            (allowed s from sender = UINT256_MAX /\ m = _allowedFragments s \/
             allowed s from sender <> UINT256_MAX /\
             amount <= allowed s from sender /\
             m = <[(from, sender) := allowed s from sender - amount]>
                   (_allowedFragments s))).
  { destruct (Z.eqb_spec (allowed s from sender) UINT256_MAX) as [Hinf|Hfin];
      simpl in Hspend.
    - injection Hspend as <-. exists (_allowedFragments s).
      split; [destruct s; reflexivity | auto].
    - ok_step Hspend as remaining Hrem. ok_arith. injection Hspend as <-.
      eexists. split; [reflexivity|]. right. auto. }
  destruct Hs1 as (m & -> & Hallow).
  change (gons (set_allowedFragments m s) from) with (gons s from) in Hsub.
  ok_arith.
  cbn [oz _totalSupply _gonsPerFragment rebaseCount _allowedFragments
       set_gonBalances set_allowedFragments].
  split; [reflexivity|]. split; [reflexivity|]. split; [lia|].
  repeat (split; [reflexivity|]).
  split; [exact Hallow|].
  apply (move_gons (set_allowedFragments m s) from to
           (amount * _gonsPerFragment s)).
  reflexivity.
Qed.

Lemma shares_inv_frame s s' :
  _initialized (oz s') = _initialized (oz s) ->
  _gonsPerFragment s' = _gonsPerFragment s ->
  _gonBalances s' = _gonBalances s ->
  shares_inv s -> shares_inv s'.
Proof.
  unfold shares_inv, total_gons, gons. intros -> -> ->. tauto.
Qed.

Lemma shares_inv_moved s s' ga src dst :
  0 <= ga -> ga <= gons s src ->
  _initialized (oz s') = _initialized (oz s) ->
  _gonsPerFragment s' = _gonsPerFragment s ->
  (forall a,
     gons s' a
     = gons s a - (if decide (a = src) then ga else 0)
       + (if decide (a = dst) then ga else 0)) ->
  total_gons s' = total_gons s ->
  shares_inv s -> shares_inv s'.
Proof.
  intros Hga Hsrc Hi Hg Hmoved Htotal (Hgpf & Hpos & Hsum).
  unfold shares_inv. rewrite Hi, Hg, Htotal.
  split; [assumption|]. split; [|assumption].
  intros a. rewrite Hmoved. specialize (Hpos a).
  destruct (decide (a = src)) as [Heq|]; [subst a|];
    destruct (decide (_ = dst)); lia.
Qed.

Lemma shares_inv_step sender c s :
  well_typed c -> supply_inv s -> shares_inv s ->
  shares_inv (step sender c s).
Proof.
  intros Hc Hsupply Hinv. unfold step.
  destruct (run sender c s) as [[[] s']|e] eqn:Hrun; simpl; [|assumption].
  destruct c; simpl in Hrun.
  - (* initialize *)
    unfold initialize, initializer in Hrun.
    destruct (_initialized (oz s)) eqn:Hi; [discriminate|].
    simpl in Hrun. injection Hrun as <-.
    destruct Hinv as (Hgpf & Hpos & Hsum). rewrite Hi in Hsum.
    assert (Hzero : forall a, gons s a = 0).
    { intros a. pose proof (gons_le_total s a Hpos). specialize (Hpos a). lia. }
    unfold shares_inv. cbn [oz set_oz set_totalSupply set_gonBalances
      set_gonsPerFragment _gonsPerFragment _initialized _grantRole
      set_initialized].
    split; [vm_compute; discriminate|]. split.
    + intros a.
      change (gons _ a)
        with (gons (set_gonBalances (<[admin := TOTAL_GONS]> (_gonBalances s)) s) a).
      rewrite gons_insert. destruct (decide (admin = a)).
      * vm_compute; discriminate.
      * specialize (Hpos a). exact Hpos.
    + change (total_gons _)
        with (total_gons
                (set_gonBalances (<[admin := TOTAL_GONS]> (_gonBalances s)) s)).
      rewrite total_gons_insert, Hsum, Hzero. lia.
  - (* rebase *)
    unfold forget in Hrun. ok_step Hrun as p Hp. destruct p as [v s0].
    injection Hrun as <-. simpl.
    apply TokenFacts.rebase_writes in Hp.
    destruct Hp as (supply & ratio & -> & _ & Hz & Hnz).
    destruct Hinv as (Hgpf & Hpos & Hsum).
    unfold shares_inv. split; [|split; assumption].
    cbn [_gonsPerFragment set_gonsPerFragment].
    destruct (Z.eq_dec supplyDelta 0) as [Hd|Hd].
    + destruct (Hz Hd) as [_ ->]. exact Hgpf.
    + destruct (Hnz Hd) as (Hne & _ & -> & Hge).
      assert (0 <= _totalSupply s).
      { unfold supply_inv in Hsupply.
        destruct (_initialized (oz s)); destruct Hsupply; lia. }
      pose proof TokenFacts.TOTAL_GONS_bounds.
      apply Z.div_pos; [lia|]. specialize (Hge ltac:(assumption) Hc). lia.
  - (* transfer *)
    unfold forget in Hrun. ok_step Hrun as p Hp. destruct p as [b s0].
    injection Hrun as <-. simpl.
    apply transfer_Ok in Hp
      as (_ & _ & _ & Hsrc & Ho & _ & Hg & _ & _ & Hmoved & Htotal).
    destruct Hinv as (Hgpf & Hrest).
    eapply (shares_inv_moved s _ (amount * _gonsPerFragment s) sender to);
      [| | | | | |split]; eauto; try congruence.
    destruct Hc. nia.
  - (* transferFrom *)
    unfold forget in Hrun. ok_step Hrun as p Hp. destruct p as [b s0].
    injection Hrun as <-. simpl.
    apply transferFrom_Ok in Hp
      as (_ & _ & Hsrc & Ho & _ & Hg & _ & _ & Hmoved & Htotal).
    destruct Hinv as (Hgpf & Hrest).
    eapply (shares_inv_moved s _ (amount * _gonsPerFragment s) from to);
      [| | | | | |split]; eauto; try congruence.
    destruct Hc. nia.
  - (* approve *)
    unfold forget, approve in Hrun. simpl in Hrun. injection Hrun as <-.
    eapply shares_inv_frame; [..|exact Hinv]; reflexivity.
  - unfold pause, _pause in Hrun. ok_step Hrun as u Hu. ok_step Hrun as o Ho.
    ok_step Ho as u2 Hu2. injection Ho as <-. injection Hrun as <-.
    eapply shares_inv_frame; [..|exact Hinv]; reflexivity.
  - unfold unpause, _unpause in Hrun. ok_step Hrun as u Hu.
    ok_step Hrun as o Ho. ok_step Ho as u2 Hu2. injection Ho as <-.
    injection Hrun as <-.
    eapply shares_inv_frame; [..|exact Hinv]; reflexivity.
  - unfold lift_oz, grantRole in Hrun. ok_step Hrun as o Ho.
    ok_step Ho as u Hu. injection Ho as <-. injection Hrun as <-.
    eapply shares_inv_frame; [..|exact Hinv]; reflexivity.
  - unfold lift_oz, revokeRole in Hrun. ok_step Hrun as o Ho.
    ok_step Ho as u Hu. injection Ho as <-. injection Hrun as <-.
    eapply shares_inv_frame; [..|exact Hinv]; reflexivity.
  - unfold lift_oz, renounceRole in Hrun. ok_step Hrun as o Ho.
    ok_step Ho as u Hu. injection Ho as <-. injection Hrun as <-.
    eapply shares_inv_frame; [..|exact Hinv]; reflexivity.
Qed.

Lemma reachable_shares_inv s : reachable s -> shares_inv s.
Proof.
  induction 1 as [|sender c s Hreach IH Hc].
  - unfold shares_inv, total_gons, gons; simpl. rewrite sum_of_empty.
    split; [lia|]. split; [|reflexivity]. intros a. rewrite lookup_empty.
    simpl. lia.
  - apply shares_inv_step; [assumption | | assumption].
    apply TokenFacts.reachable_supply_inv. assumption.
Qed.

Lemma reachable_ratio s :
  reachable s -> _initialized (oz s) = true ->
  0 < _totalSupply s <= MAX_SUPPLY /\
  _gonsPerFragment s = TOTAL_GONS / _totalSupply s /\
  0 < _gonsPerFragment s.
Proof.
  intros Hreach Hinit. apply TokenFacts.reachable_supply_inv in Hreach.
  unfold supply_inv in Hreach. rewrite Hinit in Hreach.
  destruct Hreach as [Hs Hg]. repeat split; try lia; try assumption.
  rewrite Hg. apply TokenFacts.ratio_positive. exact Hs.
Qed.

(** X1.  Shares are conserved: in every state reachable from deployment
    the shares held sum to TOTAL_GONS once the ledger is initialised (to 0
    before), and no holder has a negative share balance or more than the
    total. *)
Theorem shares_conserved s :
  reachable s ->
  total_gons s = (if _initialized (oz s) then TOTAL_GONS else 0) /\
  forall holder, 0 <= scaledBalanceOf holder s <= total_gons s.
Proof.
  intros Hreach. apply reachable_shares_inv in Hreach.
  destruct Hreach as (_ & Hpos & Hsum). split; [exact Hsum|].
  intros holder. unfold scaledBalanceOf. split; [apply Hpos|].
  apply gons_le_total. exact Hpos.
Qed.

Lemma shares_conserved_witness :
  total_gons (StabilizationController.token Scenario.live)
  = (if _initialized (oz (StabilizationController.token Scenario.live))
     then TOTAL_GONS else 0).
Proof.
  exact (proj1 (shares_conserved _ TokenFacts.live_token_reachable)).
Defined.

(** X2.  A transfer that returns moves exactly [amount] display units:
    with a positive ratio, the sender's balanceOf drops by [amount] and the
    recipient's rises by [amount], with no rounding loss; a transfer to
    oneself and every third account are left as they were, and so is the
    total supply. *)
Theorem transfer_moves_exact_amount sender to amount s b s' :
  transfer sender to amount s = Ok (b, s') ->
  0 < _gonsPerFragment s ->
  exists from_before to_before,
    balanceOf sender s = Ok from_before /\
    balanceOf to s = Ok to_before /\
    (to <> sender ->
       balanceOf sender s' = Ok (from_before - amount) /\
       balanceOf to s' = Ok (to_before + amount)) /\
    (to = sender -> balanceOf sender s' = Ok from_before) /\
    (forall a, a <> sender -> a <> to -> balanceOf a s' = balanceOf a s) /\
    totalSupply s' = totalSupply s.
Proof.
  intros Hcall Hgpf.
  apply transfer_Ok in Hcall
    as (_ & _ & _ & _ & _ & Hsupply & Hg & _ & _ & Hmoved & _).
  exists (gons s sender / _gonsPerFragment s), (gons s to / _gonsPerFragment s).
  unfold balanceOf, totalSupply. rewrite Hg.
  rewrite !checked_div_fits by lia.
  split; [reflexivity|]. split; [reflexivity|].
  split; [|split; [|split]].
  - intros Hne. rewrite !Hmoved.
    rewrite decide_True by reflexivity.
    rewrite (decide_False (P := sender = to)) by congruence.
    rewrite (decide_False (P := to = sender)) by congruence.
    rewrite decide_True by reflexivity.
    split; f_equal.
    + replace (gons s sender - amount * _gonsPerFragment s + 0)
        with (gons s sender + (- amount) * _gonsPerFragment s) by lia.
      rewrite Z.div_add by lia. lia.
    + replace (gons s to - 0 + amount * _gonsPerFragment s)
        with (gons s to + amount * _gonsPerFragment s) by lia.
      rewrite Z.div_add by lia. reflexivity.
  - intros ->. rewrite Hmoved. rewrite !decide_True by reflexivity.
    do 2 f_equal. lia.
  - intros a Hs Ht. rewrite Hmoved. rewrite !decide_False by assumption.
    do 2 f_equal. lia.
  - exact Hsupply.
Qed.

Lemma transfer_moves_exact_amount_witness :
  exists from_before to_before,
    balanceOf Scenario.deployer (StabilizationController.token Scenario.live)
      = Ok from_before /\
    balanceOf 2%N (StabilizationController.token Scenario.live)
      = Ok to_before /\
    balanceOf Scenario.deployer
      (step Scenario.deployer (Transfer 2%N (5 * 10 ^ 18))
         (StabilizationController.token Scenario.live))
      = Ok (from_before - 5 * 10 ^ 18) /\
    balanceOf 2%N
      (step Scenario.deployer (Transfer 2%N (5 * 10 ^ 18))
         (StabilizationController.token Scenario.live))
      = Ok (to_before + 5 * 10 ^ 18).
Proof.
  assert (Hcall :
    transfer Scenario.deployer 2%N (5 * 10 ^ 18)
      (StabilizationController.token Scenario.live)
    = Ok (true,
          step Scenario.deployer (Transfer 2%N (5 * 10 ^ 18))
            (StabilizationController.token Scenario.live)))
    by (vm_compute; reflexivity).
  assert (Hgpf :
    0 < _gonsPerFragment (StabilizationController.token Scenario.live))
    by (vm_compute; reflexivity).
  destruct (transfer_moves_exact_amount _ _ _ _ _ _ Hcall Hgpf)
    as (fb & tb & Hf & Ht & Hmove & _).
  exists fb, tb. split; [exact Hf|]. split; [exact Ht|].
  apply Hmove. discriminate.
Defined.

Lemma scaled_le (a g c : Z) : 0 < c -> (a * c <= g <-> a <= g / c).
Proof.
  intros Hc. split; intros H.
  - apply Z.div_le_lower_bound; lia.
  - pose proof (Z.mul_div_le g c Hc). nia.
Qed.

(** X3.  In a reachable, initialised ledger a transfer of a uint256 amount
    fails with the pause error when the ledger is paused; otherwise it
    returns exactly when the amount is at most the sender's balanceOf, and
    fails with an arithmetic Panic (no reason string) when it is more; a
    failed transfer leaves the ledger as it was. *)
Theorem transfer_needs_balance sender to amount s :
  reachable s -> _initialized (oz s) = true -> is_uint256 amount ->
  exists balance,
    balanceOf sender s = Ok balance /\
    (_paused (oz s) = true ->
       transfer sender to amount s = Err EnforcedPause) /\
    (_paused (oz s) = false -> amount <= balance ->
       exists s', transfer sender to amount s = Ok (true, s')) /\
    (_paused (oz s) = false -> balance < amount ->
       transfer sender to amount s = Err (Panic ARITHMETIC) /\
       step sender (Transfer to amount) s = s).
Proof.
  intros Hreach Hinit [Hlo Hhi].
  destruct (reachable_ratio s Hreach Hinit) as (_ & _ & Hgpf).
  pose proof (reachable_shares_inv s Hreach) as (_ & Hpos & Hsum).
  rewrite Hinit in Hsum.
  pose proof TokenFacts.TOTAL_GONS_bounds as [_ Hmax].
  exists (gons s sender / _gonsPerFragment s).
  split; [apply checked_div_fits; lia|].
  split; [|split].
  - intros Hp. unfold transfer, whenNotPaused. rewrite Hp. reflexivity.
  - intros Hp Hle. apply scaled_le in Hle; [|exact Hgpf].
    pose proof (gons_le_total s sender Hpos) as Hsender.
    unfold transfer, whenNotPaused. rewrite Hp. simpl.
    rewrite checked_mul_fits by lia. simpl.
    rewrite checked_sub_fits by lia. simpl.
    set (s1 := set_gonBalances
                 (<[sender := gons s sender - amount * _gonsPerFragment s]>
                    (_gonBalances s)) s).
    assert (Hto : gons s1 to + amount * _gonsPerFragment s <= UINT256_MAX).
    { assert (Hpos1 : forall a, 0 <= gons s1 a).
      { intros a. unfold s1. rewrite gons_insert.
        destruct (decide (sender = a)); [lia | apply Hpos]. }
      pose proof (gons_le_total s1 to Hpos1) as Hle1.
      unfold s1 in Hle1 at 2. rewrite total_gons_insert in Hle1. lia. }
    rewrite checked_add_fits by exact Hto. simpl. eauto.
  - intros Hp Hlt.
    assert (Hfail : transfer sender to amount s = Err (Panic ARITHMETIC)).
    { unfold transfer, whenNotPaused. rewrite Hp. simpl.
      unfold checked_mul.
      destruct (Z.leb_spec (amount * _gonsPerFragment s) UINT256_MAX);
        [|reflexivity].
      simpl. unfold checked_sub.
      destruct (Z.leb_spec (amount * _gonsPerFragment s) (gons s sender))
        as [Hle|_]; [|reflexivity].
      apply scaled_le in Hle; [lia | exact Hgpf]. }
    split; [exact Hfail|]. unfold step. simpl. rewrite Hfail. reflexivity.
Qed.

Lemma transfer_needs_balance_witness :
  exists balance,
    balanceOf 2%N (StabilizationController.token Scenario.live) = Ok balance /\
    transfer 2%N Scenario.deployer 1
      (StabilizationController.token Scenario.live)
    = Err (Panic ARITHMETIC).
Proof.
  assert (Hinit : _initialized
                    (oz (StabilizationController.token Scenario.live)) = true)
    by (vm_compute; reflexivity).
  assert (Hamount : is_uint256 1) by (split; vm_compute; discriminate).
  destruct (transfer_needs_balance 2%N Scenario.deployer 1 _
              TokenFacts.live_token_reachable Hinit Hamount)
    as (balance & Hbal & _ & _ & Hshort).
  exists balance. split; [exact Hbal|].
  apply Hshort; [vm_compute; reflexivity|].
  assert (Hzero : balanceOf 2%N (StabilizationController.token Scenario.live)
                  = Ok 0) by (vm_compute; reflexivity).
  rewrite Hzero in Hbal. injection Hbal as <-. reflexivity.
Defined.

(** X4.  An allowance bounds what a spender moves: approve() sets the
    owner's allowance for the spender to the amount given; a transferFrom
    that returns either found the infinite allowance (2^256 - 1), which it
    leaves as it is, or an allowance of at least [amount], which it lowers
    by [amount]; no other allowance changes; and with a finite allowance
    below a uint256 [amount] the call fails and moves nothing. *)
Theorem transferFrom_within_allowance sender from to amount s :
  (forall owner, exists s1,
     approve owner sender amount s = Ok (true, s1) /\
     allowance owner sender s1 = amount /\
     _gonBalances s1 = _gonBalances s) /\
  (forall b s',
     transferFrom sender from to amount s = Ok (b, s') ->
     (allowance from sender s = UINT256_MAX /\
      allowance from sender s' = UINT256_MAX \/
      amount <= allowance from sender s /\
      allowance from sender s' = allowance from sender s - amount) /\
     (forall owner spender,
        (owner, spender) <> (from, sender) ->
        allowance owner spender s' = allowance owner spender s)) /\
  (is_uint256 amount -> allowance from sender s < amount ->
   is_ok (transferFrom sender from to amount s) = false /\
   step sender (TransferFrom from to amount) s = s).
Proof.
  split; [|split].
  - intros owner. eexists. split; [reflexivity|].
    unfold allowance, allowed; simpl. rewrite lookup_insert_eq. auto.
  - intros b s' Hcall.
    apply transferFrom_Ok in Hcall
      as (_ & _ & _ & _ & _ & _ & _ & Hallow & _).
    unfold allowance, allowed.
    destruct Hallow as [[Hinf ->] | (Hfin & Hle & ->)].
    + split; [left; split; exact Hinf | reflexivity].
    + split.
      * right. split; [exact Hle|]. rewrite lookup_insert_eq. reflexivity.
      * intros owner spender Hne. rewrite lookup_insert_ne by congruence.
        reflexivity.
  - intros [Hlo Hhi] Hshort.
    assert (Hfail : is_ok (transferFrom sender from to amount s) = false).
    { destruct (transferFrom sender from to amount s) as [[b s']|e] eqn:Hcall;
        [|reflexivity].
      apply transferFrom_Ok in Hcall
        as (_ & _ & _ & _ & _ & _ & _ & Hallow & _).
      unfold allowance in Hshort.
      destruct Hallow as [[Hinf _] | (_ & Hle & _)]; lia. }
    split; [exact Hfail|]. unfold step. simpl.
    destruct (transferFrom sender from to amount s); [discriminate|reflexivity].
Qed.

Lemma transferFrom_within_allowance_witness :
  is_ok (transferFrom 2%N Scenario.deployer 3%N (5 * 10 ^ 18)
           (StabilizationController.token Scenario.live)) = false.
Proof.
  assert (Hamount : is_uint256 (5 * 10 ^ 18))
    by (split; vm_compute; discriminate).
  assert (Hshort :
    allowance Scenario.deployer 2%N
      (StabilizationController.token Scenario.live) < 5 * 10 ^ 18)
    by (vm_compute; reflexivity).
  exact (proj1 (proj2 (proj2 (transferFrom_within_allowance 2%N
                                Scenario.deployer 3%N (5 * 10 ^ 18)
                                (StabilizationController.token Scenario.live)))
                  Hamount Hshort)).
Defined.

(** The ratio loses nothing at the top: dividing TOTAL_GONS by the ratio
    gives the supply back, for every supply within the cap. *)
Lemma ratio_round_trip supply :
  0 < supply <= MAX_SUPPLY -> TOTAL_GONS / (TOTAL_GONS / supply) = supply.
Proof.
  intros Hs. pose proof TokenFacts.MAX_SUPPLY_value as HM.
  assert (HT : 2 ^ 256 - 2 ^ 128 <= TOTAL_GONS) by (vm_compute; discriminate).
  assert (Hq : 2 ^ 128 <= TOTAL_GONS / supply)
    by (apply Z.div_le_lower_bound; lia).
  pose proof (Z.div_mod TOTAL_GONS supply ltac:(lia)) as Hdm.
  pose proof (Z.mod_pos_bound TOTAL_GONS supply ltac:(lia)) as Hr.
  symmetry.
  apply (Z.div_unique_pos TOTAL_GONS (TOTAL_GONS / supply) supply
           (TOTAL_GONS mod supply)); lia.
Qed.

Lemma floor_sum_bounds (c : Z) (m : gmap address Z) :
  0 < c ->
  sum_of (fun g => g / c) m * c <= sum_of (fun g => g) m /\
  sum_of (fun g => g) m - Z.of_nat (size m) * (c - 1)
    <= sum_of (fun g => g / c) m * c.
Proof.
  intros Hc. induction m as [|k g m Hk IH] using map_ind.
  - rewrite !sum_of_empty, map_size_empty. lia.
  - rewrite !sum_of_insert_fresh by exact Hk.
    rewrite map_size_insert_None by exact Hk.
    pose proof (Z.div_mod g c ltac:(lia)).
    pose proof (Z.mod_pos_bound g c Hc).
    rewrite Nat2Z.inj_succ. nia.
Qed.

(** X5.  No over-issue, and the dust bound: in a reachable, initialised
    ledger the balances balanceOf reports sum to at most totalSupply and to
    at least totalSupply minus (number of accounts with an entry - 1); an
    account holding every share has exactly totalSupply. *)
Theorem balances_sum_to_supply s :
  reachable s -> _initialized (oz s) = true ->
  _totalSupply s - (holders s - 1) <= total_balances s <= _totalSupply s /\
  (forall holder, balanceOf holder s
                  = Ok (scaledBalanceOf holder s / _gonsPerFragment s)) /\
  (forall holder, scaledBalanceOf holder s = TOTAL_GONS ->
                  balanceOf holder s = Ok (_totalSupply s)).
Proof.
  intros Hreach Hinit.
  destruct (reachable_ratio s Hreach Hinit) as (Hs & Hg & Hgpf).
  pose proof (reachable_shares_inv s Hreach) as (_ & Hpos & Hsum).
  rewrite Hinit in Hsum.
  pose proof (floor_sum_bounds (_gonsPerFragment s) (_gonBalances s) Hgpf)
    as [Hup Hdown].
  fold (total_balances s) in Hup, Hdown. fold (total_gons s) in Hup, Hdown.
  fold (holders s) in Hdown. rewrite Hsum in Hup, Hdown.
  pose proof (ratio_round_trip (_totalSupply s) Hs) as Hback.
  rewrite <- Hg in Hback.
  assert (Hfloor : _gonsPerFragment s * _totalSupply s <= TOTAL_GONS).
  { rewrite Hg, Z.mul_comm.
    apply (Z.mul_div_le TOTAL_GONS (_totalSupply s)). lia. }
  assert (Hn : 1 <= holders s).
  { unfold holders. destruct (size (_gonBalances s)) eqn:Hsize; [|lia].
    apply map_size_empty_inv in Hsize. unfold total_gons in Hsum.
    rewrite Hsize, sum_of_empty in Hsum.
    pose proof TokenFacts.TOTAL_GONS_bounds. lia. }
  split; [split|split].
  - assert (Hlt : (_totalSupply s - holders s) * _gonsPerFragment s
                  < total_balances s * _gonsPerFragment s).
    { rewrite Z.mul_sub_distr_r. rewrite Z.mul_sub_distr_l in Hdown.
      rewrite (Z.mul_comm (_totalSupply s)). lia. }
    apply Z.mul_lt_mono_pos_r in Hlt; [lia | exact Hgpf].
  - rewrite <- Hback. apply Z.div_le_lower_bound; lia.
  - intros holder. unfold balanceOf, scaledBalanceOf.
    apply checked_div_fits. lia.
  - intros holder Hall. unfold balanceOf, scaledBalanceOf in *.
    rewrite checked_div_fits by lia. rewrite Hall, Hback. reflexivity.
Qed.

Lemma balances_sum_to_supply_witness :
  balanceOf Scenario.deployer (StabilizationController.token Scenario.live)
  = Ok (_totalSupply (StabilizationController.token Scenario.live)).
Proof.
  assert (Hinit : _initialized
                    (oz (StabilizationController.token Scenario.live)) = true)
    by (vm_compute; reflexivity).
  assert (Hall : scaledBalanceOf Scenario.deployer
                   (StabilizationController.token Scenario.live) = TOTAL_GONS)
    by (vm_compute; reflexivity).
  exact (proj2 (proj2 (balances_sum_to_supply _
                         TokenFacts.live_token_reachable Hinit))
           Scenario.deployer Hall).
Defined.

Lemma rebase_new_supply sender d s v s' :
  rebase sender d s = Ok (v, s') ->
  d <> 0 -> is_int256 d -> 0 <= _totalSupply s ->
  _totalSupply s' = _totalSupply s + d /\
  0 < _totalSupply s + d <= MAX_SUPPLY /\
  _gonsPerFragment s' = TOTAL_GONS / (_totalSupply s + d) /\
  v = _totalSupply s + d.
Proof.
  unfold rebase; intros H Hd [Hlo Hhi] Hs.
  ok_step H as u1 Hrole. ok_step H as u2 Hpause. ok_step H as n Hn.
  destruct (Z.eqb_spec d 0) as [|_]; [contradiction|].
  ok_step H as supply Hsupply. ok_step H as u3 Hcap. ok_step H as g Hg.
  cbn [_totalSupply set_totalSupply set_rebaseCount] in *.
  ok_arith. injection H as <- <-. simpl.
  assert (Hval : supply = _totalSupply s + d /\ 0 <= supply).
  { destruct (Z.ltb_spec d 0).
    - ok_step Hsupply as negated Hneg. ok_arith.
      unfold to_uint256 in Hsupply. destruct (Z.leb_spec 0 (- d)); [|lia].
      destruct (Z.gtb_spec (_totalSupply s) (- d)).
      + ok_arith. lia.
      + injection Hsupply as <-. contradiction.
    - ok_arith. unfold to_uint256. destruct (Z.leb_spec 0 d); lia. }
  destruct Hval as [-> Hge]. repeat split; lia.
Qed.

(** X6.  A rebase moves every balance the way the supply moves: in a
    reachable ledger, after a rebase that returns, no holder's balanceOf is
    lower than before when the delta is positive or zero, and none is
    higher when it is negative or zero. *)
Theorem rebase_direction sender d s v s' holder :
  reachable s -> is_int256 d -> rebase sender d s = Ok (v, s') ->
  exists before after,
    balanceOf holder s = Ok before /\
    balanceOf holder s' = Ok after /\
    (0 <= d -> before <= after) /\
    (d <= 0 -> after <= before).
Proof.
  intros Hreach Hd Hcall.
  assert (Hinit : _initialized (oz s) = true).
  { pose proof (TokenFacts.reachable_supply_inv s Hreach) as Hinv.
    unfold supply_inv in Hinv.
    destruct (_initialized (oz s)); [reflexivity|].
    destruct Hinv as [_ Hnone].
    unfold rebase, onlyRole in Hcall. rewrite Hnone in Hcall. discriminate. }
  destruct (reachable_ratio s Hreach Hinit) as (Hs & Hg & Hgpf).
  pose proof (reachable_shares_inv s Hreach) as (_ & Hpos & _).
  specialize (Hpos holder).
  pose proof (TokenFacts.rebase_writes _ _ _ _ _ Hcall)
    as (supply & ratio & Hs' & _ & Hz & _).
  assert (Hgons : gons s' holder = gons s holder) by (rewrite Hs'; reflexivity).
  exists (gons s holder / _gonsPerFragment s),
         (gons s holder / _gonsPerFragment s').
  unfold balanceOf. rewrite Hgons.
  destruct (Z.eq_dec d 0) as [Hd0|Hd0].
  - destruct (Hz Hd0) as [_ Hratio].
    assert (Hsame : _gonsPerFragment s' = _gonsPerFragment s)
      by (rewrite Hs'; exact Hratio).
    rewrite Hsame, !checked_div_fits by lia. repeat split; lia.
  - destruct (rebase_new_supply _ _ _ _ _ Hcall Hd0 Hd ltac:(lia))
      as (_ & Hnew & Hg' & _).
    pose proof (TokenFacts.ratio_positive _ Hnew) as Hgpf'.
    rewrite <- Hg' in Hgpf'.
    pose proof TokenFacts.TOTAL_GONS_bounds as [HT _].
    rewrite !checked_div_fits by lia.
    split; [reflexivity|]. split; [reflexivity|]. split; intros Hdir.
    + apply Z.div_le_compat_l; [exact Hpos|]. split; [lia|].
      rewrite Hg, Hg'. apply Z.div_le_compat_l; lia.
    + apply Z.div_le_compat_l; [exact Hpos|]. split; [lia|].
      rewrite Hg, Hg'. apply Z.div_le_compat_l; lia.
Qed.

Lemma rebase_direction_witness :
  exists before after,
    balanceOf Scenario.deployer (StabilizationController.token Scenario.live)
      = Ok before /\
    balanceOf Scenario.deployer
      (rebased (1002000 * 10 ^ 18)
         (StabilizationController.token Scenario.live)) = Ok after /\
    before <= after.
Proof.
  assert (Hcall :
    rebase Scenario.controllerAddress (2000 * 10 ^ 18)
      (StabilizationController.token Scenario.live)
    = Ok (1002000 * 10 ^ 18,
          rebased (1002000 * 10 ^ 18)
            (StabilizationController.token Scenario.live)))
    by (vm_compute; reflexivity).
  assert (Hd : is_int256 (2000 * 10 ^ 18))
    by (split; vm_compute; discriminate).
  destruct (rebase_direction _ _ _ _ _ Scenario.deployer
              TokenFacts.live_token_reachable Hd Hcall)
    as (before & after & Hb & Ha & Hup & _).
  exists before, after. split; [exact Hb|]. split; [exact Ha|].
  apply Hup. vm_compute; discriminate.
Defined.

(** X7.  Pausing freezes the ledger and is undone exactly: after a holder
    of PAUSER_ROLE pauses an unpaused ledger, every transfer and
    transferFrom fails with the pause error and no rebase returns, while
    approve still does; and unpausing gives back the state before the
    pause. *)
Theorem pause_round_trip sender s :
  hasRole PAUSER_ROLE sender (oz s) = true -> _paused (oz s) = false ->
  (forall a to amount,
     transfer a to amount (step sender Pause s) = Err EnforcedPause) /\
  (forall a from to amount,
     transferFrom a from to amount (step sender Pause s) = Err EnforcedPause) /\
  (forall a d, is_ok (rebase a d (step sender Pause s)) = false) /\
  (forall a spender amount,
     is_ok (approve a spender amount (step sender Pause s)) = true) /\
  step sender Unpause (step sender Pause s) = s.
Proof.
  intros Hrole Hp.
  assert (Hpaused : step sender Pause s = set_oz (set_paused true (oz s)) s).
  { unfold step; simpl. unfold pause, onlyRole, _pause, whenNotPaused.
    rewrite Hrole, Hp. reflexivity. }
  rewrite Hpaused. repeat split.
  - intros a d. unfold rebase, onlyRole, whenNotPaused; simpl.
    destruct (hasRole REBASER_ROLE a _); reflexivity.
  - unfold step; simpl. unfold unpause, onlyRole, _unpause, whenPaused.
    simpl.
    assert (Hkeep : hasRole PAUSER_ROLE sender (set_paused true (oz s)) = true)
      by exact Hrole.
    rewrite Hkeep. simpl.
    destruct s as [[i r p] ts g b al rc]. simpl in *. subst p. reflexivity.
Qed.

Lemma pause_round_trip_witness :
  step Scenario.deployer Unpause
    (step Scenario.deployer Pause
       (StabilizationController.token Scenario.live))
  = StabilizationController.token Scenario.live.
Proof.
  assert (Hrole :
    hasRole PAUSER_ROLE Scenario.deployer
      (oz (StabilizationController.token Scenario.live)) = true)
    by (vm_compute; reflexivity).
  assert (Hp : _paused (oz (StabilizationController.token Scenario.live))
               = false)
    by (vm_compute; reflexivity).
  exact (proj2 (proj2 (proj2 (proj2
           (pause_round_trip Scenario.deployer _ Hrole Hp))))).
Defined.

End LedgerFacts.

(** ** The registry and the aggregate: further properties *)

Module RegistryFacts.

Import OZ OracleAggregator Registry.

Lemma feeds_set_step sender c s : feeds_set s -> feeds_set (step sender c s).
Proof.
  intros Hinv. unfold step.
  destruct (run sender c s) as [[[] s']|e] eqn:Hrun; simpl; [|assumption].
  destruct c; simpl in Hrun.
  - unfold initialize in Hrun. ok_step Hrun as o Ho. injection Hrun as <-.
    exact Hinv.
  - unfold addOracle in Hrun.
    ok_step Hrun as u1 Hrole. ok_step Hrun as u2 Haddr.
    ok_step Hrun as u3 Hw. ok_step Hrun as u4 Hnew. ok_arith.
    injection Hrun as <-. intros k.
    change (config_of _ k)
      with (config_of (set_oracles (<[key := {| oracle := oracle_;
              weight := weight_; heartbeat := heartbeat_; isActive := true;
              decimals := decimals_; description := description_ |}]>
              (oracles s)) s) k).
    rewrite AggregatorFacts.config_of_insert.
    destruct (decide (key = k)); simpl; [|apply Hinv].
    intros _. apply negb_true_iff, N.eqb_neq in Haddr. exact Haddr.
  - unfold updateOracle in Hrun.
    ok_step Hrun as u1 Hrole. ok_step Hrun as u2 Hactive.
    ok_step Hrun as u3 Hw. ok_arith. injection Hrun as <-. intros k.
    rewrite AggregatorFacts.config_of_insert.
    destruct (decide (key = k)) as [->|]; simpl; [|apply Hinv].
    apply Hinv.
  - unfold removeOracle in Hrun.
    ok_step Hrun as u1 Hrole. ok_step Hrun as u2 Hactive. ok_arith.
    injection Hrun as <-. intros k.
    change (config_of _ k)
      with (config_of (set_oracles (<[key := {|
              oracle := oracle (config_of s key);
              weight := weight (config_of s key);
              heartbeat := heartbeat (config_of s key); isActive := false;
              decimals := decimals (config_of s key);
              description := description (config_of s key) |}]>
              (oracles s)) s) k).
    rewrite AggregatorFacts.config_of_insert.
    destruct (decide (key = k)); simpl; [discriminate | apply Hinv].
  - unfold lift_oz in Hrun. ok_step Hrun as o Ho. injection Hrun as <-.
    exact Hinv.
  - unfold lift_oz in Hrun. ok_step Hrun as o Ho. injection Hrun as <-.
    exact Hinv.
  - unfold lift_oz in Hrun. ok_step Hrun as o Ho. injection Hrun as <-.
    exact Hinv.
Qed.

(** X8.  The registry stays well formed: in every registry reachable from
    deployment the key array has no duplicate, holds exactly the keys whose
    source is active, every active source has a positive weight and a
    non-zero feed address, and getOracleCount() is the number of active
    sources. *)
Theorem registry_well_formed s :
  reachable s ->
  NoDup (oracleKeys s) /\
  (forall key, key ∈ oracleKeys s <-> isActive (config_of s key) = true) /\
  (forall key, isActive (config_of s key) = true ->
               weight (config_of s key) > 0 /\
               oracle (config_of s key) <> 0%N) /\
  getOracleCount s = Z.of_nat (activeSources s).
Proof.
  intros Hreach.
  assert (Hfeeds : feeds_set s).
  { induction Hreach as [|sender c s _ IH].
    - intros key. unfold config_of; simpl. rewrite lookup_empty. discriminate.
    - apply feeds_set_step. exact IH. }
  pose proof (AggregatorFacts.reachable_registry_inv s Hreach) as Hinv.
  pose proof (AggregatorFacts.active_sources_counted s Hinv) as Hcount.
  destruct Hinv as (Hnd & Hkeys & Hweights).
  repeat split; auto.
  - apply Hkeys.
  - apply Hkeys.
  - unfold getOracleCount. rewrite Hcount. reflexivity.
Qed.

Lemma registry_well_formed_witness :
  NoDup (oracleKeys (StabilizationController.aggregator Scenario.two_sources)).
Proof.
  exact (proj1 (registry_well_formed _ AggregatorFacts.two_sources_reachable)).
Defined.

Lemma remove_last_added key (keys : list string) :
  key ∉ keys ->
  remove_key key (keys ++ [key]) 0 (length (keys ++ [key])) = keys.
Proof.
  intros Hfresh.
  destruct (AggregatorFacts.remove_key_found key (keys ++ [key])
              (length (keys ++ [key])) 0) as (j & Hj & ->).
  - lia.
  - rewrite drop_0, elem_of_app, list_elem_of_singleton. auto.
  - rewrite last_last. rewrite list_insert_id by exact Hj.
    apply removelast_last.
Qed.

Lemma visit_ext now feeds s s' t key :
  config_of s' key = config_of s key ->
  visit now feeds s' t key = visit now feeds s t key.
Proof. unfold visit. intros ->. reflexivity. Qed.

Lemma visit_all_ext now feeds s s' keys :
  (forall k, k ∈ keys -> config_of s' k = config_of s k) ->
  forall t, visit_all now feeds s' t keys = visit_all now feeds s t keys.
Proof.
  induction keys as [|key keys IH]; intros Hsame t; [reflexivity|].
  simpl. rewrite (visit_ext now feeds s s' t key)
    by (apply Hsame, list_elem_of_here).
  destruct (visit now feeds s t key) as [t'|e]; simpl; [|reflexivity].
  apply IH. intros k Hk. apply Hsame, list_elem_of_further, Hk.
Qed.

Lemma getAggregatedPrice_ext now feeds s s' :
  oracleKeys s' = oracleKeys s ->
  (forall k, k ∈ oracleKeys s -> config_of s' k = config_of s k) ->
  getAggregatedPrice now feeds s' = getAggregatedPrice now feeds s.
Proof.
  intros Hkeys Hsame. unfold getAggregatedPrice. rewrite Hkeys.
  rewrite (visit_all_ext now feeds s s' (oracleKeys s) Hsame). reflexivity.
Qed.

(** X9.  Registering a source and removing it again is a round trip for the
    aggregate: in a reachable registry, after an addOracle that returns,
    removeOracle of the same key by the same caller returns, the key array
    is the one before the addition, every other source is as it was, the
    removed key reads as inactive, and getAggregatedPrice gives exactly
    what it gave before (at any time, for any feeds). *)
Theorem add_then_remove sender key o w h d descr s s1 :
  reachable s ->
  addOracle sender key o w h d descr s = Ok (tt, s1) ->
  exists s2,
    removeOracle sender key s1 = Ok (tt, s2) /\
    oracleKeys s2 = oracleKeys s /\
    (forall k, k <> key -> config_of s2 k = config_of s k) /\
    isActive (config_of s2 key) = false /\
    (forall now feeds,
       getAggregatedPrice now feeds s2 = getAggregatedPrice now feeds s).
Proof.
  intros Hreach Hadd.
  apply AggregatorFacts.reachable_registry_inv in Hreach
    as (_ & Hkeys & _).
  unfold addOracle in Hadd.
  ok_step Hadd as u1 Hrole. ok_step Hadd as u2 Haddr.
  ok_step Hadd as u3 Hw. ok_step Hadd as u4 Hnew. ok_arith.
  injection Hadd as <-.
  apply negb_true_iff in Hnew.
  assert (Hfresh : key ∉ oracleKeys s)
    by (rewrite Hkeys, Hnew; discriminate).
  set (c := {| oracle := o; weight := w; heartbeat := h; isActive := true;
               decimals := d; description := descr |}).
  set (s1 := set_oracleKeys (oracleKeys s ++ [key])
               (set_oracles (<[key := c]> (oracles s)) s)).
  assert (Hc1 : config_of s1 key = c).
  { unfold s1, config_of; simpl. rewrite lookup_insert_eq. reflexivity. }
  eexists. split; [|split; [|split; [|split]]].
  - unfold removeOracle.
    change (oz s1) with (oz s). rewrite Hrole. simpl.
    rewrite Hc1. simpl. reflexivity.
  - cbn [oracleKeys set_oracleKeys set_oracles s1].
    apply remove_last_added. exact Hfresh.
  - intros k Hne. unfold config_of. cbn [oracles set_oracles set_oracleKeys s1].
    rewrite !lookup_insert_ne by congruence. reflexivity.
  - unfold config_of. cbn [oracles set_oracles set_oracleKeys s1].
    rewrite lookup_insert_eq. reflexivity.
  - intros now feeds. apply getAggregatedPrice_ext.
    + cbn [oracleKeys set_oracleKeys set_oracles s1].
      apply remove_last_added. exact Hfresh.
    + intros k Hk. unfold config_of.
      cbn [oracles set_oracles set_oracleKeys s1].
      rewrite !lookup_insert_ne by (intros ->; contradiction). reflexivity.
Qed.

Lemma add_then_remove_witness :
  exists s2,
    removeOracle Scenario.deployer "backup-a"
      (StabilizationController.aggregator Scenario.two_sources) = Ok (tt, s2) /\
    oracleKeys s2
    = oracleKeys (StabilizationController.aggregator Scenario.live).
Proof.
  assert (Hreach : reachable (StabilizationController.aggregator Scenario.live)).
  { assert (Heq :
      StabilizationController.aggregator Scenario.live
      = step Scenario.deployer
          (AddOracle "chainlink-eth-usd" Scenario.chainlinkOracle
             100 3600 8 "Chainlink ETH/USD")
          (step Scenario.deployer (Initialize Scenario.deployer) deployed))
      by (vm_compute; reflexivity).
    rewrite Heq. repeat apply reachable_step. apply reachable_deployed. }
  assert (Hadd :
    addOracle Scenario.deployer "backup-a" 20%N 100 3600 8 "Backup A"
      (StabilizationController.aggregator Scenario.live)
    = Ok (tt, StabilizationController.aggregator Scenario.two_sources))
    by (vm_compute; reflexivity).
  destruct (add_then_remove _ _ _ _ _ _ _ _ _ Hreach Hadd)
    as (s2 & Hremove & Hkeys & _).
  exists s2. split; assumption.
Defined.

Lemma remove_key_length key (keys : list string) :
  key ∈ keys ->
  S (length (remove_key key keys 0 (length keys))) = length keys.
Proof.
  intros Hin.
  destruct (AggregatorFacts.remove_key_found key keys (length keys) 0)
    as (j & Hj & ->); [lia | rewrite drop_0; exact Hin |].
  rewrite (Permutation_length (AggregatorFacts.swap_pop_delete keys j key key Hj)).
  rewrite (Permutation_length (delete_Permutation keys j key Hj)).
  reflexivity.
Qed.

(** X10.  removeOracle is a soft delete of exactly one source: in a
    reachable registry a removal that returns takes the key out of the key
    array, lowers getOracleCount() by one, keeps every other key and its
    configuration, keeps the removed source's address, weight, heartbeat and
    decimals while marking it inactive, and the key can be registered again;
    removing a key that is not active fails with "Oracle does not exist". *)
Theorem removeOracle_effect sender key s :
  reachable s ->
  (forall s',
     removeOracle sender key s = Ok (tt, s') ->
     (key ∉ oracleKeys s') /\
     getOracleCount s' = getOracleCount s - 1 /\
     (forall k, k <> key ->
        (k ∈ oracleKeys s' <-> k ∈ oracleKeys s) /\
        config_of s' k = config_of s k) /\
     config_of s' key
     = {| oracle := oracle (config_of s key);
          weight := weight (config_of s key);
          heartbeat := heartbeat (config_of s key);
          isActive := false;
          decimals := decimals (config_of s key);
          description := description (config_of s key) |} /\
     (forall o w h d descr,
        o <> 0%N -> w > 0 ->
        is_ok (addOracle sender key o w h d descr s') = true)) /\
  (hasRole ORACLE_MANAGER_ROLE sender (oz s) = true ->
   isActive (config_of s key) = false ->
   removeOracle sender key s = Err (Revert "Oracle does not exist")).
Proof.
  intros Hreach.
  apply AggregatorFacts.reachable_registry_inv in Hreach
    as (Hnd & Hkeys & _).
  split.
  - intros s' Hcall. unfold removeOracle in Hcall.
    ok_step Hcall as u1 Hrole. ok_step Hcall as u2 Hactive. ok_arith.
    injection Hcall as <-.
    assert (Hin : key ∈ oracleKeys s) by (apply Hkeys; exact Hactive).
    destruct (AggregatorFacts.removeOracle_keys key (oracleKeys s) Hnd Hin)
      as [_ Hmem].
    pose proof (remove_key_length key (oracleKeys s) Hin) as Hlen.
    cbn [oracleKeys set_oracleKeys set_oracles].
    split; [|split; [|split; [|split]]].
    + rewrite Hmem. tauto.
    + unfold getOracleCount. cbn [oracleKeys set_oracleKeys set_oracles]. lia.
    + intros k Hne. split; [rewrite Hmem; tauto|].
      unfold config_of. cbn [oracles set_oracles set_oracleKeys].
      rewrite lookup_insert_ne by congruence. reflexivity.
    + unfold config_of at 1. cbn [oracles set_oracles set_oracleKeys].
      rewrite lookup_insert_eq. reflexivity.
    + intros o w h d descr Ho Hw. unfold addOracle.
      cbn [oz set_oracleKeys set_oracles]. rewrite Hrole. simpl.
      destruct (N.eqb_spec o 0); [contradiction|]. simpl.
      destruct (Z.gtb_spec w 0); [|lia]. simpl.
      unfold config_of at 1. cbn [oracles set_oracles set_oracleKeys].
      rewrite lookup_insert_eq. reflexivity.
  - intros Hrole Hinactive. unfold removeOracle, onlyRole.
    rewrite Hrole. simpl. rewrite Hinactive. reflexivity.
Qed.

Lemma removeOracle_effect_witness :
  removeOracle Scenario.deployer "never-registered"
    (StabilizationController.aggregator Scenario.two_sources)
  = Err (Revert "Oracle does not exist").
Proof.
  assert (Hrole :
    hasRole ORACLE_MANAGER_ROLE Scenario.deployer
      (oz (StabilizationController.aggregator Scenario.two_sources)) = true)
    by (vm_compute; reflexivity).
  assert (Hinactive :
    isActive (config_of (StabilizationController.aggregator
                           Scenario.two_sources) "never-registered") = false)
    by (vm_compute; reflexivity).
  exact (proj2 (removeOracle_effect Scenario.deployer "never-registered" _
                  AggregatorFacts.two_sources_reachable) Hrole Hinactive).
Defined.

Lemma pow10_78 : UINT256_MAX < 10 ^ 78.
Proof. vm_compute. reflexivity. Qed.

Lemma pow10_77 : 10 ^ 77 <= UINT256_MAX.
Proof. vm_compute. discriminate. Qed.

(** X11.  Normalisation to 18 decimals: a feed with 18 decimals is taken as
    is; with fewer the value is multiplied by 10^(18 - decimals), which
    loses nothing (dividing back gives the value), or the call fails with an
    arithmetic Panic when the product does not fit 256 bits; with 19 to 95
    decimals the value is divided by 10^(decimals - 18), rounding down; and
    with 96 decimals or more the power itself overflows, so the call always
    fails. *)
Theorem normalizePrice_scaling price d :
  0 <= price ->
  (d = 18 -> _normalizePrice price d = Ok price) /\
  (0 <= d < 18 -> price * 10 ^ (18 - d) <= UINT256_MAX ->
     _normalizePrice price d = Ok (price * 10 ^ (18 - d)) /\
     price * 10 ^ (18 - d) / 10 ^ (18 - d) = price) /\
  (0 <= d < 18 -> UINT256_MAX < price * 10 ^ (18 - d) ->
     _normalizePrice price d = Err (Panic ARITHMETIC)) /\
  (18 < d < 96 ->
     _normalizePrice price d = Ok (price / 10 ^ (d - 18)) /\
     0 <= price / 10 ^ (d - 18) <= price) /\
  (96 <= d -> _normalizePrice price d = Err (Panic ARITHMETIC)).
Proof.
  intros Hprice. unfold _normalizePrice, checked_pow.
  split; [|split; [|split; [|split]]].
  - intros ->. reflexivity.
  - intros Hd Hfit.
    destruct (Z.eqb_spec d 18); [lia|]. destruct (Z.ltb_spec d 18); [|lia].
    assert (Hpow : 0 < 10 ^ (18 - d)) by (apply Z.pow_pos_nonneg; lia).
    assert (Hle : 10 ^ (18 - d) <= 10 ^ 18)
      by (apply Z.pow_le_mono_r; lia).
    assert (H18 : 10 ^ 18 <= UINT256_MAX) by (vm_compute; discriminate).
    destruct (Z.leb_spec (10 ^ (18 - d)) UINT256_MAX); [|lia]. simpl.
    rewrite checked_mul_fits by exact Hfit.
    split; [reflexivity|]. apply Z.div_mul. lia.
  - intros Hd Hover.
    destruct (Z.eqb_spec d 18); [lia|]. destruct (Z.ltb_spec d 18); [|lia].
    assert (Hle : 10 ^ (18 - d) <= 10 ^ 18)
      by (apply Z.pow_le_mono_r; lia).
    assert (H18 : 10 ^ 18 <= UINT256_MAX) by (vm_compute; discriminate).
    destruct (Z.leb_spec (10 ^ (18 - d)) UINT256_MAX); [|lia]. simpl.
    unfold checked_mul.
    destruct (Z.leb_spec (price * 10 ^ (18 - d)) UINT256_MAX);
      [lia | reflexivity].
  - intros Hd.
    destruct (Z.eqb_spec d 18); [lia|]. destruct (Z.ltb_spec d 18); [lia|].
    assert (Hpow : 0 < 10 ^ (d - 18)) by (apply Z.pow_pos_nonneg; lia).
    assert (Hle : 10 ^ (d - 18) <= 10 ^ 77)
      by (apply Z.pow_le_mono_r; lia).
    pose proof pow10_77.
    destruct (Z.leb_spec (10 ^ (d - 18)) UINT256_MAX); [|lia]. simpl.
    rewrite checked_div_fits by lia.
    split; [reflexivity|]. split; [apply Z.div_pos; lia|].
    apply Z.div_le_upper_bound; [lia|]. nia.
  - intros Hd.
    destruct (Z.eqb_spec d 18); [lia|]. destruct (Z.ltb_spec d 18); [lia|].
    assert (Hle : 10 ^ 78 <= 10 ^ (d - 18))
      by (apply Z.pow_le_mono_r; lia).
    pose proof pow10_78.
    destruct (Z.leb_spec (10 ^ (d - 18)) UINT256_MAX); [lia | reflexivity].
Qed.

Lemma normalizePrice_scaling_witness :
  _normalizePrice 102000000 8 = Ok (102000000 * 10 ^ (18 - 8)) /\
  _normalizePrice 102000000 96 = Err (Panic ARITHMETIC).
Proof.
  assert (Hprice : 0 <= 102000000) by discriminate.
  destruct (normalizePrice_scaling 102000000 8 Hprice) as (_ & Hup & _).
  destruct (normalizePrice_scaling 102000000 96 Hprice)
    as (_ & _ & _ & _ & Hbig).
  split.
  - apply Hup; [split; [discriminate | reflexivity] | vm_compute; discriminate].
  - apply Hbig. discriminate.
Defined.

Lemma contribution_source now feeds s c q :
  (c, q) ∈ contributions now feeds s ->
  exists key,
    key ∈ oracleKeys s /\ c = config_of s key /\ isActive c = true /\
    feeds !! oracle c = Some q /\ accepts now c q = true.
Proof.
  unfold contributions. rewrite list_elem_of_omap.
  intros (key & Hkey & Hc). exists key. split; [exact Hkey|].
  unfold contribution in Hc.
  destruct (isActive (config_of s key)) eqn:Hactive; [|discriminate].
  destruct (feeds !! oracle (config_of s key)) as [q'|] eqn:Hq; [|discriminate].
  destruct (accepts now (config_of s key) q') eqn:Hacc; [|discriminate].
  injection Hc as <- <-. auto.
Qed.

Lemma weighted_bounds (l : list (OracleConfig * RoundData)) lo hi :
  (forall c q, (c, q) ∈ l ->
     weight c > 0 /\ lo <= normalize (answer q) (decimals c) <= hi) ->
  lo * totalWeight_of l <= weightedSum_of l <= hi * totalWeight_of l /\
  (l <> [] -> 0 < totalWeight_of l) /\ 0 <= totalWeight_of l.
Proof.
  unfold totalWeight_of, weightedSum_of.
  induction l as [|[c q] l IH]; intros Hall; simpl.
  - split; [lia|]. split; [contradiction | lia].
  - destruct (Hall c q (list_elem_of_here _ _)) as [Hw Hp].
    destruct IH as (Hsum & _ & Hnonneg).
    { intros c' q' Hin. apply Hall, list_elem_of_further, Hin. }
    split; [nia|]. split; [intros _|]; lia.
Qed.

(** X12.  The aggregate is a weighted mean: in a reachable registry, when
    getAggregatedPrice returns, the price lies between any lower and upper
    bound on the normalised values of the contributing quotes, so a single
    source can never pull it outside the range of the quotes. *)
Theorem aggregate_within_quotes now feeds s price_ ts conf lo hi :
  reachable s ->
  getAggregatedPrice now feeds s = Ok (price_, ts, conf) ->
  (forall c q, (c, q) ∈ contributions now feeds s ->
               lo <= normalize (answer q) (decimals c) <= hi) ->
  lo <= price_ <= hi.
Proof.
  intros Hreach Hcall Hrange.
  apply AggregatorFacts.reachable_registry_inv in Hreach
    as (_ & _ & Hweights).
  apply AggregatorFacts.getAggregatedPrice_Ok in Hcall
    as (-> & _ & _ & Hne & _).
  destruct (weighted_bounds (contributions now feeds s) lo hi)
    as (Hsum & Hpos & _).
  { intros c q Hin. split; [|apply Hrange; exact Hin].
    apply contribution_source in Hin as (key & _ & -> & Hactive & _).
    apply Hweights. exact Hactive. }
  specialize (Hpos Hne). split.
  - apply Z.div_le_lower_bound; lia.
  - apply Z.div_le_upper_bound; lia.
Qed.

Lemma aggregate_within_quotes_witness :
  1 * 10 ^ 18 <= 1 * 10 ^ 18 <= 105 * 10 ^ 16.
Proof.
  assert (Hcall :
    getAggregatedPrice
      (StabilizationController.now Scenario.two_sources)
      (StabilizationController.feeds Scenario.two_sources)
      (StabilizationController.aggregator Scenario.two_sources)
    = Ok (1 * 10 ^ 18, Scenario.launch, 50))
    by (vm_compute; reflexivity).
  refine (aggregate_within_quotes _ _ _ _ _ _ (1 * 10 ^ 18) (105 * 10 ^ 16)
            AggregatorFacts.two_sources_reachable Hcall _).
  intros c q Hin.
  assert (Hl :
    contributions
      (StabilizationController.now Scenario.two_sources)
      (StabilizationController.feeds Scenario.two_sources)
      (StabilizationController.aggregator Scenario.two_sources)
    = [(config_of (StabilizationController.aggregator Scenario.two_sources)
          "chainlink-eth-usd",
        Scenario.quote 100000000 Scenario.launch)])
    by (vm_compute; reflexivity).
  rewrite Hl in Hin. apply list_elem_of_singleton in Hin.
  injection Hin as -> ->. vm_compute. split; discriminate.
Defined.

Lemma contributions_at_most_keys now feeds s :
  (length (contributions now feeds s) <= length (oracleKeys s))%nat.
Proof.
  unfold contributions.
  induction (oracleKeys s) as [|key keys IH]; [reflexivity|].
  change (omap (contribution now feeds s) (key :: keys))
    with (match contribution now feeds s key with
          | Some cq => cq :: omap (contribution now feeds s) keys
          | None => omap (contribution now feeds s) keys
          end).
  destruct (contribution now feeds s key); simpl; lia.
Qed.

(** X13.  What a returned reading can be: the confidence is between 0 and
    100, and at least 1 when at most 100 sources are registered; the
    timestamp is positive and not later than the current time; and at least
    one source contributed. *)
Theorem reading_ranges now feeds s price_ ts conf :
  is_uint256 now ->
  getAggregatedPrice now feeds s = Ok (price_, ts, conf) ->
  0 <= conf <= 100 /\
  (getOracleCount s <= 100 -> 1 <= conf) /\
  0 < ts <= now /\
  contributions now feeds s <> [].
Proof.
  intros [_ Hnow] Hcall.
  apply AggregatorFacts.getAggregatedPrice_Ok in Hcall
    as (_ & -> & -> & Hne & Hpast).
  pose proof (contributions_at_most_keys now feeds s) as Hle.
  assert (Hvalid : (1 <= length (contributions now feeds s))%nat).
  { destruct (contributions now feeds s); [contradiction | simpl; lia]. }
  assert (Hkeys : 0 < Z.of_nat (length (oracleKeys s))) by lia.
  split; [split|split; [|split]].
  - apply Z.div_pos; lia.
  - apply Z.div_le_upper_bound; lia.
  - unfold getOracleCount. intros Hfew.
    apply Z.div_le_lower_bound; lia.
  - destruct (AggregatorFacts.oldest_of_attained (contributions now feeds s) Hne)
      as (c & q & Hin & ->).
    { intros c q Hin. specialize (Hpast c q Hin). lia. }
    split; [|apply (Hpast c q Hin)].
    apply contribution_source in Hin as (_ & _ & _ & _ & _ & Hacc).
    unfold accepts in Hacc.
    apply andb_true_iff in Hacc as [Hacc _].
    apply andb_true_iff in Hacc as [_ Hset].
    destruct (Z.gtb_spec (updatedAt q) 0); [lia | discriminate].
  - exact Hne.
Qed.

Lemma reading_ranges_witness :
  0 <= 50 <= 100 /\ 0 < Scenario.launch
                         <= StabilizationController.now Scenario.two_sources.
Proof.
  assert (Hnow : is_uint256 (StabilizationController.now Scenario.two_sources))
    by (split; vm_compute; discriminate).
  assert (Hcall :
    getAggregatedPrice
      (StabilizationController.now Scenario.two_sources)
      (StabilizationController.feeds Scenario.two_sources)
      (StabilizationController.aggregator Scenario.two_sources)
    = Ok (1 * 10 ^ 18, Scenario.launch, 50))
    by (vm_compute; reflexivity).
  destruct (reading_ranges _ _ _ _ _ _ Hnow Hcall) as (Hconf & _ & Hts & _).
  split; assumption.
Defined.

(** The arithmetic never fails with a reason string. *)
Lemma checked_add_Err a b e : checked_add a b = Err e -> exists n, e = Panic n.
Proof. unfold checked_add. destruct (_ <=? _); intros Hx; inversion Hx; eauto. Qed.

Lemma checked_sub_Err a b e : checked_sub a b = Err e -> exists n, e = Panic n.
Proof. unfold checked_sub. destruct (_ <=? _); intros Hx; inversion Hx; eauto. Qed.

Lemma checked_mul_Err a b e : checked_mul a b = Err e -> exists n, e = Panic n.
Proof. unfold checked_mul. destruct (_ <=? _); intros Hx; inversion Hx; eauto. Qed.

Lemma checked_div_Err a b e : checked_div a b = Err e -> exists n, e = Panic n.
Proof. unfold checked_div. destruct (_ =? _); intros Hx; inversion Hx; eauto. Qed.

Lemma checked_pow_Err a b e : checked_pow a b = Err e -> exists n, e = Panic n.
Proof. unfold checked_pow. destruct (_ <=? _); intros Hx; inversion Hx; eauto. Qed.

Lemma bind_Err_cases {A B} (r : result A) (k : A -> result B) e :
  bind r k = Err e -> r = Err e \/ exists a, r = Ok a /\ k a = Err e.
Proof. destruct r as [a|e']; simpl; intros Hx; [eauto | left; congruence]. Qed.

Ltac panic_cases H :=
  repeat (apply bind_Err_cases in H;
          destruct H as [H | (? & ? & H)];
          [first [ apply checked_add_Err in H | apply checked_sub_Err in H
                 | apply checked_mul_Err in H | apply checked_div_Err in H
                 | apply checked_pow_Err in H ]; exact H |]).









End RegistryFacts.

(** ** The controller: deltas, cooldown, latch and history *)

Module PolicyFacts.

Import OZ StabilizationController.

Lemma TARGET_PRICE_value : TARGET_PRICE = 10 ^ 18.
Proof. reflexivity. Qed.

Lemma deviation_value price_ :
  Z.abs (price_ - TARGET_PRICE) * 10 ^ 18 <= UINT256_MAX ->
  _calculateDeviation price_ = Ok (Z.abs (price_ - TARGET_PRICE)).
Proof.
  intros Hfit. unfold _calculateDeviation. rewrite TARGET_PRICE_value in *.
  destruct (Z.geb_spec price_ (10 ^ 18)).
  - rewrite checked_sub_fits by lia. simpl.
    rewrite Z.abs_eq in * by lia.
    rewrite checked_mul_fits by lia. simpl.
    rewrite checked_div_fits by lia. rewrite Z.div_mul by lia. reflexivity.
  - rewrite checked_sub_fits by lia. simpl.
    rewrite Z.abs_neq in * by lia.
    replace (- (price_ - 10 ^ 18)) with (10 ^ 18 - price_) in * by lia.
    rewrite checked_mul_fits by lia. simpl.
    rewrite checked_div_fits by lia. rewrite Z.div_mul by lia. reflexivity.
Qed.

Lemma deviation_Ok price_ dev :
  _calculateDeviation price_ = Ok dev ->
  dev = Z.abs (price_ - TARGET_PRICE) /\ dev * 10 ^ 18 <= UINT256_MAX.
Proof.
  unfold _calculateDeviation. rewrite TARGET_PRICE_value.
  destruct (Z.geb_spec price_ (10 ^ 18)) as [Hge|Hlt]; intros Hcall;
    ok_step Hcall as diff Hdiff; ok_step Hcall as scaled Hscaled; ok_arith;
    rewrite Z.div_mul by lia; split; lia.
Qed.

(** X15.  The deviation is the distance to the target: for a price whose
    distance to 1e18, times 1e18, fits 256 bits, _calculateDeviation returns
    exactly |price - 1e18| (so it is the same above and below the target);
    past that it fails with an arithmetic Panic. *)
Theorem deviation_is_distance price_ :
  0 <= price_ ->
  (Z.abs (price_ - TARGET_PRICE) * 10 ^ 18 <= UINT256_MAX ->
   _calculateDeviation price_ = Ok (Z.abs (price_ - TARGET_PRICE))) /\
  (UINT256_MAX < Z.abs (price_ - TARGET_PRICE) * 10 ^ 18 ->
   _calculateDeviation price_ = Err (Panic ARITHMETIC)) /\
  (forall d, 0 <= d <= TARGET_PRICE ->
     _calculateDeviation (TARGET_PRICE + d) = Ok d /\
     _calculateDeviation (TARGET_PRICE - d) = Ok d).
Proof.
  intros Hprice. split; [apply deviation_value|]. split.
  - intros Hover. unfold _calculateDeviation. rewrite TARGET_PRICE_value in *.
    destruct (Z.geb_spec price_ (10 ^ 18)).
    + rewrite checked_sub_fits by lia. simpl.
      rewrite Z.abs_eq in Hover by lia. unfold checked_mul.
      destruct (Z.leb_spec ((price_ - 10 ^ 18) * 10 ^ 18) UINT256_MAX);
        [lia | reflexivity].
    + rewrite Z.abs_neq in Hover by lia.
      assert (10 ^ 18 * 10 ^ 18 <= UINT256_MAX) by (vm_compute; discriminate).
      lia.
  - intros d Hd. rewrite TARGET_PRICE_value in *.
    assert (10 ^ 18 * 10 ^ 18 <= UINT256_MAX) by (vm_compute; discriminate).
    split.
    + rewrite deviation_value; rewrite TARGET_PRICE_value.
      * f_equal. lia.
      * rewrite Z.abs_eq by lia. nia.
    + rewrite deviation_value; rewrite TARGET_PRICE_value.
      * f_equal. lia.
      * rewrite Z.abs_neq by lia. nia.
Qed.

Lemma deviation_is_distance_witness :
  _calculateDeviation (TARGET_PRICE + 2 * 10 ^ 16) = Ok (2 * 10 ^ 16) /\
  _calculateDeviation (TARGET_PRICE - 2 * 10 ^ 16) = Ok (2 * 10 ^ 16).
Proof.
  assert (Hprice : 0 <= TARGET_PRICE) by (vm_compute; discriminate).
  apply (proj2 (proj2 (deviation_is_distance TARGET_PRICE Hprice))).
  split; vm_compute; discriminate.
Defined.

Lemma damping_range band :
  0 <= _getDampingFactor band <= 75 * 10 ^ 16.
Proof.
  unfold _getDampingFactor.
  repeat match goal with
  | |- context [?a =? ?b] => destruct (a =? b)
  end; vm_compute; split; discriminate.
Qed.

Lemma damping_below_halt dev :
  0 <= dev < BAND_4_THRESHOLD ->
  0 <= _getDampingFactor (_getStabilityBand dev) <= 50 * 10 ^ 16 /\
  (dev < BAND_1_THRESHOLD -> _getDampingFactor (_getStabilityBand dev) = 0).
Proof.
  intros Hdev. unfold _getStabilityBand.
  destruct (Z.geb_spec dev BAND_4_THRESHOLD); [lia|].
  destruct (Z.geb_spec dev BAND_3_THRESHOLD);
    [split; [vm_compute; split; discriminate|];
     unfold BAND_3_THRESHOLD, BAND_1_THRESHOLD in *; lia|].
  destruct (Z.geb_spec dev BAND_2_THRESHOLD);
    [split; [vm_compute; split; discriminate|];
     unfold BAND_2_THRESHOLD, BAND_1_THRESHOLD in *; lia|].
  destruct (Z.geb_spec dev BAND_1_THRESHOLD);
    [split; [vm_compute; split; discriminate|]; lia|].
  split; [vm_compute; split; discriminate | reflexivity].
Qed.

Lemma maxAdjustment_value supply :
  0 <= supply <= ECashToken.MAX_SUPPLY -> maxAdjustment supply = Ok (supply / 10).
Proof.
  intros Hs. pose proof TokenFacts.MAX_SUPPLY_value as HM.
  unfold maxAdjustment, MAX_REBASE_PERCENTAGE.
  rewrite checked_mul_fits by (unfold UINT256_MAX; lia). simpl.
  rewrite checked_div_fits by lia. f_equal.
  change (10 ^ 18) with (10 * (10 * 10 ^ 16)).
  apply Z.div_mul_cancel_r; lia.
Qed.

(** What [_calculateSupplyDelta] returns is within the cap and signed by the
    side of the price. *)
Lemma supply_delta_Ok w price_ band delta :
  0 <= ECashToken.totalSupply (token w) <= ECashToken.MAX_SUPPLY ->
  _calculateSupplyDelta w price_ band = Ok delta ->
  Z.abs delta <= ECashToken.totalSupply (token w) / 10 /\
  (price_ > TARGET_PRICE -> 0 <= delta) /\
  (price_ < TARGET_PRICE -> delta <= 0) /\
  (price_ = TARGET_PRICE -> delta = 0).
Proof.
  intros Hs. pose proof TokenFacts.MAX_SUPPLY_value as HM.
  unfold _calculateSupplyDelta.
  set (supply := ECashToken.totalSupply (token w)) in *.
  assert (Hcap0 : 0 <= supply / 10) by (apply Z.div_pos; lia).
  assert (Hcap1 : supply / 10 <= supply)
    by (apply Z.div_le_upper_bound; lia).
  destruct (Z.eqb_spec price_ TARGET_PRICE) as [Heq|Hne].
  { intros Hx. injection Hx as <-. simpl. repeat split; lia. }
  intros H. ok_step H as dev Hdev. ok_step H as raw Hraw.
  ok_step H as damped Hdamped. ok_step H as cap Hcap.
  rewrite maxAdjustment_value in Hcap by exact Hs. injection Hcap as <-.
  apply deviation_Ok in Hdev as [Hdev _].
  assert (Hdev0 : 0 <= dev) by lia.
  unfold rawAdjustment in Hraw. ok_step Hraw as p1 Hp1. ok_arith.
  unfold dampedAdjustment in Hdamped. ok_step Hdamped as p2 Hp2. ok_arith.
  pose proof (damping_range band) as [Hf _].
  assert (Hraw0 : 0 <= supply * dev / 10 ^ 18)
    by (apply Z.div_pos; [apply Z.mul_nonneg_nonneg|]; lia).
  assert (Hdamped0 :
    0 <= supply * dev / 10 ^ 18 * _getDampingFactor band / 10 ^ 18)
    by (apply Z.div_pos; [apply Z.mul_nonneg_nonneg|]; lia).
  set (damped := supply * dev / 10 ^ 18 * _getDampingFactor band / 10 ^ 18) in *.
  assert (Hfinal : exists m, 0 <= m <= supply / 10 /\
            (if damped >? supply / 10 then supply / 10 else damped) = m).
  { destruct (Z.gtb_spec damped (supply / 10)); eexists; split;
      try reflexivity; lia. }
  destruct Hfinal as (m & Hm & Hmeq). rewrite Hmeq in H.
  assert (Hint : to_int256 m = m).
  { unfold to_int256, INT256_MAX. destruct (Z.leb_spec m (2 ^ 255 - 1)); lia. }
  rewrite Hint in H.
  destruct (Z.gtb_spec price_ TARGET_PRICE).
  - injection H as <-. rewrite Z.abs_eq by lia. repeat split; lia.
  - ok_arith. rewrite Z.abs_neq by lia. repeat split; lia.
Qed.

(** X16.  Below the halt threshold the 10% cap never binds: for a supply
    within MAX_SUPPLY and a price off the target whose deviation is below
    20%, _calculateSupplyDelta with the band of that deviation returns, and
    returns exactly floor(floor(supply * deviation / 1e18) * damping / 1e18),
    positive above the target and negative below; that magnitude is at most
    supply / 10, and it is 0 in the dead zone (deviation below 1%). *)
Theorem supply_delta_closed_form w price_ dev :
  0 <= ECashToken.totalSupply (token w) <= ECashToken.MAX_SUPPLY ->
  _calculateDeviation price_ = Ok dev ->
  dev < BAND_4_THRESHOLD ->
  price_ <> TARGET_PRICE ->
  _calculateSupplyDelta w price_ (_getStabilityBand dev)
  = Ok ((if price_ >? TARGET_PRICE then 1 else -1)
        * (ECashToken.totalSupply (token w) * dev / 10 ^ 18
           * _getDampingFactor (_getStabilityBand dev) / 10 ^ 18)) /\
  0 <= ECashToken.totalSupply (token w) * dev / 10 ^ 18
       * _getDampingFactor (_getStabilityBand dev) / 10 ^ 18
    <= ECashToken.totalSupply (token w) / 10 /\
  (dev < BAND_1_THRESHOLD ->
   _calculateSupplyDelta w price_ (_getStabilityBand dev) = Ok 0).
Proof.
  intros Hs Hdev Hlow Hne. pose proof TokenFacts.MAX_SUPPLY_value as HM.
  pose proof (deviation_Ok _ _ Hdev) as [Hdist _].
  assert (Hdev0 : 0 <= dev) by lia.
  destruct (damping_below_halt dev ltac:(lia)) as [[Hf0 Hf1] Hdead].
  set (supply := ECashToken.totalSupply (token w)) in *.
  set (f := _getDampingFactor (_getStabilityBand dev)) in *.
  unfold BAND_4_THRESHOLD in Hlow.
  assert (Hprod : 0 <= supply * dev <= supply * (20 * 10 ^ 16)).
  { split; [apply Z.mul_nonneg_nonneg; lia|].
    apply Z.mul_le_mono_nonneg_l; lia. }
  assert (Hraw : 0 <= supply * dev / 10 ^ 18 <= supply / 5).
  { split; [apply Z.div_pos; lia|].
    replace (supply / 5) with (supply * (20 * 10 ^ 16) / 10 ^ 18).
    - apply Z.div_le_mono; lia.
    - change (10 ^ 18) with (5 * (20 * 10 ^ 16)).
      apply Z.div_mul_cancel_r; lia. }
  set (raw := supply * dev / 10 ^ 18) in *.
  assert (Hfifth : supply / 5 <= supply)
    by (apply Z.div_le_upper_bound; lia).
  assert (Htenth : supply / 10 <= supply)
    by (apply Z.div_le_upper_bound; lia).
  assert (Hprod2 : 0 <= raw * f <= raw * (50 * 10 ^ 16)).
  { split; [apply Z.mul_nonneg_nonneg; lia|].
    apply Z.mul_le_mono_nonneg_l; lia. }
  assert (Hdamped : 0 <= raw * f / 10 ^ 18 <= supply / 10).
  { split; [apply Z.div_pos; lia|].
    transitivity (raw * (50 * 10 ^ 16) / 10 ^ 18);
      [apply Z.div_le_mono; lia|].
    change (10 ^ 18) with (2 * (50 * 10 ^ 16)).
    rewrite Z.div_mul_cancel_r by lia.
    transitivity (supply / 5 / 2); [apply Z.div_le_mono; lia|].
    rewrite Z.div_div by lia. reflexivity. }
  assert (Hcall :
    _calculateSupplyDelta w price_ (_getStabilityBand dev)
    = Ok ((if price_ >? TARGET_PRICE then 1 else -1) * (raw * f / 10 ^ 18))).
  { unfold _calculateSupplyDelta.
    destruct (Z.eqb_spec price_ TARGET_PRICE); [contradiction|].
    rewrite Hdev. cbn [bind].
    fold supply. fold f.
    unfold rawAdjustment.
    rewrite checked_mul_fits by (unfold UINT256_MAX; lia). cbn [bind].
    rewrite checked_div_fits by lia. cbn [bind]. fold raw.
    unfold dampedAdjustment.
    rewrite checked_mul_fits by (unfold UINT256_MAX; lia). cbn [bind].
    rewrite checked_div_fits by lia. cbn [bind].
    rewrite maxAdjustment_value by exact Hs. cbn [bind].
    destruct (Z.gtb_spec (raw * f / 10 ^ 18) (supply / 10)); [lia|].
    assert (Hint : to_int256 (raw * f / 10 ^ 18) = raw * f / 10 ^ 18).
    { unfold to_int256, INT256_MAX.
      destruct (Z.leb_spec (raw * f / 10 ^ 18) (2 ^ 255 - 1)); lia. }
    rewrite Hint.
    destruct (Z.gtb_spec price_ TARGET_PRICE).
    - f_equal; lia.
    - unfold checked_neg, INT256_MIN.
      destruct (Z.eqb_spec (raw * f / 10 ^ 18) (- 2 ^ 255)); [lia|].
      f_equal; lia. }
  split; [exact Hcall|]. split; [exact Hdamped|].
  intros Hzone. rewrite Hcall. specialize (Hdead Hzone).
  subst f. rewrite Hdead. rewrite Z.mul_0_r. simpl.
  destruct (price_ >? TARGET_PRICE); reflexivity.
Qed.

Lemma supply_delta_closed_form_witness :
  _calculateSupplyDelta (Scenario.priced 102000000) (102 * 10 ^ 16)
    (_getStabilityBand (2 * 10 ^ 16))
  = Ok ((if 102 * 10 ^ 16 >? TARGET_PRICE then 1 else -1)
        * (ECashToken.totalSupply (token (Scenario.priced 102000000))
           * (2 * 10 ^ 16) / 10 ^ 18
           * _getDampingFactor (_getStabilityBand (2 * 10 ^ 16)) / 10 ^ 18)).
Proof.
  assert (Hs : 0 <= ECashToken.totalSupply (token (Scenario.priced 102000000))
               <= ECashToken.MAX_SUPPLY)
    by (split; vm_compute; discriminate).
  assert (Hdev : _calculateDeviation (102 * 10 ^ 16) = Ok (2 * 10 ^ 16))
    by (vm_compute; reflexivity).
  assert (Hlow : 2 * 10 ^ 16 < BAND_4_THRESHOLD) by (vm_compute; reflexivity).
  assert (Hne : 102 * 10 ^ 16 <> TARGET_PRICE) by (vm_compute; discriminate).
  exact (proj1 (supply_delta_closed_form _ _ _ Hs Hdev Hlow Hne)).
Defined.

Lemma delta_is_int256 supply delta :
  0 <= supply <= ECashToken.MAX_SUPPLY -> Z.abs delta <= supply / 10 ->
  is_int256 delta.
Proof.
  intros Hs Hd. pose proof TokenFacts.MAX_SUPPLY_value as HM.
  assert (supply / 10 <= supply) by (apply Z.div_le_upper_bound; lia).
  unfold is_int256, INT256_MIN, INT256_MAX. lia.
Qed.

(** X17.  One controller rebase moves the supply by at most a tenth, in the
    direction of the price: if rebase() returns from a state whose supply is
    positive and within MAX_SUPPLY, the supply afterwards differs from the
    supply before by at most floor(supply / 10), is still positive and
    within MAX_SUPPLY, has not gone down when the aggregated price is above
    the target and has not gone up when it is below. *)
Theorem controller_step_bounded sender w w' :
  rebase sender w = Ok (tt, w') ->
  0 < ECashToken.totalSupply (token w) <= ECashToken.MAX_SUPPLY ->
  Z.abs (ECashToken.totalSupply (token w') - ECashToken.totalSupply (token w))
    <= ECashToken.totalSupply (token w) / 10 /\
  0 < ECashToken.totalSupply (token w') <= ECashToken.MAX_SUPPLY /\
  exists price_ ts conf,
    OracleAggregator.getAggregatedPrice (now w) (feeds w) (aggregator w)
      = Ok (price_, ts, conf) /\
    (price_ >= TARGET_PRICE ->
       ECashToken.totalSupply (token w) <= ECashToken.totalSupply (token w')) /\
    (price_ <= TARGET_PRICE ->
       ECashToken.totalSupply (token w') <= ECashToken.totalSupply (token w)).
Proof.
  intros Hcall Hs. apply ControllerFacts.rebase_Ok in Hcall
    as (_ & _ & _ & _ & Hout).
  assert (Htenth : 0 <= ECashToken.totalSupply (token w) / 10)
    by (apply Z.div_pos; lia).
  destruct Hout as [price_ ts conf dev Hread Hconf Hdev Hhigh
                   |price_ ts conf dev Hread Hconf Hdev Hlow Hdelta
                   |price_ ts conf dev delta newSupply_ token'
                      Hread Hconf Hdev Hlow Hdelta Hnz Happly Hcount].
  - simpl. rewrite Z.sub_diag. simpl.
    split; [exact Htenth|]. split; [exact Hs|].
    exists price_, ts, conf. repeat split; auto; lia.
  - rewrite Z.sub_diag. simpl.
    split; [exact Htenth|]. split; [exact Hs|].
    exists price_, ts, conf. repeat split; auto; lia.
  - cbn [token set_controller set_token].
    destruct (supply_delta_Ok w price_ _ delta ltac:(lia) Hdelta)
      as (Hcap & Hup & Hdown & _).
    assert (Hint : is_int256 delta)
      by (apply (delta_is_int256 (ECashToken.totalSupply (token w))); lia).
    destruct (LedgerFacts.rebase_new_supply _ _ _ _ _ Happly Hnz Hint)
      as (Hnew & Hrange & _); [unfold ECashToken.totalSupply in Hs; lia|].
    unfold ECashToken.totalSupply in *. rewrite Hnew.
    replace (ECashToken._totalSupply (token w) + delta
             - ECashToken._totalSupply (token w)) with delta by lia.
    split; [exact Hcap|]. split; [exact Hrange|].
    exists price_, ts, conf. split; [exact Hread|].
    split; intros Hside.
    + destruct (Z.eq_dec price_ TARGET_PRICE) as [Heq|Hne].
      * apply deviation_Ok in Hdev as [Hdev _].
        unfold _calculateSupplyDelta in Hdelta.
        destruct (Z.eqb_spec price_ TARGET_PRICE); [|contradiction].
        injection Hdelta as <-. lia.
      * assert (0 <= delta) by (apply Hup; lia). lia.
    + destruct (Z.eq_dec price_ TARGET_PRICE) as [Heq|Hne].
      * unfold _calculateSupplyDelta in Hdelta.
        destruct (Z.eqb_spec price_ TARGET_PRICE); [|contradiction].
        injection Hdelta as <-. lia.
      * assert (delta <= 0) by (apply Hdown; lia). lia.
Qed.

Lemma controller_step_bounded_witness :
  Z.abs (ECashToken.totalSupply (token Situations.rebased_once)
         - ECashToken.totalSupply (token (Scenario.priced 102000000)))
  <= ECashToken.totalSupply (token (Scenario.priced 102000000)) / 10.
Proof.
  assert (Hcall :
    rebase Scenario.deployer (Scenario.priced 102000000)
    = Ok (tt, Situations.rebased_once))
    by (vm_compute; reflexivity).
  assert (Hs :
    0 < ECashToken.totalSupply (token (Scenario.priced 102000000))
      <= ECashToken.MAX_SUPPLY)
    by (split; vm_compute; first [reflexivity | discriminate]).
  exact (proj1 (controller_step_bounded _ _ _ Hcall Hs)).
Defined.

(** X18.  The cooldown: after a controller rebase that was applied
    (rebaseCount went up), for the next 12 hours canRebase() is false and
    every rebase() fails, with "Rebase conditions not met" for an operator;
    from 12 hours on canRebase() is true again. *)
Theorem cooldown_enforced sender w w' :
  rebase sender w = Ok (tt, w') ->
  rebaseCount (controller w') = rebaseCount (controller w) + 1 ->
  forall caller dt,
    0 <= dt -> now w + dt + REBASE_COOLDOWN <= UINT256_MAX ->
    (dt < REBASE_COOLDOWN ->
       canRebase (step (Elapse dt) w') = Ok false /\
       is_ok (rebase caller (step (Elapse dt) w')) = false /\
       (hasRole OPERATOR_ROLE caller (oz (controller w')) = true ->
        rebase caller (step (Elapse dt) w')
        = Err (Revert "Rebase conditions not met"))) /\
    (REBASE_COOLDOWN <= dt -> canRebase (step (Elapse dt) w') = Ok true).
Proof.
  intros Hcall Hcount caller dt Hdt Hfit.
  apply ControllerFacts.rebase_Ok in Hcall
    as (_ & Hpaused & Hbreaker & _ & Hout).
  destruct Hout as [price_ ts conf dev Hread Hconf Hdev Hhigh
                   |price_ ts conf dev Hread Hconf Hdev Hlow Hdelta
                   |price_ ts conf dev delta newSupply_ token'
                      Hread Hconf Hdev Hlow Hdelta Hnz Happly Hcnt];
    [simpl in Hcount; lia | lia |].
  set (c' := set_rebaseHistory _ _) in *.
  set (w' := set_controller c' (set_token token' w)) in *.
  assert (Hlast : lastRebaseTime (controller (step (Elapse dt) w')) = now w)
    by reflexivity.
  assert (Hnow : now (step (Elapse dt) w') = now w + dt) by reflexivity.
  assert (Hcan : canRebase (step (Elapse dt) w')
                 = Ok (now w + dt >=? now w + REBASE_COOLDOWN)).
  { unfold canRebase. rewrite Hlast, Hnow.
    rewrite checked_add_fits by lia. reflexivity. }
  split.
  - intros Hshort.
    assert (Hfalse : canRebase (step (Elapse dt) w') = Ok false).
    { rewrite Hcan.
      destruct (Z.geb_spec (now w + dt) (now w + REBASE_COOLDOWN)); [lia|].
      reflexivity. }
    split; [exact Hfalse|].
    assert (Hop : hasRole OPERATOR_ROLE caller
                    (oz (controller (step (Elapse dt) w')))
                  = hasRole OPERATOR_ROLE caller (oz (controller w)))
      by reflexivity.
    assert (Hp : _paused (oz (controller (step (Elapse dt) w'))) = false)
      by exact Hpaused.
    assert (Hb : circuitBreakerActive (controller (step (Elapse dt) w'))
                 = false) by exact Hbreaker.
    split.
    + unfold rebase, onlyRole, whenNotPaused.
      rewrite Hop, Hp, Hb, Hfalse.
      destruct (hasRole OPERATOR_ROLE caller (oz (controller w)));
        reflexivity.
    + intros Hrole. unfold rebase, onlyRole, whenNotPaused.
      rewrite Hop, Hp, Hb, Hfalse.
      change (oz (controller w')) with (oz (controller w)) in Hrole.
      rewrite Hrole. reflexivity.
  - intros Hlong. rewrite Hcan.
    destruct (Z.geb_spec (now w + dt) (now w + REBASE_COOLDOWN)); [|lia].
    reflexivity.
Qed.

Lemma cooldown_enforced_witness :
  rebase Scenario.deployer (step (Elapse 3600) Situations.rebased_once)
  = Err (Revert "Rebase conditions not met").
Proof.
  assert (Hcall :
    rebase Scenario.deployer (Scenario.priced 102000000)
    = Ok (tt, Situations.rebased_once))
    by (vm_compute; reflexivity).
  assert (Hcount :
    rebaseCount (controller Situations.rebased_once)
    = rebaseCount (controller (Scenario.priced 102000000)) + 1)
    by (vm_compute; reflexivity).
  assert (Hdt : 0 <= 3600) by discriminate.
  assert (Hfit : now (Scenario.priced 102000000) + 3600 + REBASE_COOLDOWN
                 <= UINT256_MAX) by (vm_compute; discriminate).
  assert (Hshort : 3600 < REBASE_COOLDOWN) by reflexivity.
  assert (Hrole :
    hasRole OPERATOR_ROLE Scenario.deployer
      (oz (controller Situations.rebased_once)) = true)
    by (vm_compute; reflexivity).
  exact (proj2 (proj2 (proj1 (cooldown_enforced _ _ _ Hcall Hcount
                                Scenario.deployer 3600 Hdt Hfit) Hshort))
           Hrole).
Defined.

(** X19.  The latch: while the breaker is on, no rebase() returns and the
    world stays as it is, an operator on an unpaused controller getting
    "Circuit breaker active"; resetCircuitBreaker() is refused to a caller
    without DEFAULT_ADMIN_ROLE; and a reset by an admin only clears the
    flag: lastRebaseTime, rebaseCount, the history, the token and the
    aggregator are untouched. *)
Theorem breaker_latch w :
  circuitBreakerActive (controller w) = true ->
  (forall caller,
     is_ok (rebase caller w) = false /\
     step (ToController caller Rebase) w = w) /\
  (forall caller,
     hasRole OPERATOR_ROLE caller (oz (controller w)) = true ->
     _paused (oz (controller w)) = false ->
     rebase caller w = Err (Revert "Circuit breaker active")) /\
  (forall caller,
     hasRole DEFAULT_ADMIN_ROLE caller (oz (controller w)) = false ->
     resetCircuitBreaker caller (controller w) = Err MissingRole /\
     step (ToController caller ResetCircuitBreaker) w = w) /\
  (forall caller,
     hasRole DEFAULT_ADMIN_ROLE caller (oz (controller w)) = true ->
     step (ToController caller ResetCircuitBreaker) w
     = set_controller (set_circuitBreakerActive false (controller w)) w).
Proof.
  intros Hon.
  assert (Hfail : forall caller, is_ok (rebase caller w) = false).
  { intros caller. unfold rebase, onlyRole, whenNotPaused. rewrite Hon.
    destruct (hasRole OPERATOR_ROLE caller (oz (controller w)));
      [|reflexivity].
    destruct (_paused (oz (controller w))); reflexivity. }
  split; [|split; [|split]].
  - intros caller. split; [apply Hfail|].
    unfold step, run. specialize (Hfail caller).
    destruct (rebase caller w); [discriminate | reflexivity].
  - intros caller Hrole Hp. unfold rebase, onlyRole, whenNotPaused.
    rewrite Hrole, Hp, Hon. reflexivity.
  - intros caller Hrole. unfold step, run, resetCircuitBreaker, onlyRole.
    rewrite Hrole. split; reflexivity.
  - intros caller Hrole. unfold step, run, resetCircuitBreaker, onlyRole.
    rewrite Hrole. reflexivity.
Qed.

Lemma breaker_latch_witness :
  rebase Scenario.deployer Scenario.halted
  = Err (Revert "Circuit breaker active").
Proof.
  assert (Hon : circuitBreakerActive (controller Scenario.halted) = true)
    by (vm_compute; reflexivity).
  assert (Hrole :
    hasRole OPERATOR_ROLE Scenario.deployer (oz (controller Scenario.halted))
    = true) by (vm_compute; reflexivity).
  assert (Hp : _paused (oz (controller Scenario.halted)) = false)
    by (vm_compute; reflexivity).
  exact (proj1 (proj2 (breaker_latch Scenario.halted Hon))
           Scenario.deployer Hrole Hp).
Defined.

(** A controller call other than rebase() leaves the bookkeeping, the token
    and the aggregator alone. *)
Lemma administrative_bookkeeping sender c w r :
  c <> Rebase ->
  run sender c w = Ok r ->
  rebaseCount (controller (snd r)) = rebaseCount (controller w) /\
  rebaseHistory (controller (snd r)) = rebaseHistory (controller w) /\
  lastRebaseTime (controller (snd r)) = lastRebaseTime (controller w) /\
  token (snd r) = token w /\ aggregator (snd r) = aggregator w.
Proof.
  intros Hr Hrun. destruct c; try contradiction; simpl in Hrun;
    unfold in_controller in Hrun; ok_step Hrun as p Hp;
    injection Hrun as <-; simpl.
  - unfold initialize in Hp. ok_step Hp as o Ho.
    injection Hp as <-. repeat split.
  - unfold resetCircuitBreaker in Hp. ok_step Hp as u Hu.
    injection Hp as <-. repeat split.
  - unfold emergencyPause in Hp. ok_step Hp as u Hu. ok_step Hp as o Ho.
    injection Hp as <-. repeat split.
  - unfold emergencyUnpause in Hp. ok_step Hp as u Hu. ok_step Hp as o Ho.
    injection Hp as <-. repeat split.
  - unfold lift_oz in Hp. ok_step Hp as o Ho. injection Hp as <-.
    repeat split.
  - unfold lift_oz in Hp. ok_step Hp as o Ho. injection Hp as <-.
    repeat split.
  - unfold lift_oz in Hp. ok_step Hp as o Ho. injection Hp as <-.
    repeat split.
Qed.

(** X20.  The rebase history is append-only: whatever happens to the world,
    rebaseCount never goes down and grows by at most one; no record at an
    epoch other than the next one is written or changed; and when the count
    does grow, the record at the new epoch holds a non-zero supply delta and
    the token's total supply after the rebase, and lastRebaseTime is the
    time of that step. *)
Theorem history_append_only a w :
  rebaseCount (controller w) <= rebaseCount (controller (step a w))
    <= rebaseCount (controller w) + 1 /\
  (forall epoch,
     epoch <> rebaseCount (controller w) + 1 ->
     rebaseHistory (controller (step a w)) !! epoch
     = rebaseHistory (controller w) !! epoch) /\
  (rebaseCount (controller (step a w)) = rebaseCount (controller w) + 1 ->
   exists record,
     rebaseHistory (controller (step a w))
       !! rebaseCount (controller (step a w)) = Some record /\
     supplyDelta record <> 0 /\
     newSupply record = ECashToken.totalSupply (token (step a w)) /\
     lastRebaseTime (controller (step a w)) = now w).
Proof.
  destruct a as [sender c| | | |]; simpl;
    try (split; [lia|]; split; [reflexivity | lia]).
  unfold commit.
  destruct (run sender c w) as [[[] w']|e] eqn:Hrun;
    [|split; [lia|]; split; [reflexivity | lia]].
  assert (Hcase : c = Rebase \/ c <> Rebase)
    by (destruct c; first [left; reflexivity | right; discriminate]).
  destruct Hcase as [->|Hc].
  - simpl in Hrun. apply ControllerFacts.rebase_Ok in Hrun
      as (_ & _ & _ & _ & Hout).
    destruct Hout as [price_ ts conf dev Hread Hconf Hdev Hhigh
                     |price_ ts conf dev Hread Hconf Hdev Hlow Hdelta
                     |price_ ts conf dev delta newSupply_ token'
                        Hread Hconf Hdev Hlow Hdelta Hnz Happly Hcount].
    + simpl. split; [lia|]. split; [reflexivity | lia].
    + split; [lia|]. split; [reflexivity | lia].
    + simpl. split; [lia|]. split.
      * intros epoch Hne. rewrite lookup_insert_ne by congruence. reflexivity.
      * intros _. eexists. split; [apply lookup_insert_eq|]. simpl.
        split; [exact Hnz|]. split; [|reflexivity].
        apply TokenFacts.rebase_writes in Happly
          as (supply & ratio & -> & -> & _). reflexivity.
  - pose proof (administrative_bookkeeping _ _ _ _ Hc Hrun)
      as (Hcount & Hhist & _). simpl in Hcount, Hhist.
    rewrite Hcount, Hhist. split; [lia|]. split; [reflexivity | lia].
Qed.

Lemma history_append_only_witness :
  exists record,
    rebaseHistory (controller (step (ToController Scenario.deployer Rebase)
                                 (Scenario.priced 102000000)))
      !! rebaseCount (controller (step (ToController Scenario.deployer Rebase)
                                    (Scenario.priced 102000000)))
    = Some record /\
    supplyDelta record <> 0 /\
    newSupply record
    = ECashToken.totalSupply
        (token (step (ToController Scenario.deployer Rebase)
                  (Scenario.priced 102000000))) /\
    lastRebaseTime (controller (step (ToController Scenario.deployer Rebase)
                                  (Scenario.priced 102000000)))
    = now (Scenario.priced 102000000).
Proof.
  assert (Hcount :
    rebaseCount (controller (step (ToController Scenario.deployer Rebase)
                               (Scenario.priced 102000000)))
    = rebaseCount (controller (Scenario.priced 102000000)) + 1)
    by (vm_compute; reflexivity).
  exact (proj2 (proj2 (history_append_only
                         (ToController Scenario.deployer Rebase)
                         (Scenario.priced 102000000))) Hcount).
Defined.

(** X21.  The preview agrees with an executed rebase: if rebase() returns
    without latching the breaker, from a supply that is positive and within
    MAX_SUPPLY, then previewRebase() in the same state returns, says the
    rebase can execute, shows a band below 4, and its projected delta is
    exactly the change of the token's total supply. *)
Theorem preview_predicts sender w w' :
  rebase sender w = Ok (tt, w') ->
  circuitBreakerActive (controller w') = false ->
  0 < ECashToken.totalSupply (token w) <= ECashToken.MAX_SUPPLY ->
  exists p,
    previewRebase w = Ok p /\
    canExecute p = true /\
    previewBand p < 4 /\
    previewBand p = _getStabilityBand (deviation p) /\
    ECashToken.totalSupply (token w')
    = ECashToken.totalSupply (token w) + projectedSupplyDelta p.
Proof.
  intros Hcall Hoff Hs. apply ControllerFacts.rebase_Ok in Hcall
    as (_ & _ & Hbreaker & Hcan & Hout).
  assert (Hband : forall dev, dev < BAND_4_THRESHOLD -> _getStabilityBand dev < 4).
  { intros dev Hlow. unfold _getStabilityBand.
    destruct (Z.geb_spec dev BAND_4_THRESHOLD); [lia|].
    destruct (dev >=? BAND_3_THRESHOLD); [lia|].
    destruct (dev >=? BAND_2_THRESHOLD); [lia|].
    destruct (dev >=? BAND_1_THRESHOLD); lia. }
  assert (Hpreview : forall price_ ts conf dev delta,
    OracleAggregator.getAggregatedPrice (now w) (feeds w) (aggregator w)
      = Ok (price_, ts, conf) ->
    conf >= 50 -> _calculateDeviation price_ = Ok dev ->
    _calculateSupplyDelta w price_ (_getStabilityBand dev) = Ok delta ->
    previewRebase w
    = Ok {| canExecute := true; currentPrice := price_; deviation := dev;
            projectedSupplyDelta := delta;
            previewBand := _getStabilityBand dev |}).
  { intros price_ ts conf dev delta Hread Hconf Hdev Hdelta.
    unfold previewRebase. rewrite Hcan, Hbreaker, Hread. simpl.
    destruct (Z.geb_spec conf 50); [|lia].
    rewrite Hdev. simpl. rewrite Hdelta. reflexivity. }
  destruct Hout as [price_ ts conf dev Hread Hconf Hdev Hhigh
                   |price_ ts conf dev Hread Hconf Hdev Hlow Hdelta
                   |price_ ts conf dev delta newSupply_ token'
                      Hread Hconf Hdev Hlow Hdelta Hnz Happly Hcount].
  - simpl in Hoff. discriminate.
  - eexists. split; [eapply Hpreview; eauto|]. simpl.
    split; [reflexivity|]. split; [apply Hband; exact Hlow|].
    split; [reflexivity | lia].
  - eexists. split; [eapply Hpreview; eauto|].
    cbn [canExecute previewBand projectedSupplyDelta deviation token
         set_controller set_token].
    split; [reflexivity|]. split; [apply Hband; exact Hlow|].
    split; [reflexivity|].
    destruct (supply_delta_Ok w price_ _ delta ltac:(lia) Hdelta)
      as (Hcap & _).
    assert (Hint : is_int256 delta)
      by (apply (delta_is_int256 (ECashToken.totalSupply (token w))); lia).
    destruct (LedgerFacts.rebase_new_supply _ _ _ _ _ Happly Hnz Hint)
      as (Hnew & _); [unfold ECashToken.totalSupply in Hs; lia|].
    exact Hnew.
Qed.

Lemma preview_predicts_witness :
  exists p,
    previewRebase (Scenario.priced 102000000) = Ok p /\
    canExecute p = true /\
    ECashToken.totalSupply (token Situations.rebased_once)
    = ECashToken.totalSupply (token (Scenario.priced 102000000))
      + projectedSupplyDelta p.
Proof.
  assert (Hcall :
    rebase Scenario.deployer (Scenario.priced 102000000)
    = Ok (tt, Situations.rebased_once))
    by (vm_compute; reflexivity).
  assert (Hoff : circuitBreakerActive (controller Situations.rebased_once)
                 = false) by (vm_compute; reflexivity).
  assert (Hs :
    0 < ECashToken.totalSupply (token (Scenario.priced 102000000))
      <= ECashToken.MAX_SUPPLY)
    by (split; vm_compute; first [reflexivity | discriminate]).
  destruct (preview_predicts _ _ _ Hcall Hoff Hs)
    as (p & Hp & Hexec & _ & _ & Hsupply).
  exists p. repeat split; assumption.
Defined.

End PolicyFacts.

(** ** The mock feed and the status report *)

Module FeedFacts.

Import MockChainlinkOracle.

(** X22.  A call of updateAnswer that returns opens the round after the
    latest one: latestRoundData then reports that round id, the published
    answer and the block time as both start and update time, every other
    round reads as before, and the decimals are untouched.  The call fails
    only when the uint80 round counter is exhausted. *)
Theorem published_round_is_latest now_ answer_ s :
  0 <= latestRound s ->
  (latestRound s < UINT80_MAX ->
   exists s',
     updateAnswer now_ answer_ s = Ok (tt, s') /\
     latestRound s' = latestRound s + 1 /\
     latestRoundData s'
       = (latestRound s + 1, answer_, now_, now_, latestRound s + 1) /\
     (forall id, id <> latestRound s + 1 ->
        getRoundData id s' = getRoundData id s) /\
     decimals s' = decimals s) /\
  (UINT80_MAX <= latestRound s ->
   updateAnswer now_ answer_ s = Err (Panic ARITHMETIC)).
Proof.
  intros Hpos; split; intros Hroom.
  - unfold updateAnswer.
    destruct (Z.leb_spec (latestRound s + 1) UINT80_MAX) as [_|Hgt]; [|lia].
    cbn [bind]. eexists; split; [reflexivity|].
    cbn [latestRound decimals].
    repeat split.
    + unfold latestRoundData, getRoundData, round_at; cbn [latestRound rounds].
      rewrite lookup_insert_eq. reflexivity.
    + intros id Hid. unfold getRoundData, round_at; cbn [rounds].
      rewrite lookup_insert_ne by congruence. reflexivity.
  - unfold updateAnswer.
    destruct (Z.leb_spec (latestRound s + 1) UINT80_MAX) as [Hle|_]; [lia|].
    reflexivity.
Qed.

Lemma published_round_is_latest_witness :
  exists s',
    updateAnswer 1700000000 102000000 (constructor 8 "ETH / USD")
      = Ok (tt, s') /\
    latestRoundData s' = (1, 102000000, 1700000000, 1700000000, 1).
Proof.
  destruct (published_round_is_latest 1700000000 102000000
              (constructor 8 "ETH / USD")) as [Hroom _];
    [vm_compute; discriminate|].
  destruct Hroom as (s' & Hrun & _ & Hlatest & _);
    [vm_compute; reflexivity|].
  exists s'; split; [exact Hrun | exact Hlatest].
Defined.

(** X23.  What the aggregator makes of the mock: a mock that never
    published a round reports answer 0 at time 0, and a mock whose latest
    answer is zero or negative reports that answer; in both cases the
    aggregation loop passes the source over and the running totals stay as
    they were, whatever the source's configuration. *)
Theorem unusable_mock_quote_skipped now_ answer_ m m' :
  answer_ <= 0 ->
  updateAnswer now_ answer_ m = Ok (tt, m') ->
  forall t feeds s totals key decimals_ description_,
    OracleAggregator.visit t
      (<[OracleAggregator.oracle (OracleAggregator.config_of s key)
         := reading (constructor decimals_ description_)]> feeds)
      s totals key = Ok totals /\
    OracleAggregator.visit t
      (<[OracleAggregator.oracle (OracleAggregator.config_of s key)
         := reading m']> feeds)
      s totals key = Ok totals.
Proof.
  intros Hneg Hrun t feeds s totals key decimals_ description_.
  unfold updateAnswer in Hrun.
  destruct (latestRound m + 1 <=? UINT80_MAX); [|discriminate].
  cbn [bind] in Hrun. injection Hrun as <-.
  split; unfold OracleAggregator.visit;
    destruct (negb (OracleAggregator.isActive
                      (OracleAggregator.config_of s key))); try reflexivity;
    rewrite lookup_insert_eq.
  - reflexivity.
  - unfold reading, latestRoundData, getRoundData, round_at;
      cbn [latestRound rounds].
    rewrite lookup_insert_eq.
    cbn [default from_option id answer updatedAt OracleAggregator.answer
         OracleAggregator.updatedAt].
    destruct (Z.gtb_spec answer_ 0) as [Hgt|_]; [lia|]. reflexivity.
Qed.

Lemma unusable_mock_quote_skipped_witness :
  exists m',
    updateAnswer 1700000000 0 (constructor 8 "ETH / USD") = Ok (tt, m') /\
    OracleAggregator.visit 1700000000
      (<[OracleAggregator.oracle
           (OracleAggregator.config_of
              (StabilizationController.aggregator Scenario.live)
              "chainlink-eth-usd")
         := reading m']> ∅)
      (StabilizationController.aggregator Scenario.live)
      {| OracleAggregator.totalWeight := 0; OracleAggregator.weightedSum := 0;
         OracleAggregator.oldestTimestamp := 1700000000;
         OracleAggregator.validOracles := 0 |}
      "chainlink-eth-usd"
    = Ok {| OracleAggregator.totalWeight := 0;
            OracleAggregator.weightedSum := 0;
            OracleAggregator.oldestTimestamp := 1700000000;
            OracleAggregator.validOracles := 0 |}.
Proof.
  assert (Hrun : exists m',
             updateAnswer 1700000000 0 (constructor 8 "ETH / USD")
               = Ok (tt, m'))
    by (vm_compute; eexists; reflexivity).
  destruct Hrun as [m' Hrun]. exists m'; split; [exact Hrun|].
  refine (proj2 (unusable_mock_quote_skipped 1700000000 0 _ m' _ Hrun
                   1700000000 ∅ _ _ "chainlink-eth-usd" 8 "ETH / USD")).
  lia.
Defined.

End FeedFacts.

Module StatusFacts.

Import StabilizationController.

(** X24.  The status report of the test helper agrees with the controller:
    when it returns, the target is the controller's TARGET_PRICE, the supply
    is the ledger's, canRebase is the controller's cooldown test, and for a
    positive aggregated price the deviation and band are the ones the
    controller computes.  It reports the price whatever the confidence.  It
    departs from the controller in two cases: when the aggregator fails, and
    when the aggregate is 0 (which the controller rates as a 100% deviation,
    band 4), it shows deviation 0 and band 0. *)
Theorem status_matches_controller w st :
  TestHelper.getProtocolStatus w = Ok st ->
  TestHelper.targetPrice st = TARGET_PRICE /\
  TestHelper.totalSupply st = ECashToken.totalSupply (token w) /\
  canRebase w = Ok (TestHelper.canRebase st) /\
  TestHelper.circuitBreakerActive st = circuitBreakerActive (controller w) /\
  match OracleAggregator.getAggregatedPrice (now w) (feeds w) (aggregator w)
  with
  | Ok (price_, _, confidence) =>
      TestHelper.currentPrice st = price_ /\
      TestHelper.oracleConfidence st = confidence /\
      (0 < price_ ->
       _calculateDeviation price_ = Ok (TestHelper.deviation st) /\
       TestHelper.stabilityBand st
         = _getStabilityBand (TestHelper.deviation st)) /\
      (price_ = 0 ->
       TestHelper.deviation st = 0 /\ TestHelper.stabilityBand st = 0 /\
       _calculateDeviation price_ = Ok (10 ^ 18) /\
       _getStabilityBand (10 ^ 18) = 4)
  | Err _ =>
      TestHelper.currentPrice st = 0 /\ TestHelper.oracleConfidence st = 0 /\
      TestHelper.deviation st = 0 /\ TestHelper.stabilityBand st = 0
  end.
Proof.
  unfold TestHelper.getProtocolStatus; intros Hrun.
  destruct (OracleAggregator.getAggregatedPrice (now w) (feeds w)
              (aggregator w)) as [[[price_ ts] confidence]|e].
  - ok_step Hrun as ready Hready.
    ok_step Hrun as classified Hclass.
    injection Hrun as <-. cbn.
    do 6 (split; [reflexivity || assumption|]).
    split.
    + intros Hpos.
      destruct (Z.gtb_spec price_ 0) as [_|Hle]; [|lia].
      ok_step Hclass as dev Hdev. injection Hclass as <-. cbn.
      split; [exact Hdev | reflexivity].
    + intros ->. cbn in Hclass. injection Hclass as <-.
      repeat split; vm_compute; reflexivity.
  - ok_step Hrun as ready Hready.
    cbn in Hrun. injection Hrun as <-. cbn.
    repeat split; assumption.
Qed.

Lemma status_matches_controller_witness :
  exists st,
    TestHelper.getProtocolStatus (Scenario.priced 102000000) = Ok st /\
    TestHelper.targetPrice st = TARGET_PRICE.
Proof.
  assert (Hrun : exists st,
             TestHelper.getProtocolStatus (Scenario.priced 102000000) = Ok st)
    by (vm_compute; eexists; reflexivity).
  destruct Hrun as [st Hrun]. exists st; split; [exact Hrun|].
  exact (proj1 (status_matches_controller _ st Hrun)).
Defined.

End StatusFacts.

Module PauseFacts.

Import OZ StabilizationController.

(** X25.  The controller's emergency pause stops rebase and nothing else:
    after an emergencyPause that returns, rebase fails for every caller (an
    operator gets EnforcedPause) and leaves the world as it is, while
    canRebase and previewRebase answer exactly as before the pause, so a
    preview may still report canExecute = true; emergencyUnpause by the same
    caller restores the controller's state. *)
Theorem pause_stops_rebase_only admin w c' :
  emergencyPause admin (controller w) = Ok (tt, c') ->
  (forall sender, is_ok (rebase sender (set_controller c' w)) = false) /\
  (forall sender,
     hasRole OPERATOR_ROLE sender (oz c') = true ->
     rebase sender (set_controller c' w) = Err EnforcedPause) /\
  (forall sender,
     step (ToController sender Rebase) (set_controller c' w)
       = set_controller c' w) /\
  canRebase (set_controller c' w) = canRebase w /\
  previewRebase (set_controller c' w) = previewRebase w /\
  emergencyUnpause admin c' = Ok (tt, controller w).
Proof.
  unfold emergencyPause; intros Hrun.
  ok_step Hrun as u Hadmin. unfold _pause in Hrun.
  ok_step Hrun as o Ho. ok_step Ho as u' Hnp. injection Ho as <-.
  injection Hrun as <-.
  unfold whenNotPaused in Hnp.
  destruct (_paused (oz (controller w))) eqn:Hp; [discriminate|].
  assert (Hfail : forall sender,
             hasRole OPERATOR_ROLE sender
               (oz (set_oz (set_paused true (oz (controller w)))
                      (controller w))) = true ->
             rebase sender
               (set_controller
                  (set_oz (set_paused true (oz (controller w)))
                     (controller w)) w) = Err EnforcedPause).
  { intros sender Hrole. unfold rebase, onlyRole.
    cbn [controller set_controller oz set_oz] in *.
    rewrite Hrole. reflexivity. }
  assert (Hnok : forall sender,
             is_ok (rebase sender
                      (set_controller
                         (set_oz (set_paused true (oz (controller w)))
                            (controller w)) w)) = false).
  { intros sender.
    destruct (hasRole OPERATOR_ROLE sender
                (oz (set_oz (set_paused true (oz (controller w)))
                       (controller w)))) eqn:Hrole.
    - rewrite (Hfail sender Hrole). reflexivity.
    - unfold rebase, onlyRole.
      cbn [controller set_controller oz set_oz] in *.
      rewrite Hrole. reflexivity. }
  split; [exact Hnok|]. split; [exact Hfail|].
  split.
  { intros sender. cbn [step run]. specialize (Hnok sender).
    destruct (rebase sender _) as [[? ?]|e]; [discriminate | reflexivity]. }
  split; [reflexivity|]. split; [reflexivity|].
  unfold emergencyUnpause.
  assert (Hadmin' : onlyRole DEFAULT_ADMIN_ROLE admin
                      (oz (set_oz (set_paused true (oz (controller w)))
                             (controller w))) = Ok u)
    by exact Hadmin.
  rewrite Hadmin'. cbn.
  destruct w as [n f t a c sf]; destruct c as [o e g r l k b h];
    destruct o as [i rs pz]; cbn in *. subst pz. reflexivity.
Qed.

Lemma pause_stops_rebase_only_witness :
  exists c',
    emergencyPause Scenario.deployer (controller Scenario.live) = Ok (tt, c') /\
    rebase Scenario.deployer (set_controller c' Scenario.live)
      = Err EnforcedPause.
Proof.
  assert (Hrun : exists c',
             emergencyPause Scenario.deployer (controller Scenario.live)
               = Ok (tt, c'))
    by (vm_compute; eexists; reflexivity).
  destruct Hrun as [c' Hrun]. exists c'; split; [exact Hrun|].
  refine (proj1 (proj2 (pause_stops_rebase_only _ _ c' Hrun)) _ _).
  unfold emergencyPause, _pause in Hrun.
  ok_step Hrun as u Hadmin. ok_step Hrun as o Ho. ok_step Ho as u' Hnp.
  injection Ho as <-. injection Hrun as <-.
  vm_compute. reflexivity.
Defined.

End PauseFacts.

(** ** The treasury *)

Module TreasuryFacts.

Import Treasury.

Lemma asset_at_insert s asset info other :
  asset_at (set_assets (<[asset := info]> (assets s)) s) other
  = if decide (other = asset) then info else asset_at s other.
Proof.
  unfold asset_at; cbn [assets set_assets].
  destruct (decide (other = asset)) as [->|Hne].
  - rewrite lookup_insert_eq. reflexivity.
  - rewrite lookup_insert_ne by congruence. reflexivity.
Qed.

Lemma share_bounds T a :
  0 <= T -> 0 <= a ->
  0 <= T * a / ALLOCATION_PRECISION /\
  ALLOCATION_PRECISION * (T * a / ALLOCATION_PRECISION) <= T * a /\
  T * a < ALLOCATION_PRECISION * (T * a / ALLOCATION_PRECISION)
          + ALLOCATION_PRECISION.
Proof.
  intros HT Ha. unfold ALLOCATION_PRECISION.
  assert (Hp : 0 <= T * a) by (apply Z.mul_nonneg_nonneg; assumption).
  pose proof (Z.mul_div_le (T * a) 10000 ltac:(lia)) as Hle.
  pose proof (Z.mul_succ_div_gt (T * a) 10000 ltac:(lia)) as Hgt.
  pose proof (Z.div_pos (T * a) 10000 Hp ltac:(lia)) as Hq.
  lia.
Qed.

(** What a call of allocateAsset that returns has done. *)
Lemma allocateAsset_effect sender asset a0 a1 a2 a3 s s' :
  allocateAsset sender asset a0 a1 a2 a3 s = Ok (tt, s') ->
  let T := totalBalance (asset_at s asset) in
  hasRole ALLOCATOR_ROLE sender s = true /\
  isActive (asset_at s asset) = true /\
  a0 + a1 + a2 + a3 = ALLOCATION_PRECISION /\
  asset_at s' asset
  = {| totalBalance := T;
       strategicReserve := T * a0 / ALLOCATION_PRECISION;
       ecosystemFunding := T * a1 / ALLOCATION_PRECISION;
       liquidityIncentives := T * a2 / ALLOCATION_PRECISION;
       operations := T * a3 / ALLOCATION_PRECISION;
       isActive := true |} /\
  (forall other, other <> asset -> asset_at s' other = asset_at s other) /\
  assetList s' = assetList s /\ _roles s' = _roles s.
Proof.
  unfold allocateAsset; intros Hrun.
  ok_step Hrun as u Hrole. ok_step Hrun as u1 Hact.
  ok_step Hrun as s01 H01. ok_step Hrun as s012 H012.
  ok_step Hrun as total Htotal. ok_step Hrun as u2 Hsum.
  ok_step Hrun as p0 Hp0. ok_step Hrun as q0 Hq0.
  ok_step Hrun as p1 Hp1. ok_step Hrun as q1 Hq1.
  ok_step Hrun as p2 Hp2. ok_step Hrun as q2 Hq2.
  ok_step Hrun as p3 Hp3. ok_step Hrun as q3 Hq3.
  injection Hrun as <-. ok_arith.
  unfold onlyRole in Hrole.
  destruct (hasRole ALLOCATOR_ROLE sender s) eqn:Hr; [|discriminate].
  apply Z.eqb_eq in Hsum.
  split; [reflexivity|]. split; [assumption|]. split; [assumption|].
  split.
  { rewrite asset_at_insert, decide_True by reflexivity.
    rewrite Hact. reflexivity. }
  split.
  { intros other Hne. rewrite asset_at_insert, decide_False by assumption.
    reflexivity. }
  split; reflexivity.
Qed.

(** What a call of receiveAsset that returns has done. *)
Lemma receiveAsset_effect sender asset amount source token_call s s' :
  receiveAsset sender asset amount source token_call s = Ok (tt, s') ->
  let info := asset_at s asset in
  0 < amount /\
  totalBalance info + amount <= UINT256_MAX /\
  asset_at s' asset
  = {| totalBalance := totalBalance info + amount;
       strategicReserve := strategicReserve info;
       ecosystemFunding := ecosystemFunding info;
       liquidityIncentives := liquidityIncentives info;
       operations := operations info;
       isActive := true |} /\
  (forall other, other <> asset -> asset_at s' other = asset_at s other) /\
  assetList s'
  = (if isActive info then assetList s else assetList s ++ [asset]) /\
  _roles s' = _roles s.
Proof.
  unfold receiveAsset; intros Hrun.
  ok_step Hrun as u Hrole. ok_step Hrun as u1 Hasset.
  ok_step Hrun as u2 Hamount. apply require_Ok' in Hamount.
  apply Z.gtb_lt in Hamount.
  destruct (isActive (asset_at s asset)) eqn:Hact; cbn [negb] in Hrun.
  - ok_step Hrun as total Htotal. ok_step Hrun as u3 Hcall.
    injection Hrun as <-. ok_arith.
    split; [lia|]. split; [assumption|].
    split.
    { rewrite asset_at_insert, decide_True by reflexivity.
      rewrite Hact. reflexivity. }
    split.
    { intros other Hne. rewrite asset_at_insert, decide_False by assumption.
      reflexivity. }
    split; reflexivity.
  - ok_step Hrun as total Htotal. ok_step Hrun as u3 Hcall.
    injection Hrun as <-.
    unfold asset_at in Htotal; cbn [assets set_assets set_assetList] in Htotal.
    rewrite lookup_insert_eq in Htotal.
    cbn [default from_option id totalBalance] in Htotal.
    fold (asset_at s asset) in Htotal. ok_arith.
    split; [lia|]. split; [assumption|].
    split.
    { unfold asset_at; cbn [assets set_assets set_assetList].
      rewrite !lookup_insert_eq. reflexivity. }
    split.
    { intros other Hne. unfold asset_at; cbn [assets set_assets set_assetList].
      rewrite !lookup_insert_ne by congruence. reflexivity. }
    split; reflexivity.
Qed.

Lemma bucket_cases k :
  0 <= k <= 3 -> k = 0 \/ k = 1 \/ k = 2 \/ k = 3.
Proof. lia. Qed.

(** What a call of transferAsset that returns has done. *)
Lemma transferAsset_effect sender asset to amount purpose source token_call
    s s' :
  transferAsset sender asset to amount purpose source token_call s
    = Ok (tt, s') ->
  let info := asset_at s asset in
  let info' := asset_at s' asset in
  0 < amount /\ 0 <= source <= 3 /\
  amount <= bucket source info /\ amount <= totalBalance info /\
  bucket source info' = bucket source info - amount /\
  (forall k, 0 <= k <= 3 -> k <> source -> bucket k info' = bucket k info) /\
  totalBalance info' = totalBalance info - amount /\
  isActive info' = isActive info /\
  (forall other, other <> asset -> asset_at s' other = asset_at s other) /\
  assetList s' = assetList s /\ _roles s' = _roles s.
Proof.
  unfold transferAsset; intros Hrun.
  ok_step Hrun as u Hrole. ok_step Hrun as u1 Hact.
  ok_step Hrun as u2 Hto. ok_step Hrun as u3 Hamount.
  apply require_Ok' in Hamount. apply Z.gtb_lt in Hamount.
  ok_step Hrun as info1 Hspend. ok_step Hrun as total Htotal.
  ok_step Hrun as u4 Hcall. injection Hrun as <-.
  apply checked_sub_Ok in Htotal. destruct Htotal as [-> Hle].
  rewrite asset_at_insert, decide_True by reflexivity.
  cbn [totalBalance isActive assetList set_assets _roles].
  assert (Hothers : forall other, other <> asset ->
            asset_at
              (set_assets
                 (<[asset := {| totalBalance := totalBalance info1 - amount;
                                strategicReserve := strategicReserve info1;
                                ecosystemFunding := ecosystemFunding info1;
                                liquidityIncentives :=
                                  liquidityIncentives info1;
                                operations := operations info1;
                                isActive := isActive info1 |}]> (assets s)) s)
              other = asset_at s other).
  { intros other Hne. rewrite asset_at_insert, decide_False by assumption.
    reflexivity. }
  destruct (Z.eqb_spec source 0) as [->|H0];
    [|destruct (Z.eqb_spec source 1) as [->|H1];
      [|destruct (Z.eqb_spec source 2) as [->|H2];
        [|destruct (Z.eqb_spec source 3) as [->|H3]; [|discriminate]]]];
    ok_step Hspend as u5 Hreq; ok_step Hspend as v Hv;
    injection Hspend as <-; ok_arith;
    apply Z.geb_le in Hreq;
    cbn [totalBalance strategicReserve ecosystemFunding liquidityIncentives
         operations isActive] in *;
    (split; [assumption|]); (split; [lia|]);
    (split; [exact Hreq|]); (split; [assumption|]);
    (split; [reflexivity|]);
    (split; [intros k Hk Hne; destruct (bucket_cases k Hk) as [-> | [-> | [-> | ->]]];
             first [contradiction | reflexivity]|]);
    (split; [reflexivity|]); (split; [reflexivity|]);
    (split; [exact Hothers|]); split; reflexivity.
Qed.

Lemma balanced_no_asset : balanced no_asset.
Proof. unfold balanced; cbn. lia. Qed.

Lemma books_inv_deployed : books_inv deployed.
Proof.
  split; [|split].
  - intros asset. unfold asset_at; cbn. rewrite lookup_empty.
    apply balanced_no_asset.
  - apply NoDup_nil_2.
  - intros asset. unfold asset_at; cbn. rewrite lookup_empty. cbn.
    split; [intros Hin; inversion Hin | discriminate].
Qed.

(** A change of state that moves the entries of one asset only. *)
Lemma books_inv_update asset s s' :
  books_inv s ->
  balanced (asset_at s' asset) ->
  (forall other, other <> asset -> asset_at s' other = asset_at s other) ->
  (isActive (asset_at s' asset) = isActive (asset_at s asset) /\
   assetList s' = assetList s) \/
  (isActive (asset_at s asset) = false /\
   isActive (asset_at s' asset) = true /\
   assetList s' = assetList s ++ [asset]) ->
  books_inv s'.
Proof.
  intros (Hbal & Hnd & Hlist) Hnew Hothers Hcase.
  split; [|split].
  - intros other. destruct (decide (other = asset)) as [->|Hne];
      [assumption|]. rewrite Hothers by assumption. apply Hbal.
  - destruct Hcase as [[_ ->]|(Hoff & _ & ->)]; [assumption|].
    apply NoDup_app. split; [assumption|]. split.
    + intros x Hx Hx'. apply list_elem_of_singleton in Hx'. subst x.
      apply Hlist in Hx. congruence.
    + apply NoDup_singleton.
  - intros other. destruct (decide (other = asset)) as [->|Hne].
    + destruct Hcase as [[-> ->]|(Hoff & -> & ->)]; [apply Hlist|].
      split; [reflexivity|]. intros _. apply elem_of_app. right.
      apply list_elem_of_singleton. reflexivity.
    + rewrite Hothers by assumption.
      destruct Hcase as [[_ ->]|(_ & _ & ->)]; [apply Hlist|].
      rewrite elem_of_app, list_elem_of_singleton, Hlist. tauto.
Qed.

Lemma books_inv_roles g s : books_inv s -> books_inv (set_roles g s).
Proof. intros H; exact H. Qed.

Lemma books_inv_step sender c s :
  books_inv s -> well_typed c -> books_inv (step sender c s).
Proof.
  intros Hinv Hty. unfold step.
  destruct (run sender c s) as [[[] s']|e] eqn:Hrun; cbn [commit];
    [|assumption].
  destruct c; cbn [run well_typed] in *.
  - unfold initialize in Hrun.
    destruct (_initialized s); [discriminate|]. injection Hrun as <-.
    exact Hinv.
  - apply receiveAsset_effect in Hrun.
    destruct Hrun as (Hpos & Hfit & Hinfo & Hothers & Hlist & _).
    pose proof (proj1 Hinv asset) as Hb. unfold balanced in Hb.
    apply (books_inv_update asset s); [assumption| |assumption|].
    + rewrite Hinfo. unfold balanced; cbn. lia.
    + rewrite Hinfo; cbn [isActive].
      destruct (isActive (asset_at s asset)) eqn:Hact.
      * left. split; [reflexivity | assumption].
      * right. split; [reflexivity|]. split; [reflexivity | assumption].
  - apply allocateAsset_effect in Hrun.
    destruct Hrun as (_ & Hact & Hsum & Hinfo & Hothers & Hlist & _).
    destruct Hty as ([Ha0 _] & [Ha1 _] & [Ha2 _] & [Ha3 _]).
    pose proof (proj1 Hinv asset) as Hb. unfold balanced in Hb.
    assert (HT : 0 <= totalBalance (asset_at s asset)) by lia.
    apply (books_inv_update asset s); [assumption| |assumption|].
    + rewrite Hinfo. unfold balanced; cbn.
      pose proof (share_bounds _ a0 HT Ha0) as (? & ? & _).
      pose proof (share_bounds _ a1 HT Ha1) as (? & ? & _).
      pose proof (share_bounds _ a2 HT Ha2) as (? & ? & _).
      pose proof (share_bounds _ a3 HT Ha3) as (? & ? & _).
      unfold ALLOCATION_PRECISION in *.
      assert (totalBalance (asset_at s asset) * a0
              + totalBalance (asset_at s asset) * a1
              + totalBalance (asset_at s asset) * a2
              + totalBalance (asset_at s asset) * a3
              = totalBalance (asset_at s asset) * 10000)
        by (rewrite <- !Z.mul_add_distr_l; f_equal; lia).
      lia.
    + left. rewrite Hinfo; cbn [isActive]. split; [congruence | assumption].
  - apply transferAsset_effect in Hrun.
    destruct Hrun as (Hpos & Hsrc & Hle & Hlet & Hspent & Hrest & Htot & Hact
                      & Hothers & Hlist & _).
    pose proof (proj1 Hinv asset) as Hb. unfold balanced in Hb.
    apply (books_inv_update asset s); [assumption| |assumption|].
    + unfold balanced.
      destruct (bucket_cases source Hsrc) as [-> | [-> | [-> | ->]]];
        [ pose proof (Hrest 1 ltac:(lia) ltac:(lia)) as E1;
          pose proof (Hrest 2 ltac:(lia) ltac:(lia)) as E2;
          pose proof (Hrest 3 ltac:(lia) ltac:(lia)) as E3
        | pose proof (Hrest 0 ltac:(lia) ltac:(lia)) as E1;
          pose proof (Hrest 2 ltac:(lia) ltac:(lia)) as E2;
          pose proof (Hrest 3 ltac:(lia) ltac:(lia)) as E3
        | pose proof (Hrest 0 ltac:(lia) ltac:(lia)) as E1;
          pose proof (Hrest 1 ltac:(lia) ltac:(lia)) as E2;
          pose proof (Hrest 3 ltac:(lia) ltac:(lia)) as E3
        | pose proof (Hrest 0 ltac:(lia) ltac:(lia)) as E1;
          pose proof (Hrest 1 ltac:(lia) ltac:(lia)) as E2;
          pose proof (Hrest 2 ltac:(lia) ltac:(lia)) as E3 ];
        unfold bucket in *; cbn [Z.eqb Pos.eqb] in *; lia.
    + left. split; assumption.
  - unfold emergencyWithdraw in Hrun.
    ok_step Hrun as u Hrole. ok_step Hrun as u1 Hto. ok_step Hrun as u2 Hcall.
    injection Hrun as <-. exact Hinv.
  - unfold grantRole in Hrun. ok_step Hrun as u Hrole.
    injection Hrun as <-. exact Hinv.
  - unfold revokeRole in Hrun. ok_step Hrun as u Hrole.
    injection Hrun as <-. exact Hinv.
  - unfold renounceRole in Hrun. ok_step Hrun as u Hrole.
    injection Hrun as <-. exact Hinv.
Qed.

Lemma reachable_books_inv s : reachable s -> books_inv s.
Proof.
  induction 1 as [|sender c s Hreach IH Hty];
    [apply books_inv_deployed | apply books_inv_step; assumption].
Qed.

Lemma funded_reachable : reachable Holdings.funded.
Proof.
  unfold Holdings.funded.
  refine (reachable_step _ _ _ (reachable_step _ _ _ reachable_deployed _) _).
  - exact I.
  - unfold well_typed, is_uint256, UINT256_MAX. lia.
Qed.

Lemma allocated_reachable : reachable Holdings.allocated.
Proof.
  unfold Holdings.allocated.
  refine (reachable_step _ _ _ funded_reachable _).
  unfold well_typed, is_uint256, UINT256_MAX. lia.
Qed.

(** X26.  An allocateAsset that returns was given four shares that add up
    to exactly 10000 for an active asset; it sets each bucket to that share
    of the current total, rounded down, whatever the buckets held before,
    and leaves the total, the other assets and the asset list alone.  The
    four buckets then add up to at most the total and fall short of it by at
    most 3 units. *)
Theorem allocation_rounds_down sender asset a0 a1 a2 a3 s s' :
  0 <= a0 -> 0 <= a1 -> 0 <= a2 -> 0 <= a3 ->
  0 <= totalBalance (asset_at s asset) ->
  allocateAsset sender asset a0 a1 a2 a3 s = Ok (tt, s') ->
  let T := totalBalance (asset_at s asset) in
  let info' := getAssetInfo asset s' in
  a0 + a1 + a2 + a3 = 10000 /\
  isActive (asset_at s asset) = true /\
  totalBalance info' = T /\
  strategicReserve info' = T * a0 / 10000 /\
  ecosystemFunding info' = T * a1 / 10000 /\
  liquidityIncentives info' = T * a2 / 10000 /\
  operations info' = T * a3 / 10000 /\
  T - 3 <= strategicReserve info' + ecosystemFunding info'
           + liquidityIncentives info' + operations info' <= T /\
  (forall other, other <> asset ->
     getAssetInfo other s' = getAssetInfo other s) /\
  getAssetCount s' = getAssetCount s.
Proof.
  intros Ha0 Ha1 Ha2 Ha3 HT Hrun. cbn zeta. unfold getAssetInfo, getAssetCount.
  apply allocateAsset_effect in Hrun.
  destruct Hrun as (_ & Hact & Hsum & Hinfo & Hothers & Hlist & _).
  rewrite Hinfo, Hlist. cbn [totalBalance strategicReserve ecosystemFunding
                             liquidityIncentives operations].
  unfold ALLOCATION_PRECISION in *.
  do 7 (split; [reflexivity || assumption|]).
  split; [|split; [exact Hothers | reflexivity]].
  pose proof (share_bounds _ a0 HT Ha0) as (? & ? & ?).
  pose proof (share_bounds _ a1 HT Ha1) as (? & ? & ?).
  pose proof (share_bounds _ a2 HT Ha2) as (? & ? & ?).
  pose proof (share_bounds _ a3 HT Ha3) as (? & ? & ?).
  unfold ALLOCATION_PRECISION in *.
  assert (totalBalance (asset_at s asset) * a0
          + totalBalance (asset_at s asset) * a1
          + totalBalance (asset_at s asset) * a2
          + totalBalance (asset_at s asset) * a3
          = totalBalance (asset_at s asset) * 10000)
    by (rewrite <- !Z.mul_add_distr_l; f_equal; lia).
  lia.
Qed.

Lemma allocation_rounds_down_witness :
  exists s',
    allocateAsset Holdings.admin Holdings.reserveAsset 3333 3333 3333 1
      Holdings.funded = Ok (tt, s') /\
    strategicReserve (getAssetInfo Holdings.reserveAsset s') = 333 /\
    operations (getAssetInfo Holdings.reserveAsset s') = 0.
Proof.
  assert (Hrun : exists s',
             allocateAsset Holdings.admin Holdings.reserveAsset 3333 3333 3333
               1 Holdings.funded = Ok (tt, s'))
    by (vm_compute; eexists; reflexivity).
  destruct Hrun as [s' Hrun]. exists s'; split; [exact Hrun|].
  assert (HT : totalBalance (asset_at Holdings.funded Holdings.reserveAsset)
               = 1000) by (vm_compute; reflexivity).
  pose proof (allocation_rounds_down Holdings.admin Holdings.reserveAsset
                3333 3333 3333 1 Holdings.funded s'
                ltac:(lia) ltac:(lia) ltac:(lia) ltac:(lia)
                ltac:(rewrite HT; lia) Hrun) as Hall.
  cbn zeta in Hall.
  destruct Hall as (_ & _ & _ & H0 & _ & _ & H3 & _).
  rewrite HT in H0, H3. split; [exact H0 | exact H3].
Defined.

(** X27.  In every state the treasury can reach from deployment, whoever
    calls, with whatever uint256 arguments and whether the assets' token
    contracts return or revert, the books of every asset balance: no bucket is
    negative and the four buckets together are at most totalBalance; the
    asset list has no duplicates and holds exactly the active assets.  So
    the subtractions of transferAsset never underflow: the call does not end
    in a Panic unless the token call does. *)
Theorem treasury_books_balance s :
  reachable s ->
  books_inv s /\
  forall sender asset to amount purpose source token_call,
    is_panic token_call = false ->
    is_panic (transferAsset sender asset to amount purpose source token_call s)
    = false.
Proof.
  intros Hreach. pose proof (reachable_books_inv s Hreach) as Hinv.
  split; [assumption|].
  intros sender asset to amount purpose source token_call Hcall.
  pose proof (proj1 Hinv asset) as Hb. unfold balanced in Hb.
  unfold transferAsset.
  destruct (onlyRole SPENDER_ROLE sender s) as [u|e] eqn:Hrole;
    [|unfold onlyRole in Hrole;
      destruct (hasRole SPENDER_ROLE sender s); inversion Hrole; reflexivity].
  cbn [bind].
  destruct (isActive (asset_at s asset)); [|reflexivity]. cbn [require bind].
  destruct (negb (N.eqb to 0)); [|reflexivity]. cbn [require bind].
  destruct (Z.gtb_spec amount 0) as [Hpos|_]; [|reflexivity].
  cbn [require bind].
  destruct (Z.eqb_spec source 0) as [->|H0];
    [|destruct (Z.eqb_spec source 1) as [->|H1];
      [|destruct (Z.eqb_spec source 2) as [->|H2];
        [|destruct (Z.eqb_spec source 3) as [->|H3]; [|reflexivity]]]];
    match goal with
    | |- context [require (?b >=? amount) _] =>
        destruct (Z.geb_spec b amount) as [Hge|Hlt]; [|reflexivity]
    end;
    cbn [require bind];
    rewrite checked_sub_fits by lia; cbn [bind totalBalance];
    rewrite checked_sub_fits by lia; cbn [bind];
    (destruct token_call as [[]|e]; [reflexivity | exact Hcall]).
Qed.

Lemma treasury_books_balance_witness :
  books_inv Holdings.allocated.
Proof.
  exact (proj1 (treasury_books_balance Holdings.allocated allocated_reachable)).
Defined.

(** X28.  Spending is limited by the bucket, not by the total.  For a
    spender, an active asset whose books balance, a recipient other than the
    zero address, a positive amount, a source code from 0 to 3 and a token
    call that returns: transferAsset returns exactly when the amount is at
    most that bucket; it then takes the amount off that bucket and off
    totalBalance, leaves the other three buckets and the other assets as
    they are, and the books still balance.  A larger amount reverts with a
    reason string and changes nothing. *)
Theorem spending_limited_by_bucket sender asset to amount purpose source s :
  balanced (asset_at s asset) ->
  hasRole SPENDER_ROLE sender s = true ->
  isActive (asset_at s asset) = true ->
  to <> 0%N -> 0 < amount -> 0 <= source <= 3 ->
  (amount <= bucket source (asset_at s asset) ->
   exists s',
     transferAsset sender asset to amount purpose source (Ok tt) s
       = Ok (tt, s') /\
     bucket source (getAssetInfo asset s')
       = bucket source (getAssetInfo asset s) - amount /\
     totalBalance (getAssetInfo asset s')
       = totalBalance (getAssetInfo asset s) - amount /\
     (forall k, 0 <= k <= 3 -> k <> source ->
        bucket k (getAssetInfo asset s') = bucket k (getAssetInfo asset s)) /\
     (forall other, other <> asset ->
        getAssetInfo other s' = getAssetInfo other s) /\
     balanced (getAssetInfo asset s')) /\
  (bucket source (asset_at s asset) < amount ->
   exists reason,
     transferAsset sender asset to amount purpose source (Ok tt) s
       = Err (Revert reason) /\
     step sender (TransferAsset asset to amount purpose source (Ok tt)) s = s).
Proof.
  intros Hb Hrole Hact Hto Hpos Hsrc.
  split.
  - intros Hle.
    assert (Hrun : exists s',
               transferAsset sender asset to amount purpose source (Ok tt) s
               = Ok (tt, s')).
    { unfold transferAsset. unfold onlyRole. rewrite Hrole, Hact.
      cbn [bind require].
      destruct (N.eqb_spec to 0) as [Hz|_]; [contradiction|].
      cbn [negb bind require].
      destruct (Z.gtb_spec amount 0) as [_|Hgt]; [|lia].
      cbn [bind require]. unfold balanced in Hb.
      destruct (bucket_cases source Hsrc) as [-> | [-> | [-> | ->]]];
        unfold bucket in Hle; cbn [Z.eqb Pos.eqb] in Hle |- *;
        match goal with
        | |- context [require (?b >=? amount) _] =>
            destruct (Z.geb_spec b amount) as [Hge|Hlt]; [|lia]
        end;
        cbn [require bind];
        rewrite checked_sub_fits by lia; cbn [bind totalBalance];
        rewrite checked_sub_fits by lia; cbn [bind];
        eexists; reflexivity. }
    destruct Hrun as [s' Hrun]. exists s'. split; [exact Hrun|].
    unfold getAssetInfo.
    apply transferAsset_effect in Hrun.
    destruct Hrun as (_ & _ & _ & Hlet & Hspent & Hrest & Htot & _
                      & Hothers & _).
    split; [assumption|]. split; [assumption|]. split; [assumption|].
    split; [assumption|].
    unfold balanced in *.
    destruct (bucket_cases source Hsrc) as [-> | [-> | [-> | ->]]];
      [ pose proof (Hrest 1 ltac:(lia) ltac:(lia)) as E1;
        pose proof (Hrest 2 ltac:(lia) ltac:(lia)) as E2;
        pose proof (Hrest 3 ltac:(lia) ltac:(lia)) as E3
      | pose proof (Hrest 0 ltac:(lia) ltac:(lia)) as E1;
        pose proof (Hrest 2 ltac:(lia) ltac:(lia)) as E2;
        pose proof (Hrest 3 ltac:(lia) ltac:(lia)) as E3
      | pose proof (Hrest 0 ltac:(lia) ltac:(lia)) as E1;
        pose proof (Hrest 1 ltac:(lia) ltac:(lia)) as E2;
        pose proof (Hrest 3 ltac:(lia) ltac:(lia)) as E3
      | pose proof (Hrest 0 ltac:(lia) ltac:(lia)) as E1;
        pose proof (Hrest 1 ltac:(lia) ltac:(lia)) as E2;
        pose proof (Hrest 2 ltac:(lia) ltac:(lia)) as E3 ];
      unfold bucket in *; cbn [Z.eqb Pos.eqb] in *; lia.
  - intros Hlt.
    assert (Hrun : exists reason,
               transferAsset sender asset to amount purpose source (Ok tt) s
               = Err (Revert reason)).
    { unfold transferAsset. unfold onlyRole. rewrite Hrole, Hact.
      cbn [bind require].
      destruct (N.eqb_spec to 0) as [Hz|_]; [contradiction|].
      cbn [negb bind require].
      destruct (Z.gtb_spec amount 0) as [_|Hgt]; [|lia].
      cbn [bind require].
      destruct (bucket_cases source Hsrc) as [-> | [-> | [-> | ->]]];
        unfold bucket in Hlt; cbn [Z.eqb Pos.eqb] in Hlt |- *;
        match goal with
        | |- context [require (?b >=? amount) _] =>
            destruct (Z.geb_spec b amount) as [Hge|Hlt']; [lia|]
        end;
        cbn [require bind]; eexists; reflexivity. }
    destruct Hrun as [reason Hrun]. exists reason. split; [exact Hrun|].
    unfold step; cbn [run]. rewrite Hrun. reflexivity.
Qed.

Lemma spending_limited_by_bucket_witness :
  (exists s',
     transferAsset Holdings.admin Holdings.reserveAsset 9%N 100 "audit" 3
       (Ok tt) Holdings.allocated = Ok (tt, s')) /\
  (exists reason,
     transferAsset Holdings.admin Holdings.reserveAsset 9%N 101 "audit" 3
       (Ok tt) Holdings.allocated = Err (Revert reason)).
Proof.
  assert (Hb : balanced (asset_at Holdings.allocated Holdings.reserveAsset))
    by (apply (proj1 (reachable_books_inv _ allocated_reachable))).
  assert (Hops : bucket 3 (asset_at Holdings.allocated Holdings.reserveAsset)
                 = 100) by (vm_compute; reflexivity).
  split.
  - destruct (proj1 (spending_limited_by_bucket Holdings.admin
                       Holdings.reserveAsset 9%N 100 "audit" 3
                       Holdings.allocated Hb
                       ltac:(vm_compute; reflexivity)
                       ltac:(vm_compute; reflexivity)
                       ltac:(discriminate) ltac:(lia) ltac:(lia))
                    ltac:(rewrite Hops; lia)) as (s' & Hrun & _).
    exists s'. exact Hrun.
  - destruct (proj2 (spending_limited_by_bucket Holdings.admin
                       Holdings.reserveAsset 9%N 101 "audit" 3
                       Holdings.allocated Hb
                       ltac:(vm_compute; reflexivity)
                       ltac:(vm_compute; reflexivity)
                       ltac:(discriminate) ltac:(lia) ltac:(lia))
                    ltac:(rewrite Hops; lia)) as (reason & Hrun & _).
    exists reason. exact Hrun.
Defined.

End TreasuryFacts.

(** ** The aggregator's health flag *)

Module HealthFacts.

Import OracleAggregator.

(** X29.  isHealthy has no fallback of its own: it fails with the error of
    getAggregatedPrice whenever that call fails (no source registered, none
    contributing, an arithmetic overflow), and otherwise returns true
    exactly when at least half of the registered sources contributed a
    quote. *)
Theorem healthy_iff_half_contribute now feeds s :
  match isHealthy now feeds s with
  | Ok healthy =>
      is_ok (getAggregatedPrice now feeds s) = true /\
      (healthy = true <->
       Z.of_nat (length (oracleKeys s))
       <= 2 * Z.of_nat (length (contributions now feeds s)))
  | Err e => getAggregatedPrice now feeds s = Err e
  end.
Proof.
  unfold isHealthy.
  destruct (getAggregatedPrice now feeds s) as [[[price_ ts] conf]|e] eqn:Hcall;
    cbn [bind]; [|reflexivity].
  split; [reflexivity|].
  apply AggregatorFacts.getAggregatedPrice_Ok in Hcall
    as (_ & _ & -> & Hne & _).
  pose proof (RegistryFacts.contributions_at_most_keys now feeds s) as Hle.
  assert (Hvalid : (1 <= length (contributions now feeds s))%nat).
  { destruct (contributions now feeds s); [contradiction | simpl; lia]. }
  set (v := Z.of_nat (length (contributions now feeds s))) in *.
  set (n := Z.of_nat (length (oracleKeys s))) in *.
  assert (Hn : 0 < n) by lia.
  rewrite Z.geb_le. split.
  - intros Hconf.
    destruct (Z.le_gt_cases n (2 * v)) as [Hok|Hlow]; [assumption|].
    assert (v * 100 / n < 50) by (apply Z.div_lt_upper_bound; lia). lia.
  - intros Hhalf. apply Z.div_le_lower_bound; lia.
Qed.

End HealthFacts.
